(** * AgentIQ: budget-guarded task orchestration

    A shallow embedding of [backend/src/services/token_budget.py]
    ([TokenBudgetManager]), [backend/src/services/enhanced_orchestrator.py]
    ([EnhancedAgentOrchestrator]), [backend/src/agents/orchestrator.py]
    ([AgentOrchestrator]), the agents of [backend/src/agents]
    ([PlannerAgent], [WebSearchAgent], [CodeExecutionAgent]) and the query
    endpoint of [backend/src/api/main.py].

    Python [float] is the kernel's binary64 ([PrimFloat.float]), Python [int]
    is [Z], [str] is [string].  A coroutine is modelled by the function it
    computes once awaited: a state transformer over the [world] (the Redis
    server, the structured log, the orchestrator's attributes and the trace of
    capability invocations) that ends with a value or with a raised
    exception. *)

From Stdlib Require Import ZArith List String Ascii Bool Lia Floats.
From stdpp Require Import base option strings gmap pretty.

Set Warnings "-inexact-float".

Open Scope string_scope.
Open Scope Z_scope.

(* ===================================================================== *)
(** ** Python exceptions and results *)

(** The exception classes the code distinguishes ([core/exceptions.py]);
    every other subclass of [Exception] is a [PyError] with its class name. *)
Inductive exn : Type :=
| TokenBudgetException (message : string)
| AgentExecutionException (message : string)
| PyError (class_name message : string).

(** [str(e)] *)
Definition str_exn (e : exn) : string :=
  match e with
  | TokenBudgetException m => m
  | AgentExecutionException m => m
  | PyError _ m => m
  end.

Inductive res (A : Type) : Type :=
| Val (a : A)
| Exc (e : exn).
Arguments Val {A} a.
Arguments Exc {A} e.

Definition res_bind {A B} (r : res A) (k : A -> res B) : res B :=
  match r with
  | Val a => k a
  | Exc e => Exc e
  end.

(* ===================================================================== *)
(** ** Python numbers *)

Module Py.

(** [float(n)] for an [int]: correctly rounded (ties to even);
    [OverflowError] when the rounded value is not finite. *)
Definition float_of_int (n : Z) : res float :=
  let f := SF2Prim (binary_normalize prec emax n 0 false) in
  if PrimFloat.is_infinity f
  then Exc (PyError "OverflowError" "int too large to convert to float")
  else Val f.

(** [n * x] with [n : int] and [x : float]. *)
Definition mul_int_float (n : Z) (x : float) : res float :=
  res_bind (float_of_int n) (fun f => Val (f * x)%float).

(** [x / y] on floats: [ZeroDivisionError] on a zero divisor. *)
Definition truediv (x y : float) : res float :=
  if (y =? 0)%float
  then Exc (PyError "ZeroDivisionError" "float division by zero")
  else Val (x / y)%float.

(** [x > y] on floats. *)
Definition gt (x y : float) : bool := (y <? x)%float.

(** [int(x)] for a float: truncation towards zero. *)
Definition int_of_float (x : float) : res Z :=
  match Prim2SF x with
  | S754_zero _ => Val 0
  | S754_finite s m e =>
      let a := if 0 <=? e then Zpos m * 2 ^ e else Zpos m / 2 ^ (- e) in
      Val (if s then - a else a)
  | S754_infinity _ =>
      Exc (PyError "OverflowError" "cannot convert float infinity to integer")
  | S754_nan =>
      Exc (PyError "ValueError" "cannot convert float NaN to integer")
  end.

(** [len(s)] *)
Definition len (s : string) : Z := Z.of_nat (String.length s).

(** Four decimal digits, zero padded. *)
Definition pad4 (n : Z) : string :=
  let d := pretty n in
  match String.length d with
  | 1%nat => "000" +:+ d
  | 2%nat => "00" +:+ d
  | 3%nat => "0" +:+ d
  | _ => d
  end.

(** [f"{x:.4f}"]: the exact binary value rounded to four decimals, ties
    to even. *)
Definition format_4f (x : float) : string :=
  match Prim2SF x with
  | S754_nan => "nan"
  | S754_infinity s => if s then "-inf" else "inf"
  | S754_zero s => if s then "-0.0000" else "0.0000"
  | S754_finite s m e =>
      let n :=
        if 0 <=? e then Zpos m * 2 ^ e * 10000
        else
          let d := 2 ^ (- e) in
          let q := (Zpos m * 10000) / d in
          let r := (Zpos m * 10000) mod d in
          match 2 * r ?= d with
          | Lt => q
          | Gt => q + 1
          | Eq => if Z.even q then q else q + 1
          end in
      (if s then "-" else "") +:+ pretty (n / 10000) +:+ "." +:+ pad4 (n mod 10000)
  end.

End Py.

(* ===================================================================== *)
(** ** Opaque values and dictionaries *)

(** What the code asks of an agent's result: [str(r)] (when its size is
    estimated) and [repr(r)] (when it sits inside a printed [dict]). *)
Class PyObject (A : Type) : Type := {
  py_str : A -> string;
  py_repr : A -> string
}.

(** A [dict] keyed by task index keeps insertion order and holds a key at
    most once. *)
Definition dict (A : Type) : Type := list (Z * A).

Fixpoint dict_get {A} (d : dict A) (k : Z) : option A :=
  match d with
  | [] => None
  | (k', v) :: d' => if Z.eqb k' k then Some v else dict_get d' k
  end.

(** [k in d] *)
Definition dict_contains {A} (d : dict A) (k : Z) : bool :=
  match dict_get d k with Some _ => true | None => false end.

(** [d[k] = v]: a present key keeps its position, a new key goes last. *)
Fixpoint dict_set {A} (d : dict A) (k : Z) (v : A) : dict A :=
  match d with
  | [] => [(k, v)]
  | (k', v') :: d' =>
      if Z.eqb k' k then (k', v) :: d' else (k', v') :: dict_set d' k v
  end.

Fixpoint join (sep : string) (l : list string) : string :=
  match l with
  | [] => ""
  | [x] => x
  | x :: l' => x +:+ sep +:+ join sep l'
  end.

(** [str(d)] for a [dict] *)
Definition str_dict {A} `{PyObject A} (d : dict A) : string :=
  "{" +:+ join ", " (map (fun kv => pretty (fst kv) +:+ ": " +:+ py_repr (snd kv)) d) +:+ "}".

(* ===================================================================== *)
(** ** Configuration ([core/config.py]) *)

Record Settings : Type := {
  LLM_MODEL : string;
  TOKEN_BUDGET_DAILY : float;
  TOKEN_BUDGET_PER_QUERY : float;
  COST_PER_INPUT_TOKEN : float;
  COST_PER_OUTPUT_TOKEN : float;
  MAX_AGENTS_PER_QUERY : Z
}.

Definition default_settings : Settings := {|
  LLM_MODEL := "claude-sonnet-4-20250514";
  TOKEN_BUDGET_DAILY := 100;
  TOKEN_BUDGET_PER_QUERY := 5;
  COST_PER_INPUT_TOKEN := 15;
  COST_PER_OUTPUT_TOKEN := 75;
  MAX_AGENTS_PER_QUERY := 10
|}.

(* ===================================================================== *)
(** ** The Redis server *)

(** The hash [daily_usage:<date>]: the three fields the code maintains. *)
Record daily_usage_hash : Type := {
  h_total_cost : float;
  h_total_tokens : Z;
  h_queries_processed : Z
}.

(** The [usage_record] of [record_usage] (wall-clock timestamp left out). *)
Record usage_record : Type := {
  u_date : string;
  u_query_id : string;
  u_agent_name : string;
  u_input_tokens : Z;
  u_output_tokens : Z;
  u_total_tokens : Z;
  u_cost : float;
  u_model : string
}.

(** The server as the client sees it.  [faults] is the schedule of the
    connection: the n-th round trip raises when its flag is set, and an
    exhausted schedule means a healthy connection. *)
Record redis : Type := {
  faults : list bool;
  hashes : gmap string daily_usage_hash;
  lists : gmap string (list usage_record)
}.

Definition redis_with_faults (fs : list bool) (r : redis) : redis :=
  {| faults := fs; hashes := hashes r; lists := lists r |}.

(** HGET key total_cost *)
Definition hget_total_cost (key : string) (r : redis) : option float :=
  h_total_cost <$> hashes r !! key.

(** LPUSH key record *)
Definition lpush (key : string) (u : usage_record) (r : redis) : redis :=
  {| faults := faults r;
     hashes := hashes r;
     lists := <[key := u :: default [] (lists r !! key)]> (lists r) |}.

Definition empty_hash : daily_usage_hash :=
  {| h_total_cost := 0; h_total_tokens := 0; h_queries_processed := 0 |}.

(** The transaction of [_update_daily_totals]: HINCRBYFLOAT total_cost,
    HINCRBY total_tokens, HINCRBY queries_processed 1 (and EXPIRE), applied
    together.  The server's sum of costs is taken as a binary64 addition. *)
Definition hincr_totals (key : string) (cost : float) (tokens : Z) (r : redis) : redis :=
  let h := default empty_hash (hashes r !! key) in
  {| faults := faults r;
     hashes := <[key := {| h_total_cost := (h_total_cost h + cost)%float;
                           h_total_tokens := h_total_tokens h + tokens;
                           h_queries_processed := h_queries_processed h + 1 |}]> (hashes r);
     lists := lists r |}.

(* ===================================================================== *)
(** ** The world and the effect monad *)

(** One invocation of a capability. *)
Record call (A : Type) : Type := {
  call_agent : string;
  call_method : string;
  call_task : string;
  call_context : option (dict A)
}.
Arguments call_agent {A} _.
Arguments call_method {A} _.
Arguments call_task {A} _.
Arguments call_context {A} _.

(** [MetricsCollector]: the counters (durations left out). *)
Record metrics : Type := {
  queries_completed : Z;
  queries_failed : Z;
  cost_used : float;
  agent_executions : Z
}.

Record world (A : Type) : Type := {
  w_redis : redis;
  w_today : string;                    (* date.today().isoformat() *)
  w_log : list string;                 (* structlog events, oldest first *)
  w_calls : list (call A);             (* capability invocations, oldest first *)
  current_query_id : string;
  current_query_cost : float;
  agent_costs : gmap string float;
  w_metrics : metrics
}.
Arguments w_redis {A} _.
Arguments w_today {A} _.
Arguments w_log {A} _.
Arguments w_calls {A} _.
Arguments current_query_id {A} _.
Arguments current_query_cost {A} _.
Arguments agent_costs {A} _.
Arguments w_metrics {A} _.

Section Effects.
Context {R : Type}.

Definition M (A : Type) : Type := world R -> res A * world R.

Definition ret {A} (a : A) : M A := fun w => (Val a, w).

Definition raise {A} (e : exn) : M A := fun w => (Exc e, w).

Definition bind {A B} (m : M A) (k : A -> M B) : M B :=
  fun w =>
    match m w with
    | (Val a, w') => k a w'
    | (Exc e, w') => (Exc e, w')
    end.

(** [try: m  except Exception as e: h e] *)
Definition try_except {A} (m : M A) (h : exn -> M A) : M A :=
  fun w =>
    match m w with
    | (Val a, w') => (Val a, w')
    | (Exc e, w') => h e w'
    end.

Definition lift {A} (r : res A) : M A := fun w => (r, w).

Definition with_redis (r : redis) (w : world R) : world R :=
  {| w_redis := r; w_today := w_today w; w_log := w_log w; w_calls := w_calls w;
     current_query_id := current_query_id w; current_query_cost := current_query_cost w;
     agent_costs := agent_costs w; w_metrics := w_metrics w |}.

Definition with_log (l : list string) (w : world R) : world R :=
  {| w_redis := w_redis w; w_today := w_today w; w_log := l; w_calls := w_calls w;
     current_query_id := current_query_id w; current_query_cost := current_query_cost w;
     agent_costs := agent_costs w; w_metrics := w_metrics w |}.

Definition with_calls (c : list (call R)) (w : world R) : world R :=
  {| w_redis := w_redis w; w_today := w_today w; w_log := w_log w; w_calls := c;
     current_query_id := current_query_id w; current_query_cost := current_query_cost w;
     agent_costs := agent_costs w; w_metrics := w_metrics w |}.

Definition with_query (id : string) (cost : float) (costs : gmap string float)
  (w : world R) : world R :=
  {| w_redis := w_redis w; w_today := w_today w; w_log := w_log w; w_calls := w_calls w;
     current_query_id := id; current_query_cost := cost;
     agent_costs := costs; w_metrics := w_metrics w |}.

Definition with_metrics (m : metrics) (w : world R) : world R :=
  {| w_redis := w_redis w; w_today := w_today w; w_log := w_log w; w_calls := w_calls w;
     current_query_id := current_query_id w; current_query_cost := current_query_cost w;
     agent_costs := agent_costs w; w_metrics := m |}.

(** [logger.info / warning / error (event, ...)] *)
Definition log (event : string) : M unit :=
  fun w => (Val tt, with_log (w_log w ++ [event]) w).

(** [date.today().isoformat()] *)
Definition date_today : M string := fun w => (Val (w_today w), w).

(** One round trip to the server: it consumes one flag of the schedule and
    raises when the flag is set, leaving the data untouched. *)
Definition redis_command {A} (op : redis -> A * redis) : M A :=
  fun w =>
    let r := w_redis w in
    match faults r with
    | true :: fs =>
        (Exc (PyError "ConnectionError" "Error connecting to Redis"),
         with_redis (redis_with_faults fs r) w)
    | _ =>
        let '(a, r') := op (redis_with_faults (tl (faults r)) r) in
        (Val a, with_redis r' w)
    end.

End Effects.

Declare Scope py_scope.
Delimit Scope py_scope with py.
Notation "'let*' x ':=' m 'in' k" := (bind m (fun x => k))
  (at level 10, x name, m at level 100, k at level 200) : py_scope.
Notation "m ';;;' k" := (bind m (fun _ => k))
  (at level 100, k at level 200, right associativity) : py_scope.
Open Scope py_scope.

(* ===================================================================== *)
(** ** [TokenBudgetManager] ([services/token_budget.py]) *)

Record TokenBudgetManager : Type := {
  tb_settings : Settings;
  daily_budget : float;
  per_query_budget : float;
  cost_per_input_token : float;
  cost_per_output_token : float
}.

(** [__init__]: the per-million rates become per-token rates here, once. *)
Definition TokenBudgetManager_init (settings : Settings) : TokenBudgetManager := {|
  tb_settings := settings;
  daily_budget := TOKEN_BUDGET_DAILY settings;
  per_query_budget := TOKEN_BUDGET_PER_QUERY settings;
  cost_per_input_token := (COST_PER_INPUT_TOKEN settings / 1000000)%float;
  cost_per_output_token := (COST_PER_OUTPUT_TOKEN settings / 1000000)%float
|}.

(** The mapping returned by [pre_flight_check]; an absent key is [None]. *)
Record budget_check : Type := {
  approved : bool;
  estimated_cost : float;
  current_daily_usage : option float;
  remaining_daily_budget : option float;
  budget_usage_percent : option float;
  per_query_budget_remaining : option float;
  bc_error : option string
}.

(** [{"approved": True, "estimated_cost": 0.0, "error": str(e)}] *)
Definition fail_open (e : exn) : budget_check := {|
  approved := true;
  estimated_cost := 0;
  current_daily_usage := None;
  remaining_daily_budget := None;
  budget_usage_percent := None;
  per_query_budget_remaining := None;
  bc_error := Some (str_exn e)
|}.

(** The mapping returned by [record_usage]: the usage record, or
    [{"error": str(e)}]. *)
Inductive usage_result : Type :=
| UsageRecorded (u : usage_record)
| UsageError (message : string).

(** [usage_record.get("cost", 0.0)] *)
Definition get_cost (u : usage_result) : float :=
  match u with
  | UsageRecorded r => u_cost r
  | UsageError _ => 0%float
  end.

(** ["error" in usage_record] *)
Definition has_error_key (u : usage_result) : bool :=
  match u with
  | UsageRecorded _ => false
  | UsageError _ => true
  end.

Section TokenBudget.
Context {R : Type}.
Variable self : TokenBudgetManager.

Definition _get_daily_usage : M (R := R) float :=
  try_except
    (let* today := date_today in
     let usage_key := "daily_usage:" +:+ today in
     let* total_cost := redis_command (fun r => (hget_total_cost usage_key r, r)) in
     ret (match total_cost with Some c => c | None => 0%float end))
    (fun _ => ret 0%float).

Definition check_daily_budget (estimated_cost : float) : M (R := R) bool :=
  try_except
    (let* current_usage := _get_daily_usage in
     let remaining_budget := (daily_budget self - current_usage)%float in
     if Py.gt estimated_cost remaining_budget
     then log "daily_budget_exceeded" ;;; ret false
     else ret true)
    (fun e => log "daily_budget_check_failed" ;;; ret true).

Definition check_per_query_budget (estimated_cost : float) : M (R := R) bool :=
  if Py.gt estimated_cost (per_query_budget self)
  then log "per_query_budget_exceeded" ;;; ret false
  else ret true.

Definition calculate_cost_estimate (input_tokens output_tokens_estimate : Z) : res float :=
  res_bind (Py.mul_int_float input_tokens (cost_per_input_token self)) (fun input_cost =>
  res_bind (Py.mul_int_float output_tokens_estimate (cost_per_output_token self)) (fun output_cost =>
  let total_cost := (input_cost + output_cost)%float in
  Val total_cost)).

Definition per_query_message (estimated_cost : float) : string :=
  "Per-query budget exceeded. Estimated cost: $" +:+ Py.format_4f estimated_cost +:+
  ", Budget: $" +:+ Py.format_4f (per_query_budget self).

Definition daily_message (estimated_cost current_usage : float) : string :=
  "Daily budget exceeded. Estimated cost: $" +:+ Py.format_4f estimated_cost +:+
  ", Remaining: $" +:+ Py.format_4f (daily_budget self - current_usage)%float.

(** The body of the [try] of [pre_flight_check]. *)
Definition pre_flight_body (input_tokens output_tokens_estimate : Z) : M (R := R) budget_check :=
  let* estimated_cost := lift (calculate_cost_estimate input_tokens output_tokens_estimate) in
  let* per_query_ok := check_per_query_budget estimated_cost in
  if negb per_query_ok
  then raise (TokenBudgetException (per_query_message estimated_cost))
  else
    let* daily_ok := check_daily_budget estimated_cost in
    if negb daily_ok
    then
      let* current_usage := _get_daily_usage in
      raise (TokenBudgetException (daily_message estimated_cost current_usage))
    else
      let* current_usage := _get_daily_usage in
      let* ratio := lift (Py.truediv current_usage (daily_budget self)) in
      let budget_usage_percent := (ratio * 100)%float in
      ret {| approved := true;
             estimated_cost := estimated_cost;
             current_daily_usage := Some current_usage;
             remaining_daily_budget := Some (daily_budget self - current_usage)%float;
             budget_usage_percent := Some budget_usage_percent;
             per_query_budget_remaining := Some (per_query_budget self - estimated_cost)%float;
             bc_error := None |}.

Definition pre_flight_check (input_tokens output_tokens_estimate : Z) : M (R := R) budget_check :=
  try_except
    (pre_flight_body input_tokens output_tokens_estimate)
    (fun e =>
       match e with
       | TokenBudgetException _ => raise e
       | _ => log "pre_flight_check_failed" ;;; ret (fail_open e)
       end).

Definition _store_usage_record (u : usage_record) : M (R := R) unit :=
  try_except
    (let today := u_date u in
     let usage_log_key := "usage_log:" +:+ today in
     redis_command (fun r => (tt, lpush usage_log_key u r)) ;;;
     redis_command (fun r => (tt, r)))
    (fun e => log "usage_record_storage_failed").

Definition _update_daily_totals (cost : float) (tokens : Z) : M (R := R) unit :=
  try_except
    (let* today := date_today in
     let usage_key := "daily_usage:" +:+ today in
     redis_command (fun r => (tt, hincr_totals usage_key cost tokens r)))
    (fun e => log "daily_totals_update_failed").

Definition record_usage (input_tokens output_tokens : Z) (agent_name query_id : string)
  : M (R := R) usage_result :=
  try_except
    (let* actual_cost := lift (calculate_cost_estimate input_tokens output_tokens) in
     let* today := date_today in
     let usage_record := {|
       u_date := today;
       u_query_id := query_id;
       u_agent_name := agent_name;
       u_input_tokens := input_tokens;
       u_output_tokens := output_tokens;
       u_total_tokens := input_tokens + output_tokens;
       u_cost := actual_cost;
       u_model := LLM_MODEL (tb_settings self) |} in
     _store_usage_record usage_record ;;;
     _update_daily_totals actual_cost (input_tokens + output_tokens) ;;;
     log "usage_recorded" ;;;
     ret (UsageRecorded usage_record))
    (fun e => log "usage_recording_failed" ;;; ret (UsageError (str_exn e))).

End TokenBudget.

(* ===================================================================== *)
(** ** Plans and capabilities *)

(** One element of the planner's JSON array; a key the planner left out is
    [None]. *)
Record task : Type := {
  t_task : option string;
  t_agent : option string;
  t_depends_on : option (list Z)
}.

(** An agent object: the methods it has ([hasattr]) and what each computes.
    Capabilities are opaque: a method is the function from its arguments to
    the value it returns or the exception it raises. *)
Record agent (R : Type) : Type := {
  a_plan : option (string -> res (list task));
  a_execute : option (string -> dict R -> res R);
  a_search : option (string -> res R);
  a_synthesize : option (string -> dict R -> res R)
}.
Arguments a_plan {R} _.
Arguments a_execute {R} _.
Arguments a_search {R} _.
Arguments a_synthesize {R} _.

Definition newline : string := String "010"%char EmptyString.

(** [repr(s)] of a key in a [KeyError] message (plain identifiers only). *)
Definition quote (s : string) : string := "'" +:+ s +:+ "'".

Definition KeyError {A} (key : string) : res A := Exc (PyError "KeyError" (quote key)).

Definition AttributeError {A} (attr : string) : res A :=
  Exc (PyError "AttributeError" ("object has no attribute " +:+ quote attr)).

(** [task["task"]], [task["agent"]], [task.get("task", "")],
    [task.get("depends_on", [])] *)
Definition task_getitem_task (t : task) : res string :=
  match t_task t with Some s => Val s | None => KeyError "task" end.

Definition task_getitem_agent (t : task) : res string :=
  match t_agent t with Some s => Val s | None => KeyError "agent" end.

Definition task_get_task (t : task) : string := default "" (t_task t).

Definition task_get_depends_on (t : task) : list Z := default [] (t_depends_on t).

(** [{d: results[d] for d in deps if d in results}] *)
Definition dep_results {A} (results : dict A) (deps : list Z) : dict A :=
  fold_left
    (fun acc d =>
       if dict_contains results d
       then match dict_get results d with
            | Some v => dict_set acc d v
            | None => acc
            end
       else acc)
    deps [].

Section Capabilities.
Context {R : Type}.

(** Awaiting a capability: the invocation is traced, then its value or
    exception is delivered. *)
Definition invoke (name method task_text : string) (context : option (dict R))
  (r : res R) : M (R := R) R :=
  fun w =>
    (r, with_calls (w_calls w ++ [{| call_agent := name; call_method := method;
                                     call_task := task_text; call_context := context |}]) w).

(** [agents[name]] *)
Definition agents_getitem (agents : gmap string (agent R)) (name : string) : res (agent R) :=
  match agents !! name with Some a => Val a | None => KeyError name end.

(** [await planner.plan(query)] *)
Definition call_plan (planner : agent R) (query : string) : M (R := R) (list task) :=
  match a_plan planner with
  | Some plan =>
      fun w =>
        (plan query,
         with_calls (w_calls w ++ [{| call_agent := "planner"; call_method := "plan";
                                      call_task := query; call_context := None |}]) w)
  | None => lift (AttributeError "plan")
  end.

(** [await agents["synthesis"].synthesize(query=query, results=results)] *)
Definition call_synthesis (agents : gmap string (agent R)) (query : string)
  (results : dict R) : M (R := R) R :=
  let* a := lift (agents_getitem agents "synthesis") in
  match a_synthesize a with
  | Some synthesize => invoke "synthesis" "synthesize" query (Some results) (synthesize query results)
  | None => lift (AttributeError "synthesize")
  end.

End Capabilities.

(* ===================================================================== *)
(** ** [AgentOrchestrator] ([agents/orchestrator.py]) *)

Record plain_outcome (R : Type) : Type := {
  po_answer : R;
  po_steps : list task;
  po_intermediate_results : dict R
}.
Arguments po_answer {R} _.
Arguments po_steps {R} _.
Arguments po_intermediate_results {R} _.

Module AgentOrchestrator.
Section Orchestrator.
Context {R : Type}.
Variable agents : gmap string (agent R).
Variable planner : agent R.            (* agents["planner"], bound by __init__ *)

(** One iteration of the loop over [enumerate(tasks)]. *)
Definition run_task (i : Z) (t : task) (results : dict R) : M (R := R) (dict R) :=
  let deps := task_get_depends_on t in
  let dep_results := dep_results results deps in
  let* agent_name := lift (task_getitem_agent t) in
  let* agent := lift (agents_getitem agents agent_name) in
  let* result :=
    match a_execute agent with
    | Some execute =>
        let* task_text := lift (task_getitem_task t) in
        invoke agent_name "execute" task_text (Some dep_results)
          (execute task_text dep_results)
    | None => lift (AttributeError "execute")
    end in
  ret (dict_set results i result).

Fixpoint run_tasks (tasks : list task) (i : Z) (results : dict R) : M (R := R) (dict R) :=
  match tasks with
  | [] => ret results
  | t :: rest =>
      let* results' := run_task i t results in
      run_tasks rest (i + 1) results'
  end.

Definition execute (query : string) : M (R := R) (plain_outcome R) :=
  let* tasks := call_plan planner query in
  let* results := run_tasks tasks 0 [] in
  let* final_answer := call_synthesis agents query results in
  ret {| po_answer := final_answer; po_steps := tasks; po_intermediate_results := results |}.

End Orchestrator.
End AgentOrchestrator.

(* ===================================================================== *)
(** ** [EnhancedAgentOrchestrator] ([services/enhanced_orchestrator.py]) *)

(** The mapping returned by [execute] (elapsed time left out). *)
Record query_outcome (R : Type) : Type := {
  o_query_id : string;
  o_answer : R;
  o_steps : list task;
  o_intermediate_results : dict R;
  o_total_cost : float;
  o_agent_costs : gmap string float;
  o_estimated_cost : float;
  o_currency : string;
  o_agents_used : Z
}.
Arguments o_query_id {R} _.
Arguments o_answer {R} _.
Arguments o_steps {R} _.
Arguments o_intermediate_results {R} _.
Arguments o_total_cost {R} _.
Arguments o_agent_costs {R} _.
Arguments o_estimated_cost {R} _.
Arguments o_currency {R} _.
Arguments o_agents_used {R} _.

(** [agent_estimates] of [_estimate_output_tokens] *)
Definition agent_estimates : gmap string Z :=
  list_to_map [("planner", 300); ("web_search", 500); ("data_analysis", 400);
               ("synthesis", 800); ("code_execution", 600)].

Module EnhancedAgentOrchestrator.
Section Orchestrator.
Context {R : Type} `{PyObject R}.
Variable settings : Settings.
Variable agents : gmap string (agent R).
Variable planner : agent R.            (* agents["planner"], bound by __init__ *)
Variable token_budget : TokenBudgetManager.

(** [f"{task}\n\nContext: {str(context)}"] *)
Definition input_text (task_text : string) (context : dict R) : string :=
  task_text +:+ newline +:+ newline +:+ "Context: " +:+ str_dict context.

Definition _estimate_output_tokens (agent_name : string) (t : task) : res Z :=
  let base_estimate := default 500 (agent_estimates !! agent_name) in
  let task_text := task_get_task t in
  if Py.len task_text >? 200
  then res_bind (Py.mul_int_float base_estimate 1.5) Py.int_of_float
  else Val base_estimate.

Definition _pre_flight_agent_check (agent_name : string) (t : task) (context : dict R)
  : M (R := R) budget_check :=
  try_except
    (let task_text := task_get_task t in
     let estimated_input_tokens := Py.len (input_text task_text context) / 4 in
     let* estimated_output_tokens := lift (_estimate_output_tokens agent_name t) in
     pre_flight_check token_budget estimated_input_tokens estimated_output_tokens)
    (fun e => log "pre_flight_check_failed" ;;; ret (fail_open e)).

Definition record_agent_execution_end : M (R := R) unit :=
  fun w =>
    let m := w_metrics w in
    (Val tt, with_metrics {| queries_completed := queries_completed m;
                             queries_failed := queries_failed m;
                             cost_used := cost_used m;
                             agent_executions := agent_executions m + 1 |} w).

Definition record_query_end (success : bool) : M (R := R) unit :=
  fun w =>
    let m := w_metrics w in
    (Val tt, with_metrics {| queries_completed := queries_completed m + (if success then 1 else 0);
                             queries_failed := queries_failed m + (if success then 0 else 1);
                             cost_used := cost_used m;
                             agent_executions := agent_executions m |} w).

(** [MetricsCollector.record_cost]: the budget percentage divides by the
    configured daily budget. *)
Definition record_cost (cost : float) : M (R := R) unit :=
  fun w =>
    let m := w_metrics w in
    let used := (cost_used m + cost)%float in
    let w' := with_metrics {| queries_completed := queries_completed m;
                              queries_failed := queries_failed m;
                              cost_used := used;
                              agent_executions := agent_executions m |} w in
    match Py.truediv used (TOKEN_BUDGET_DAILY settings) with
    | Val _ => (Val tt, w')
    | Exc e => (Exc e, w')
    end.

Definition _record_agent_usage (agent_name task_text : string) (context : dict R) (result : R)
  : M (R := R) unit :=
  try_except
    (let estimated_input_tokens := Py.len (input_text task_text context) / 4 in
     let result_text := py_str result in
     let estimated_output_tokens := Py.len result_text / 4 in
     let* query_id := (fun w => (Val (current_query_id w), w)) in
     let* usage_record :=
       record_usage token_budget estimated_input_tokens estimated_output_tokens
         agent_name query_id in
     let agent_cost := get_cost usage_record in
     (fun w => (Val tt, with_query (current_query_id w)
                          (current_query_cost w + agent_cost)%float
                          (<[agent_name := agent_cost]> (agent_costs w)) w)) ;;;
     log "agent_usage_recorded")
    (fun e => log "agent_usage_recording_failed").

(** The [hasattr] chain of [_execute_agent_with_budget_tracking]: which
    method of the agent is awaited, and with which arguments. *)
Definition dispatch (a : agent R) (agent_name task_text : string) (context : dict R)
  : M (R := R) R :=
  match a_execute a, a_search a, a_synthesize a with
  | Some execute, _, _ =>
      invoke agent_name "execute" task_text (Some context) (execute task_text context)
  | None, Some search, _ =>
      invoke agent_name "search" task_text None (search task_text)
  | None, None, Some synthesize =>
      invoke agent_name "synthesize" task_text (Some context) (synthesize task_text context)
  | None, None, None =>
      raise (AgentExecutionException ("Unknown agent type: " +:+ agent_name))
  end.

Definition _execute_agent_with_budget_tracking (a : agent R) (agent_name task_text : string)
  (context : dict R) : M (R := R) R :=
  try_except
    (let* result := dispatch a agent_name task_text context in
     record_agent_execution_end ;;;
     _record_agent_usage agent_name task_text context result ;;;
     ret result)
    (fun e => record_agent_execution_end ;;; raise e).

(** One iteration of the loop over [enumerate(tasks)]: the state of the loop
    is [results] and [total_estimated_cost]. *)
Definition run_task (i : Z) (t : task) (results : dict R) (total_estimated_cost : float)
  : M (R := R) (dict R * float) :=
  let deps := task_get_depends_on t in
  let dep_results := dep_results results deps in
  let* agent_name := lift (task_getitem_agent t) in
  let* a := lift (agents_getitem agents agent_name) in
  try_except
    (let* budget_check := _pre_flight_agent_check agent_name t dep_results in
     (if negb (approved budget_check)
      then raise (TokenBudgetException
                    ("Budget check failed for agent " +:+ agent_name +:+ ": " +:+
                     default "Unknown error" (bc_error budget_check)))
      else ret tt) ;;;
     let* task_text := lift (task_getitem_task t) in
     let* result := _execute_agent_with_budget_tracking a agent_name task_text dep_results in
     ret (dict_set results i result,
          (total_estimated_cost + estimated_cost budget_check)%float))
    (fun e =>
       let* _task_text := lift (task_getitem_task t) in
       log "agent_execution_failed" ;;;
       raise (AgentExecutionException ("Agent " +:+ agent_name +:+ " failed: " +:+ str_exn e))).

Fixpoint run_tasks (tasks : list task) (i : Z) (results : dict R) (total_estimated_cost : float)
  : M (R := R) (dict R * float) :=
  match tasks with
  | [] => ret (results, total_estimated_cost)
  | t :: rest =>
      let* st := run_task i t results total_estimated_cost in
      run_tasks rest (i + 1) (fst st) (snd st)
  end.

(** [execute]; [uuid] is the value of [str(uuid.uuid4())]. *)
Definition execute (query : string) (uuid : string) : M (R := R) (query_outcome R) :=
  (fun w => (Val tt, with_query uuid 0%float ∅ w)) ;;;
  try_except
    (log "query_started" ;;;
     let* tasks := call_plan planner query in
     let n := Z.of_nat (length tasks) in
     (if n >? MAX_AGENTS_PER_QUERY settings
      then raise (AgentExecutionException
                    ("Too many agents required: " +:+ pretty n +:+ " > " +:+
                     pretty (MAX_AGENTS_PER_QUERY settings)))
      else ret tt) ;;;
     let* st := run_tasks tasks 0 [] 0%float in
     let results := fst st in
     let total_estimated_cost := snd st in
     let* final_answer := call_synthesis agents query results in
     let* query_cost := (fun w => (Val (current_query_cost w), w)) in
     record_cost query_cost ;;;
     record_query_end true ;;;
     log "query_completed" ;;;
     (fun w =>
        (Val {| o_query_id := current_query_id w;
                o_answer := final_answer;
                o_steps := tasks;
                o_intermediate_results := results;
                o_total_cost := current_query_cost w;
                o_agent_costs := agent_costs w;
                o_estimated_cost := total_estimated_cost;
                o_currency := "USD";
                o_agents_used := n |}, w)))
    (fun e =>
       record_query_end false ;;;
       log "query_failed" ;;;
       raise (AgentExecutionException ("Query execution failed: " +:+ str_exn e))).

End Orchestrator.
End EnhancedAgentOrchestrator.

(* ===================================================================== *)
(** ** What a ledger read observes *)

Section LedgerRead.
Context {R : Type}.

(** The day's [total_cost] as stored (0.0 when the day has no entry). *)
Definition ledger_total_cost (w : world R) : float :=
  default 0%float (hget_total_cost ("daily_usage:" +:+ w_today w) (w_redis w)).

(** The next round trip to the server fails. *)
Definition ledger_down (w : world R) : bool := hd false (faults (w_redis w)).

(** The usage one read reports, and the world after that read. *)
Definition usage_seen (w : world R) : float :=
  if ledger_down w then 0%float else ledger_total_cost w.

Definition after_read (w : world R) : world R :=
  with_redis (redis_with_faults (tl (faults (w_redis w))) (w_redis w)) w.

(** The world after the daily check has rejected and the message has been
    built from a second read. *)
Definition after_daily_reject (w : world R) : world R :=
  after_read (with_log (w_log (after_read w) ++ ["daily_budget_exceeded"]) (after_read w)).

(** The mapping returned on approval. *)
Definition approval (self : TokenBudgetManager) (est usage : float) : budget_check := {|
  approved := true;
  estimated_cost := est;
  current_daily_usage := Some usage;
  remaining_daily_budget := Some (daily_budget self - usage)%float;
  budget_usage_percent := Some (usage / daily_budget self * 100)%float;
  per_query_budget_remaining := Some (per_query_budget self - est)%float;
  bc_error := None
|}.

(** Everything in the world but the Redis server and the log. *)
Definition outside_ledger (w : world R)
  : string * list (call R) * string * float * gmap string float * metrics :=
  (w_today w, w_calls w, current_query_id w, current_query_cost w, agent_costs w,
   w_metrics w).

(** [m] touches nothing but the Redis server and the log. *)
Definition ledger_only {A} (m : M (R := R) A) : Prop :=
  forall w, outside_ledger (snd (m w)) = outside_ledger w.

(** [m] returns in every world. *)
Definition never_raises {A} (m : M (R := R) A) : Prop :=
  forall w, exists a w', m w = (Val a, w').

End LedgerRead.

(* ===================================================================== *)
(** ** The wording of the specification, for comparison *)

(** Cost model: [cost = input_tokens * rate_in + output_tokens * rate_out]
    with [rate = per-million rate / 1,000,000]. *)
Definition spec_estimate_cost (settings : Settings) (input_tokens output_tokens : Z) : res float :=
  res_bind (Py.float_of_int input_tokens) (fun i =>
  res_bind (Py.float_of_int output_tokens) (fun o =>
  Val (i * (COST_PER_INPUT_TOKEN settings / 1000000) +
       o * (COST_PER_OUTPUT_TOKEN settings / 1000000))%float)).

(** Output tokens: a per-agent table with a default of 500, times 1.5 for a
    description longer than 200 characters. *)
Definition spec_base_output_tokens (agent_name : string) : Z :=
  if String.eqb agent_name "planner" then 300
  else if String.eqb agent_name "web_search" then 500
  else if String.eqb agent_name "data_analysis" then 400
  else if String.eqb agent_name "synthesis" then 800
  else if String.eqb agent_name "code_execution" then 600
  else 500.

Definition spec_output_tokens (agent_name task_text : string) : Z :=
  let base := spec_base_output_tokens agent_name in
  if 200 <? Py.len task_text then base * 3 / 2 else base.

(* ===================================================================== *)
(** ** What the recording step returns *)

Section Recording.
Context {R : Type} `{PyObject R}.
Variable self : TokenBudgetManager.

(** The record built by [record_usage] for a cost [c]. *)
Definition the_record (w : world R) (i o : Z) (name qid : string) (c : float) : usage_record :=
  {| u_date := w_today w; u_query_id := qid; u_agent_name := name;
     u_input_tokens := i; u_output_tokens := o; u_total_tokens := i + o;
     u_cost := c; u_model := LLM_MODEL (tb_settings self) |}.

(** The mapping [record_usage] hands back to [_record_agent_usage] for one
    completed task. *)
Definition usage_of (task_text : string) (context : dict R) (result : R) (name : string)
  (w : world R) : usage_result :=
  let i := Py.len (EnhancedAgentOrchestrator.input_text task_text context) / 4 in
  let o := Py.len (py_str result) / 4 in
  match calculate_cost_estimate self i o with
  | Val c => UsageRecorded (the_record w i o name (current_query_id w) c)
  | Exc e => UsageError (str_exn e)
  end.

(** What the [hasattr] chain adds to the trace: the one method awaited. *)
Definition invocation_of (a : agent R) (name txt : string) (ctx : dict R) : list (call R) :=
  match a_execute a, a_search a, a_synthesize a with
  | Some _, _, _ =>
      [{| call_agent := name; call_method := "execute"; call_task := txt;
          call_context := Some ctx |}]
  | None, Some _, _ =>
      [{| call_agent := name; call_method := "search"; call_task := txt;
          call_context := None |}]
  | None, None, Some _ =>
      [{| call_agent := name; call_method := "synthesize"; call_task := txt;
          call_context := Some ctx |}]
  | None, None, None => []
  end.

End Recording.

(* ===================================================================== *)
(** ** Rounding to binary64, in integers

    [binary_round_aux] of the Standard Library shifts a mantissa right and
    rounds on the two bits it keeps; the definitions below say the same with
    quotients and remainders. *)

(** [n] shifts to the right, with the round bit and the sticky bit. *)
Definition shr_spec (M n : Z) : shr_record :=
  {| shr_m := M / 2 ^ n;
     shr_r := Z.odd (M / 2 ^ (n - 1));
     shr_s := negb (M mod 2 ^ (n - 1) =? 0) |}.

(** Round to nearest, ties to even, of [M / 2 ^ n]. *)
Definition rne (M n : Z) : Z :=
  let q := M / 2 ^ n in
  match 2 * (M mod 2 ^ n) ?= 2 ^ n with
  | Lt => q
  | Eq => if Z.even q then q else q + 1
  | Gt => q + 1
  end.

(** How far the rounding of [M * 2 ^ e] shifts. *)
Definition shift_of (M e : Z) : Z := fexp prec emax (Zdigits2 M + e) - e.

(** The second half of [binary_round_aux]: renormalisation and overflow. *)
Definition finish (s : bool) (q E : Z) : spec_float :=
  let '(mrs, e) := shr_fexp prec emax q E loc_Exact in
  match shr_m mrs with
  | Z0 => S754_zero s
  | Zpos m => if e <=? emax - prec then S754_finite s m e else S754_infinity s
  | Zneg _ => S754_nan
  end.

(** The value of [M1 * 2 ^ e1] is at most that of [M2 * 2 ^ e2]. *)
Definition val_le (M1 e1 M2 e2 : Z) : Prop :=
  M1 * 2 ^ (e1 - Z.min e1 e2) <= M2 * 2 ^ (e2 - Z.min e1 e2).

(** Non-negative values: zeros of either sign, positive finite numbers,
    plus infinity. *)
Definition nonneg (x : spec_float) : Prop :=
  match x with
  | S754_zero _ => True
  | S754_finite s _ _ => s = false
  | S754_infinity s => s = false
  | S754_nan => False
  end.

(** The same without infinity. *)
Definition finite_nonneg (x : spec_float) : Prop :=
  match x with
  | S754_zero _ => True
  | S754_finite s _ _ => s = false
  | _ => False
  end.

(** A rate that is at least 0.0 and below infinity. *)
Definition usable_rate (r : float) : bool := ((0 <=? r) && (r <? infinity))%float.

(* ===================================================================== *)
(** ** The ledger after committed increments *)




(* ===================================================================== *)
(** ** Scenarios *)

Module Scenario.

(** Results are plain strings. *)
#[global] Instance string_object : PyObject string :=
  {| py_str := fun s => s; py_repr := quote |}.

Definition no_metrics : metrics :=
  {| queries_completed := 0; queries_failed := 0; cost_used := 0; agent_executions := 0 |}.

(** A fresh process on a given day, with a given connection schedule and
    ledger. *)
Definition world_of (fs : list bool) (h : gmap string daily_usage_hash) : world string := {|
  w_redis := {| faults := fs; hashes := h; lists := ∅ |};
  w_today := "2025-01-01";
  w_log := [];
  w_calls := [];
  current_query_id := "";
  current_query_cost := 0;
  agent_costs := ∅;
  w_metrics := no_metrics
|}.

Definition healthy : world string := world_of [] ∅.

(** Every round trip of the next few fails. *)
Definition outage : world string := world_of [true; true; true; true; true; true] ∅.

(** The day's ledger already holds 99.97 of the 100 allowed. *)
Definition nearly_spent : world string :=
  world_of [] {[ "daily_usage:2025-01-01" :=
                 {| h_total_cost := 99.97; h_total_tokens := 1000000;
                    h_queries_processed := 40 |} ]}.

(** A per-query budget of $0.001, everything else as shipped. *)
Definition tight_settings : Settings := {|
  LLM_MODEL := LLM_MODEL default_settings;
  TOKEN_BUDGET_DAILY := 100;
  TOKEN_BUDGET_PER_QUERY := 0.001;
  COST_PER_INPUT_TOKEN := 15;
  COST_PER_OUTPUT_TOKEN := 75;
  MAX_AGENTS_PER_QUERY := 10
|}.

(** A daily budget of one cent. *)
Definition small_daily_settings : Settings := {|
  LLM_MODEL := LLM_MODEL default_settings;
  TOKEN_BUDGET_DAILY := 0.01;
  TOKEN_BUDGET_PER_QUERY := 5;
  COST_PER_INPUT_TOKEN := 15;
  COST_PER_OUTPUT_TOKEN := 75;
  MAX_AGENTS_PER_QUERY := 10
|}.

(** A daily budget of zero. *)
Definition zero_daily_settings : Settings := {|
  LLM_MODEL := LLM_MODEL default_settings;
  TOKEN_BUDGET_DAILY := 0;
  TOKEN_BUDGET_PER_QUERY := 5;
  COST_PER_INPUT_TOKEN := 15;
  COST_PER_OUTPUT_TOKEN := 75;
  MAX_AGENTS_PER_QUERY := 10
|}.

Definition no_methods : agent string :=
  {| a_plan := None; a_execute := None; a_search := None; a_synthesize := None |}.

Definition web_search : agent string :=
  {| a_plan := None; a_execute := None;
     a_search := Some (fun q => Val ("results for " +:+ q));
     a_synthesize := None |}.

Definition data_analysis : agent string :=
  {| a_plan := None;
     a_execute := Some (fun t _ => Val ("analysis of " +:+ t));
     a_search := None; a_synthesize := None |}.

Definition synthesis : agent string :=
  {| a_plan := None; a_execute := None; a_search := None;
     a_synthesize := Some (fun _ _ => Val "answer") |}.

Definition planner_of (plan : res (list task)) : agent string :=
  {| a_plan := Some (fun _ => plan); a_execute := None; a_search := None;
     a_synthesize := None |}.

Definition search_task : task :=
  {| t_task := Some "search web for X"; t_agent := Some "web_search";
     t_depends_on := Some [] |}.

(** A task that names a dependency no task has produced. *)
Definition forward_task : task :=
  {| t_task := Some "analyze data Y"; t_agent := Some "data_analysis";
     t_depends_on := Some [0; 5] |}.

(** An agent whose capability raises. *)
Definition failing_agent : agent string :=
  {| a_plan := None;
     a_execute := Some (fun _ _ => Exc (PyError "TimeoutError" "sandbox timed out"));
     a_search := None; a_synthesize := None |}.

Definition agents_of (planner : agent string) : gmap string (agent string) :=
  list_to_map [("planner", planner); ("web_search", web_search);
               ("data_analysis", data_analysis); ("code_execution", failing_agent);
               ("synthesis", synthesis)].

(** A plan of one search task. *)
Definition one_search_plan : agent string := planner_of (Val [search_task]).

(** A planner whose answer cannot be parsed. *)
Definition broken_planner : agent string :=
  planner_of (Exc (PyError "JSONDecodeError" "Expecting value")).

(** A plan of eleven tasks, one more than the configured maximum. *)
Definition long_plan : agent string := planner_of (Val (repeat search_task 11)).

Definition code_task : task :=
  {| t_task := Some "run the script"; t_agent := Some "code_execution";
     t_depends_on := Some [0] |}.

(** A plan whose second task fails, followed by a third. *)
Definition failing_plan : agent string :=
  planner_of (Val [search_task; code_task; search_task]).

End Scenario.

(* ===================================================================== *)
(** ** Dates ([datetime.date]) *)

Module Date.

(** [_DAYS_IN_MONTH] and [_DAYS_BEFORE_MONTH], indexed by the month. *)
Definition days_in_month (month : Z) : Z :=
  nth (Z.to_nat month) [-1; 31; 28; 31; 30; 31; 30; 31; 31; 30; 31; 30; 31] 0.

Definition days_before_month (month : Z) : Z :=
  nth (Z.to_nat month) [-1; 0; 31; 59; 90; 120; 151; 181; 212; 243; 273; 304; 334] 0.

(** The proleptic Gregorian ordinal of a day to its year, month and day;
    day 1 is 0001-01-01. *)
Definition ord2ymd (ordinal : Z) : Z * Z * Z :=
  let n := ordinal - 1 in
  let n400 := n / 146097 in
  let n := n mod 146097 in
  let year := n400 * 400 + 1 in
  let n100 := n / 36524 in
  let n := n mod 36524 in
  let n4 := n / 1461 in
  let n := n mod 1461 in
  let n1 := n / 365 in
  let n := n mod 365 in
  let year := year + n100 * 100 + n4 * 4 + n1 in
  if (n1 =? 4) || (n100 =? 4) then (year - 1, 12, 31)
  else
    let leapyear := (n1 =? 3) && (negb (n4 =? 24) || (n100 =? 3)) in
    let month := Z.shiftr (n + 50) 5 in
    let preceding :=
      days_before_month month + (if (2 <? month) && leapyear then 1 else 0) in
    if n <? preceding
    then
      let month := month - 1 in
      let preceding :=
        preceding - (days_in_month month + (if (month =? 2) && leapyear then 1 else 0)) in
      (year, month, n - preceding + 1)
    else (year, month, n - preceding + 1).

(** [date.fromordinal(n)]: the days of the years 1 to 9999. *)
Definition fromordinal (n : Z) : res (Z * Z * Z) :=
  if n <? 1 then Exc (PyError "ValueError" "ordinal must be >= 1")
  else if 3652059 <? n then Exc (PyError "ValueError" "year 10000 is out of range")
  else Val (ord2ymd n).

(** [%02d] and [%04d] of a number that is not negative. *)
Definition pad2 (n : Z) : string :=
  if n <? 10 then "0" +:+ pretty n else pretty n.

Definition pad4 (n : Z) : string :=
  if n <? 10 then "000" +:+ pretty n
  else if n <? 100 then "00" +:+ pretty n
  else if n <? 1000 then "0" +:+ pretty n
  else pretty n.

(** [d.isoformat()] *)
Definition isoformat (d : Z * Z * Z) : string :=
  let '(year, month, day) := d in
  pad4 year +:+ "-" +:+ pad2 month +:+ "-" +:+ pad2 day.

End Date.

(* ===================================================================== *)
(** ** The reports of [TokenBudgetManager] *)

(** A Python number that is an [int] or a [float]. *)
Inductive number : Type :=
| PyInt (n : Z)
| PyFloat (x : float).

(** [min(x, 100)] for a float [x]: the first argument unless the second is
    smaller. *)
Definition min_100 (x : float) : number :=
  if Py.gt x 100 then PyInt 100 else PyFloat x.

(** The statistics of one day, as [get_daily_usage] and [get_usage_history]
    return them; an absent key is [None]. *)
Record usage_stats : Type := {
  s_date : string;
  s_total_cost : float;
  s_total_tokens : Z;
  s_queries_processed : Z;
  s_budget_usage_percent : number;
  s_daily_budget : option float;
  s_remaining_budget : option float
}.

(** The statistics of a day without an entry. *)
Definition no_usage (date : string) : usage_stats := {|
  s_date := date;
  s_total_cost := 0;
  s_total_tokens := 0;
  s_queries_processed := 0;
  s_budget_usage_percent := PyFloat 0;
  s_daily_budget := None;
  s_remaining_budget := None
|}.

(** The mapping returned by [get_daily_usage]: the statistics, or
    [{"error": str(e)}]. *)
Inductive usage_report : Type :=
| UsageStats (s : usage_stats)
| UsageReportError (message : string).

(** HGETALL key: [None] is the empty mapping of a key that does not exist. *)
Definition hgetall (key : string) (r : redis) : option daily_usage_hash :=
  hashes r !! key.

(** DEL key *)
Definition del (key : string) (r : redis) : redis :=
  {| faults := faults r; hashes := delete key (hashes r); lists := lists r |}.

Section TokenBudgetReports.
Context {R : Type}.
Variable self : TokenBudgetManager.

Definition get_daily_usage : M (R := R) usage_report :=
  try_except
    (let* today := date_today in
     let usage_key := "daily_usage:" +:+ today in
     let* usage_data := redis_command (fun r => (hgetall usage_key r, r)) in
     match usage_data with
     | None => ret (UsageStats (no_usage today))
     | Some h =>
         let total_cost := h_total_cost h in
         let total_tokens := h_total_tokens h in
         let queries_processed := h_queries_processed h in
         let* ratio := lift (Py.truediv total_cost (daily_budget self)) in
         let budget_usage_percent := (ratio * 100)%float in
         ret (UsageStats {|
                s_date := today;
                s_total_cost := total_cost;
                s_total_tokens := total_tokens;
                s_queries_processed := queries_processed;
                s_budget_usage_percent := min_100 budget_usage_percent;
                s_daily_budget := Some (daily_budget self);
                s_remaining_budget := Some (daily_budget self - total_cost)%float |})
     end)
    (fun e => log "daily_usage_retrieval_failed" ;;; ret (UsageReportError (str_exn e))).

(** One iteration of the loop of [get_usage_history]; [today] is
    [date.today().toordinal()]. *)
Definition history_entry (today i : Z) : M (R := R) usage_stats :=
  let* past_date := lift (Date.fromordinal (today - i)) in
  let usage_key := "daily_usage:" +:+ Date.isoformat past_date in
  let* usage_data := redis_command (fun r => (hgetall usage_key r, r)) in
  match usage_data with
  | Some h =>
      let* ratio := lift (Py.truediv (h_total_cost h) (daily_budget self)) in
      ret {| s_date := Date.isoformat past_date;
             s_total_cost := h_total_cost h;
             s_total_tokens := h_total_tokens h;
             s_queries_processed := h_queries_processed h;
             s_budget_usage_percent := min_100 (ratio * 100)%float;
             s_daily_budget := None;
             s_remaining_budget := None |}
  | None => ret (no_usage (Date.isoformat past_date))
  end.

Fixpoint history_loop (today : Z) (range : list Z) (history : list usage_stats)
  : M (R := R) (list usage_stats) :=
  match range with
  | [] => ret history
  | i :: rest =>
      let* entry := history_entry today i in
      history_loop today rest (history ++ [entry])
  end.

Definition get_usage_history (today days : Z) : M (R := R) (list usage_stats) :=
  try_except
    (let* history := history_loop today (seqZ 0 days) [] in
     ret (rev history))
    (fun e => log "usage_history_retrieval_failed" ;;; ret []).

(** [reset_daily_usage(target_date)]; [None] and the empty string stand for
    today. *)
Definition reset_daily_usage (target_date : option string) : M (R := R) unit :=
  try_except
    (let* reset_date :=
       match target_date with
       | Some d => if String.eqb d "" then date_today else ret d
       | None => date_today
       end in
     let usage_key := "daily_usage:" +:+ reset_date in
     redis_command (fun r => (tt, del usage_key r)) ;;;
     log "daily_usage_reset")
    (fun e => log "daily_usage_reset_failed").

End TokenBudgetReports.

(* ===================================================================== *)
(** ** The reports of [EnhancedAgentOrchestrator] *)

(** The mapping returned by [get_query_cost_breakdown]. *)
Inductive cost_breakdown : Type :=
| CostBreakdown (query_id : string) (total_cost : float) (agent_costs : gmap string float)
    (currency model : string)
| CostBreakdownError (message : string).

Section SessionReports.
Context {R : Type}.
Variable settings : Settings.
Variable token_budget : TokenBudgetManager.

Definition get_query_cost_breakdown (query_id : string) : M (R := R) cost_breakdown :=
  fun w =>
    if negb (String.eqb query_id (current_query_id w))
    then (Val (CostBreakdownError "Query ID not found in current session"), w)
    else (Val (CostBreakdown query_id (current_query_cost w) (agent_costs w) "USD"
                 (LLM_MODEL settings)), w).

Definition get_budget_status : M (R := R) usage_report := get_daily_usage token_budget.

End SessionReports.

(** What identifies the session in the world: the id of the current query
    and the two counters of finished queries. *)
Definition session_of {R} (w : world R) : string * Z * Z :=
  (current_query_id w, queries_completed (w_metrics w), queries_failed (w_metrics w)).

(** [m] leaves the session as it is. *)
Definition keeps_session {R A} (m : M (R := R) A) : Prop :=
  forall w, session_of (snd (m w)) = session_of w.

(** [m] counts its query once: as completed when it returns, and not at
    all when it raises, which is left to its handler. *)
Definition counts_completion {R A} (m : M (R := R) A) : Prop :=
  forall w,
    match m w with
    | (Val _, w') =>
        session_of w' =
        (current_query_id w, queries_completed (w_metrics w) + 1, queries_failed (w_metrics w))
    | (Exc _, w') => session_of w' = session_of w
    end.

(** The keys of a [dict], in insertion order. *)
Definition keys {A} (d : dict A) : list Z := map fst d.

(** What the history holds for the day of ordinal [d]. *)
Definition day_stats (self : TokenBudgetManager) (h : gmap string daily_usage_hash) (d : Z)
  : usage_stats :=
  let date := Date.isoformat (Date.ord2ymd d) in
  match h !! ("daily_usage:" +:+ date) with
  | Some e =>
      {| s_date := date;
         s_total_cost := h_total_cost e;
         s_total_tokens := h_total_tokens e;
         s_queries_processed := h_queries_processed e;
         s_budget_usage_percent := min_100 (h_total_cost e / daily_budget self * 100)%float;
         s_daily_budget := None;
         s_remaining_budget := None |}
  | None => no_usage date
  end.

(* ===================================================================== *)
(** ** Python strings and lists *)

Module Str.

Fixpoint drop (n : nat) (s : string) : string :=
  match n, s with
  | O, _ => s
  | S n', String _ s' => drop n' s'
  | S _, EmptyString => EmptyString
  end.

(** The text before the first occurrence of [sep] in [s] and the text after
    it; [None] when [sep] does not occur. *)
Fixpoint cut (sep s : string) {struct s} : option (string * string) :=
  if String.prefix sep s then Some (EmptyString, drop (String.length sep) s)
  else
    match s with
    | EmptyString => None
    | String c s' =>
        match cut sep s' with
        | Some (a, b) => Some (String c a, b)
        | None => None
        end
    end.

(** [c in s] for a character [c] *)
Fixpoint has_char (c : ascii) (s : string) : bool :=
  match s with
  | EmptyString => false
  | String c' s' => Ascii.eqb c' c || has_char c s'
  end.

(** The first piece of [s.split(sep)]. *)
Definition first_piece (sep s : string) : string :=
  match cut sep s with
  | Some (a, _) => a
  | None => s
  end.

(** [sep in s] *)
Definition contains (sep s : string) : bool :=
  match cut sep s with Some _ => true | None => false end.

(** [s.split(sep)] for a separator that is not empty: the pieces between
    the occurrences of [sep], found from the left. *)
Fixpoint split_fuel (fuel : nat) (sep s : string) : list string :=
  match cut sep s with
  | None => [s]
  | Some (a, b) =>
      match fuel with
      | O => [a; b]
      | S fuel' => a :: split_fuel fuel' sep b
      end
  end.

Definition split (sep s : string) : list string := split_fuel (String.length s) sep s.

End Str.

(** [l[i]] *)
Definition list_getitem {A} (l : list A) (i : nat) : res A :=
  match nth_error l i with
  | Some a => Val a
  | None => Exc (PyError "IndexError" "list index out of range")
  end.

(* ===================================================================== *)
(** ** [PlannerAgent] ([agents/planner.py]) *)

Module PlannerAgent.

Definition dq : string := String "034"%char EmptyString.

(** A JSON string literal. *)
Definition lit (s : string) : string := dq +:+ s +:+ dq.

Definition example_task (text agent_name deps : string) : string :=
  "  {" +:+ lit "task" +:+ ": " +:+ lit text +:+ ", " +:+ lit "agent" +:+ ": " +:+
  lit agent_name +:+ ", " +:+ lit "depends_on" +:+ ": " +:+ deps +:+ "}".

Definition prompt (query : string) : string :=
  String.concat newline
    ["You are a planning agent. Break this query into subtasks.";
     "";
     "Query: " +:+ query;
     "";
     "Think step by step:";
     "1. What information do we need?";
     "2. What tools can get that information?";
     "3. In what order should tasks be executed?";
     "";
     "Output JSON array of tasks:";
     "[";
     example_task "search web for X" "web_search" "[]" +:+ ",";
     example_task "analyze data Y" "data_analysis" "[0]" +:+ ",";
     example_task "synthesize findings" "synthesis" "[0, 1]";
     "]";
     ""].

(** The text handed to [json.loads]: what stands between the first
    [```json] and the next [```], or the whole reply. *)
Definition json_str (text : string) : res string :=
  if Str.contains "```json" text
  then res_bind (list_getitem (Str.split "```json" text) 1) (fun rest =>
       list_getitem (Str.split "```" rest) 0)
  else Val text.

Section Planner.
(** The model's reply to a prompt ([response.content[0].text]) and
    [json.loads], read as a plan. *)
Variable create : string -> res string.
Variable json_loads : string -> res (list task).

Definition plan (query : string) : res (list task) :=
  res_bind (create (prompt query)) (fun text =>
  res_bind (json_str text) json_loads).

End Planner.
End PlannerAgent.

(* ===================================================================== *)
(** ** JSON values *)

#[local] Set Warnings "-register-all".

Inductive json : Type :=
| JNull
| JBool (b : bool)
| JInt (n : Z)
| JFloat (x : float)
| JStr (s : string)
| JList (l : list json)
| JDict (d : list (string * json)).

Module Json.

(** [type(j).__name__] *)
Definition type_name (j : json) : string :=
  match j with
  | JNull => "NoneType"
  | JBool _ => "bool"
  | JInt _ => "int"
  | JFloat _ => "float"
  | JStr _ => "str"
  | JList _ => "list"
  | JDict _ => "dict"
  end.

Fixpoint lookup (d : list (string * json)) (key : string) : option json :=
  match d with
  | [] => None
  | (k, v) :: d' => if String.eqb k key then Some v else lookup d' key
  end.

(** [j.get(key, default)] *)
Definition get (j : json) (key : string) (default : json) : res json :=
  match j with
  | JDict d => Val (match lookup d key with Some v => v | None => default end)
  | _ => Exc (PyError "AttributeError"
                (quote (type_name j) +:+ " object has no attribute 'get'"))
  end.

(** [j[key]] for a string [key] *)
Definition getitem (j : json) (key : string) : res json :=
  match j with
  | JDict d => match lookup d key with Some v => Val v | None => KeyError key end
  | JStr _ => Exc (PyError "TypeError" "string indices must be integers, not 'str'")
  | JList _ => Exc (PyError "TypeError" "list indices must be integers or slices, not str")
  | _ => Exc (PyError "TypeError" (quote (type_name j) +:+ " object is not subscriptable"))
  end.

(** [for r in j]: the elements of a list, the keys of a mapping, the
    characters of a string. *)
Definition iterate (j : json) : res (list json) :=
  match j with
  | JList l => Val l
  | JDict d => Val (map (fun kv => JStr (fst kv)) d)
  | JStr s => Val (map (fun c => JStr (String c EmptyString)) (list_ascii_of_string s))
  | _ => Exc (PyError "TypeError" (quote (type_name j) +:+ " object is not iterable"))
  end.

End Json.

(* ===================================================================== *)
(** ** [WebSearchAgent] ([agents/web_search.py]) *)

Module WebSearchAgent.

(** The JSON body of the request. *)
Record request : Type := {
  rq_api_key : string;
  rq_query : string;
  rq_max_results : Z;
  rq_include_answer : bool
}.

Record search_result : Type := {
  sr_title : json;
  sr_content : json;
  sr_url : json;
  sr_score : json
}.

Definition base_url : string := "https://api.tavily.com/search".

(** One element of the comprehension. *)
Definition result_of (r : json) : res search_result :=
  res_bind (Json.getitem r "title") (fun title =>
  res_bind (Json.getitem r "content") (fun content =>
  res_bind (Json.getitem r "url") (fun url =>
  res_bind (Json.get r "score" (JInt 0)) (fun score =>
  Val {| sr_title := title; sr_content := content; sr_url := url; sr_score := score |})))).

Fixpoint results_of (rs : list json) : res (list search_result) :=
  match rs with
  | [] => Val []
  | r :: rs' =>
      res_bind (result_of r) (fun x =>
      res_bind (results_of rs') (fun xs => Val (x :: xs)))
  end.

Section Search.
(** [client.post(url, json=...)] followed by [response.json()]. *)
Variable post : string -> request -> res json.
Variable api_key : string.

Definition search (query : string) (max_results : Z) : res (list search_result) :=
  res_bind (post base_url {| rq_api_key := api_key; rq_query := query;
                             rq_max_results := max_results;
                             rq_include_answer := true |}) (fun data =>
  res_bind (Json.get data "results" (JList [])) (fun results =>
  res_bind (Json.iterate results) results_of)).

End Search.
End WebSearchAgent.

(* ===================================================================== *)
(** ** [CodeExecutionAgent] ([agents/code_execution.py]) *)

Module CodeExecutionAgent.

(** [self.supported_languages], in insertion order. *)
Definition supported_languages : list (string * string) :=
  [("python", "python3"); ("javascript", "node"); ("typescript", "ts-node");
   ("bash", "bash"); ("rust", "rustc")].

Fixpoint assoc (d : list (string * string)) (key : string) : option string :=
  match d with
  | [] => None
  | (k, v) :: d' => if String.eqb k key then Some v else assoc d' key
  end.

Definition get_supported_languages : list string := map fst supported_languages.

Definition _build_command (code language : string) : res string :=
  match assoc supported_languages language with
  | None => KeyError language
  | Some executor =>
      if String.eqb language "python" then Val ("echo '" +:+ code +:+ "' | python3")
      else if String.eqb language "javascript" then Val ("echo '" +:+ code +:+ "' | node")
      else if String.eqb language "typescript" then Val ("echo '" +:+ code +:+ "' | ts-node")
      else if String.eqb language "bash" then Val code
      else if String.eqb language "rust"
      then Val ("echo '" +:+ code +:+ "' > temp.rs && rustc temp.rs -o temp && ./temp")
      else Val ("echo '" +:+ code +:+ "' | " +:+ executor)
  end.

(** The mapping returned by [execute]; an absent key is [None]. *)
Record execution_result : Type := {
  er_success : bool;
  er_stdout : string;
  er_stderr : string;
  er_exit_code : Z;
  er_execution_time : number;
  er_error : option string;
  er_language : option string
}.

(** The mapping returned by [validate_code]. *)
Record validation : Type := {
  v_valid : bool;
  v_error : option string
}.

(** What is asked of the sandbox service, in order. *)
Inductive sandbox_event : Type :=
| SandboxCreate
| ProcessStart (cmd : string) (timeout : Z)
| ProcessWait
| SandboxClose.

(** One sandbox as the agent meets it: what each awaited operation gives,
    and the seconds between the two readings of the clock. *)
Record sandbox : Type := {
  sb_create : res unit;
  sb_start : string -> Z -> res unit;
  sb_wait : res unit;
  sb_stdout : res string;
  sb_stderr : res string;
  sb_exit_code : Z;
  sb_elapsed : float;
  sb_close : res unit
}.

(** A coroutine of the agent: from the requests made so far to its value
    or exception and the requests made since. *)
Definition T (A : Type) : Type := list sandbox_event -> res A * list sandbox_event.

Definition retT {A} (a : A) : T A := fun tr => (Val a, tr).

Definition liftT {A} (r : res A) : T A := fun tr => (r, tr).

Definition request {A} (ev : sandbox_event) (r : res A) : T A :=
  fun tr => (r, (tr ++ [ev])%list).

Definition bindT {A B} (m : T A) (k : A -> T B) : T B :=
  fun tr =>
    match m tr with
    | (Val a, tr') => k a tr'
    | (Exc e, tr') => (Exc e, tr')
    end.

(** [try: m  except ...: h e] *)
Definition try_exceptT {A} (m : T A) (h : exn -> T A) : T A :=
  fun tr =>
    match m tr with
    | (Val a, tr') => (Val a, tr')
    | (Exc e, tr') => h e tr'
    end.

(** [try: m  finally: cleanup]: an exception of the cleanup replaces the
    outcome of [m]. *)
Definition try_finallyT {A} (m : T A) (cleanup : T unit) : T A :=
  fun tr =>
    match m tr with
    | (r, tr') =>
        match cleanup tr' with
        | (Val _, tr'') => (r, tr'')
        | (Exc e, tr'') => (Exc e, tr'')
        end
    end.

(** [isinstance(e, asyncio.TimeoutError)] *)
Definition is_timeout (e : exn) : bool :=
  match e with
  | PyError class_name _ => String.eqb class_name "TimeoutError"
  | _ => false
  end.

(** The mapping returned when the sandbox raised: the mapping of
    [asyncio.TimeoutError], or the mapping of any other exception. *)
Definition failure_of (timeout : Z) (e : exn) : execution_result :=
  if is_timeout e
  then {| er_success := false;
          er_stdout := "";
          er_stderr := "Timeout error";
          er_exit_code := -1;
          er_execution_time := PyInt timeout;
          er_error := Some ("Execution timed out after " +:+ pretty timeout +:+ " seconds");
          er_language := None |}
  else {| er_success := false;
          er_stdout := "";
          er_stderr := str_exn e;
          er_exit_code := -1;
          er_execution_time := PyFloat 0;
          er_error := Some (str_exn e);
          er_language := None |}.

(** The mapping returned for a language that is not supported. *)
Definition unsupported (language : string) : execution_result :=
  {| er_success := false;
     er_stdout := "";
     er_stderr := "";
     er_exit_code := -1;
     er_execution_time := PyFloat 0;
     er_error := Some ("Unsupported language: " +:+ language);
     er_language := None |}.

Section Agent.
Variable sb : sandbox.

(** The body of the inner [try] of [execute]. *)
Definition run_in_sandbox (code language : string) (timeout : Z) : T execution_result :=
  bindT (liftT (_build_command code language)) (fun command =>
  bindT (request (ProcessStart command timeout) (sb_start sb command timeout)) (fun _ =>
  bindT (request ProcessWait (sb_wait sb)) (fun _ =>
  let execution_time := sb_elapsed sb in
  bindT (liftT (sb_stdout sb)) (fun stdout =>
  bindT (liftT (sb_stderr sb)) (fun stderr =>
  let exit_code := sb_exit_code sb in
  retT {| er_success := exit_code =? 0;
          er_stdout := stdout;
          er_stderr := stderr;
          er_exit_code := exit_code;
          er_execution_time := PyFloat execution_time;
          er_error := None;
          er_language := Some language |}))))).

Definition execute (code language : string) (timeout : Z) : T execution_result :=
  try_exceptT
    (match assoc supported_languages language with
     | None => retT (unsupported language)
     | Some _ =>
         bindT (request SandboxCreate (sb_create sb)) (fun _ =>
         try_finallyT (run_in_sandbox code language timeout)
           (request SandboxClose (sb_close sb)))
     end)
    (fun e => retT (failure_of timeout e)).

(** The mapping built from the result of a syntax check. *)
Definition validation_of (result : execution_result) : validation :=
  {| v_valid := er_success result;
     v_error := if negb (er_success result) then Some (er_stderr result) else None |}.

Definition validate_code (code language : string) : T validation :=
  try_exceptT
    (if String.eqb language "python"
     then bindT (execute ("python3 -m py_compile -c '" +:+ code +:+ "'") "bash" 10)
            (fun result => retT (validation_of result))
     else if String.eqb language "javascript"
     then bindT (execute ("node -c '" +:+ code +:+ "'") "bash" 10)
            (fun result => retT (validation_of result))
     else retT {| v_valid := true; v_error := None |})
    (fun e => retT {| v_valid := false; v_error := Some (str_exn e) |}).

End Agent.
End CodeExecutionAgent.

(* ===================================================================== *)
(** ** The query endpoint ([api/main.py]) *)

Module Main.

(** [MockSynthesisAgent] *)
Definition synthesis_answer (query : string) (results : dict json) : json :=
  JStr ("Based on the research, here's what I found about " +:+ query +:+
        ". [Synthesized from " +:+ pretty (Z.of_nat (length results)) +:+ " sources]").

Definition MockSynthesisAgent : agent json :=
  {| a_plan := None; a_execute := None; a_search := None;
     a_synthesize := Some (fun query results => Val (synthesis_answer query results)) |}.

(** [MockDataAnalysisAgent] *)
Definition analysis (task_text : string) : json :=
  JDict [("analysis", JStr ("Analyzed data for: " +:+ task_text));
         ("insights", JList [JStr "Key insight 1"; JStr "Key insight 2"])].

Definition MockDataAnalysisAgent : agent json :=
  {| a_plan := None;
     a_execute := Some (fun task_text context => Val (analysis task_text));
     a_search := None; a_synthesize := None |}.

Definition json_of_result (r : WebSearchAgent.search_result) : json :=
  JDict [("title", WebSearchAgent.sr_title r); ("content", WebSearchAgent.sr_content r);
         ("url", WebSearchAgent.sr_url r); ("score", WebSearchAgent.sr_score r)].

(** The response model; [execution_time] is a [float] field. *)
Record QueryResponse : Type := {
  qr_answer : string;
  qr_steps : list task;
  qr_intermediate_results : list (string * json);
  qr_execution_time : float
}.

Section Endpoint.
(** The services behind the agents: the model's reply and [json.loads] for
    the planner, the HTTP client for the web search. *)
Variable create : string -> res string.
Variable json_loads : string -> res (list task).
Variable post : string -> WebSearchAgent.request -> res json.
Variable TAVILY_API_KEY : string.
(** [QueryResponse(answer=result["answer"], steps=result["steps"],
    intermediate_results=result["intermediate_results"],
    execution_time=...)]: the validation of the orchestrator's outcome
    against the response model. *)
Variable QueryResponse_of : plain_outcome json -> res QueryResponse.

Definition planner : agent json :=
  {| a_plan := Some (PlannerAgent.plan create json_loads);
     a_execute := None; a_search := None; a_synthesize := None |}.

Definition web_search : agent json :=
  {| a_plan := None; a_execute := None;
     a_search := Some (fun query =>
       res_bind (WebSearchAgent.search post TAVILY_API_KEY query 5) (fun l =>
       Val (JList (map json_of_result l))));
     a_synthesize := None |}.

Definition agents : gmap string (agent json) :=
  list_to_map [("planner", planner); ("web_search", web_search);
               ("data_analysis", MockDataAnalysisAgent);
               ("synthesis", MockSynthesisAgent)].

Definition execute_query (query : string) : M (R := json) QueryResponse :=
  try_except
    (let* result := AgentOrchestrator.execute agents planner query in
     lift (QueryResponse_of result))
    (fun e =>
       log "query_execution_failed" ;;;
       ret {| qr_answer := "Error executing query: " +:+ str_exn e;
              qr_steps := [];
              qr_intermediate_results := [];
              qr_execution_time := 0 |}).

End Endpoint.
End Main.

(* ===================================================================== *)
(** ** Samples of the services behind the agents *)

Module Sample.

(** A sandbox in which everything succeeds and the process prints a line. *)
Definition clean_sandbox : CodeExecutionAgent.sandbox := {|
  CodeExecutionAgent.sb_create := Val tt;
  CodeExecutionAgent.sb_start := fun _ _ => Val tt;
  CodeExecutionAgent.sb_wait := Val tt;
  CodeExecutionAgent.sb_stdout := Val "1";
  CodeExecutionAgent.sb_stderr := Val "";
  CodeExecutionAgent.sb_exit_code := 0;
  CodeExecutionAgent.sb_elapsed := 0.25;
  CodeExecutionAgent.sb_close := Val tt
|}.

(** A sandbox whose process does not end in time. *)
Definition slow_sandbox : CodeExecutionAgent.sandbox := {|
  CodeExecutionAgent.sb_create := Val tt;
  CodeExecutionAgent.sb_start := fun _ _ => Val tt;
  CodeExecutionAgent.sb_wait := Exc (PyError "TimeoutError" "");
  CodeExecutionAgent.sb_stdout := Val "";
  CodeExecutionAgent.sb_stderr := Val "";
  CodeExecutionAgent.sb_exit_code := 0;
  CodeExecutionAgent.sb_elapsed := 30;
  CodeExecutionAgent.sb_close := Val tt
|}.

(** A reply of the search service: two results, the second without a
    score. *)
Definition reply : json :=
  JDict [("answer", JStr "a proof assistant");
         ("results",
          JList [JDict [("title", JStr "Rocq"); ("content", JStr "The Rocq prover");
                        ("url", JStr "https://rocq-prover.org"); ("score", JFloat 0.9)];
                 JDict [("title", JStr "Manual"); ("url", JStr "https://rocq-prover.org/doc");
                        ("content", JStr "Reference manual")]])].

Definition post (url : string) (rq : WebSearchAgent.request) : res json := Val reply.

(** A reply of the model with one fenced block. *)
Definition fenced_reply : string :=
  "Here is the plan:" +:+ newline +:+ "```json" +:+ newline +:+ "[]" +:+ newline +:+
  "```" +:+ newline +:+ "Done.".

(** A plan of two searches. *)
Definition two_searches : agent string :=
  Scenario.planner_of (Val [Scenario.search_task; Scenario.search_task]).


(** 2025-01-01 as a proleptic Gregorian ordinal. *)
Definition today : Z := 739252.

End Sample.

(* ===================================================================== *)
(** * Properties *)

(** ** The budget guard *)

Section BudgetGuard.
Context {R : Type}.
Variable self : TokenBudgetManager.

(** A read of the day's usage never raises: a failed round trip reads as
    0.0. *)
Lemma get_daily_usage_run (w : world R) :
  _get_daily_usage w = (Val (usage_seen w), after_read w).
Proof.
  unfold _get_daily_usage, try_except, bind, date_today, redis_command, ret,
    usage_seen, ledger_down, after_read, ledger_total_cost, hget_total_cost.
  destruct (faults (w_redis w)) as [|[] fs] eqn:E; simpl;
    try destruct (hashes (w_redis w) !! _); reflexivity.
Qed.

(** The cost estimate can only fail with the conversion error of [int]. *)
Lemma calculate_cost_estimate_exc (i o : Z) (e : exn) :
  calculate_cost_estimate self i o = Exc e ->
  e = PyError "OverflowError" "int too large to convert to float".
Proof.
  unfold calculate_cost_estimate, Py.mul_int_float, Py.float_of_int, res_bind.
  repeat match goal with
         | |- context [if ?b then _ else _] => destruct b
         end; intros H; inversion H; reflexivity.
Qed.

Lemma pre_flight_estimate_fails (i o : Z) (e : exn) (w : world R) :
  calculate_cost_estimate self i o = Exc e ->
  pre_flight_check self i o w =
    (Val (fail_open e), with_log (w_log w ++ ["pre_flight_check_failed"]) w).
Proof.
  intros Hc. pose proof (calculate_cost_estimate_exc _ _ _ Hc) as ->.
  unfold pre_flight_check, pre_flight_body, try_except, bind, lift.
  rewrite Hc. reflexivity.
Qed.

Lemma pre_flight_per_query_reject (i o : Z) (est : float) (w : world R) :
  calculate_cost_estimate self i o = Val est ->
  Py.gt est (per_query_budget self) = true ->
  pre_flight_check self i o w =
    (Exc (TokenBudgetException (per_query_message self est)),
     with_log (w_log w ++ ["per_query_budget_exceeded"]) w).
Proof.
  intros Hc Hq.
  unfold pre_flight_check, pre_flight_body, try_except, bind, lift.
  rewrite Hc. unfold check_per_query_budget. rewrite Hq. reflexivity.
Qed.

Lemma pre_flight_daily_reject (i o : Z) (est : float) (w : world R) :
  calculate_cost_estimate self i o = Val est ->
  Py.gt est (per_query_budget self) = false ->
  Py.gt est (daily_budget self - usage_seen w) = true ->
  pre_flight_check self i o w =
    (Exc (TokenBudgetException
            (daily_message self est
               (usage_seen (with_log (w_log (after_read w) ++ ["daily_budget_exceeded"])
                              (after_read w))))),
     after_daily_reject w).
Proof.
  intros Hc Hq Hd.
  unfold pre_flight_check, pre_flight_body, try_except, bind, lift.
  rewrite Hc. unfold check_per_query_budget. rewrite Hq. unfold ret at 1. cbn [negb].
  unfold check_daily_budget, try_except, bind. rewrite get_daily_usage_run.
  rewrite Hd. unfold log at 1, ret at 1. cbn [negb].
  rewrite get_daily_usage_run. reflexivity.
Qed.

Lemma pre_flight_approve (i o : Z) (est : float) (w : world R) :
  calculate_cost_estimate self i o = Val est ->
  Py.gt est (per_query_budget self) = false ->
  Py.gt est (daily_budget self - usage_seen w) = false ->
  pre_flight_check self i o w =
    if (daily_budget self =? 0)%float
    then (Val (fail_open (PyError "ZeroDivisionError" "float division by zero")),
          with_log (w_log (after_read (after_read w)) ++ ["pre_flight_check_failed"])
            (after_read (after_read w)))
    else (Val (approval self est (usage_seen (after_read w))), after_read (after_read w)).
Proof.
  intros Hc Hq Hd.
  unfold pre_flight_check, pre_flight_body, try_except, bind, lift.
  rewrite Hc. unfold check_per_query_budget. rewrite Hq. unfold ret at 1. cbn [negb].
  unfold check_daily_budget, try_except, bind. rewrite get_daily_usage_run.
  rewrite Hd. unfold ret at 1. cbn [negb]. rewrite get_daily_usage_run.
  unfold Py.truediv. destruct (daily_budget self =? 0)%float; reflexivity.
Qed.

(** Every outcome of the check: the budget exception, the fail-open
    mapping, or the approval carrying the estimate. *)
Lemma pre_flight_check_shape (i o : Z) (w : world R) (r : res budget_check) (w' : world R) :
  pre_flight_check self i o w = (r, w') ->
  match calculate_cost_estimate self i o with
  | Exc e => r = Val (fail_open e)
  | Val est =>
      (exists m, r = Exc (TokenBudgetException m)) \/
      ((daily_budget self =? 0)%float = true /\ exists e, r = Val (fail_open e)) \/
      ((daily_budget self =? 0)%float = false /\
       exists u, r = Val (approval self est u))
  end.
Proof.
  intros Hrun.
  destruct (calculate_cost_estimate self i o) as [est|e] eqn:Hc.
  - destruct (Py.gt est (per_query_budget self)) eqn:Hq.
    + rewrite (pre_flight_per_query_reject _ _ _ _ Hc Hq) in Hrun.
      inversion Hrun. left. eauto.
    + destruct (Py.gt est (daily_budget self - usage_seen w)) eqn:Hd.
      * rewrite (pre_flight_daily_reject _ _ _ _ Hc Hq Hd) in Hrun.
        inversion Hrun. left. eauto.
      * rewrite (pre_flight_approve _ _ _ _ Hc Hq Hd) in Hrun.
        destruct (daily_budget self =? 0)%float eqn:Hz; inversion Hrun; right;
          [left|right]; eauto.
  - rewrite (pre_flight_estimate_fails _ _ _ _ Hc) in Hrun. now inversion Hrun.
Qed.

(** Whatever the check returns is an approval. *)
Lemma pre_flight_check_returns_approved (i o : Z) (w : world R) (bc : budget_check)
  (w' : world R) :
  pre_flight_check self i o w = (Val bc, w') -> approved bc = true.
Proof.
  intros Hrun. apply pre_flight_check_shape in Hrun.
  destruct (calculate_cost_estimate self i o).
  - destruct Hrun as [[m Hm]|[[_ [e He]]|[_ [u Hu]]]];
      [discriminate Hm | inversion He | inversion Hu]; reflexivity.
  - inversion Hrun. reflexivity.
Qed.

(** C1: an estimate above the per-query cap is rejected with the budget
    exception whatever the ledger holds and whatever the state of the
    connection: the per-query check answers [False], the exception is raised
    before any round trip to the ledger, and nothing but the log changes. *)
Theorem per_query_cap_rejects_before_ledger
  (input_tokens output_tokens : Z) (est : float) (w : world R) :
  calculate_cost_estimate self input_tokens output_tokens = Val est ->
  Py.gt est (per_query_budget self) = true ->
  fst (check_per_query_budget self est w) = Val false /\
  pre_flight_check self input_tokens output_tokens w =
    (Exc (TokenBudgetException (per_query_message self est)),
     with_log (w_log w ++ ["per_query_budget_exceeded"]) w) /\
  w_redis (snd (pre_flight_check self input_tokens output_tokens w)) = w_redis w.
Proof.
  intros Hc Hq. split; [|split].
  - unfold check_per_query_budget. rewrite Hq. reflexivity.
  - now apply pre_flight_per_query_reject.
  - rewrite (pre_flight_per_query_reject _ _ _ _ Hc Hq). reflexivity.
Qed.

(** C2: with an estimate within the per-query cap and a reachable ledger,
    the guard takes [remaining = daily_budget - total_cost] of the day's
    entry, raises the budget exception when the estimate exceeds it, and
    approves otherwise. *)
Theorem daily_cap_decides_admission
  (input_tokens output_tokens : Z) (est : float) (w : world R) :
  calculate_cost_estimate self input_tokens output_tokens = Val est ->
  Py.gt est (per_query_budget self) = false ->
  ledger_down w = false ->
  let remaining_daily := (daily_budget self - ledger_total_cost w)%float in
  fst (check_daily_budget self est w) = Val (negb (Py.gt est remaining_daily)) /\
  (Py.gt est remaining_daily = true ->
   exists usage w',
     pre_flight_check self input_tokens output_tokens w =
       (Exc (TokenBudgetException (daily_message self est usage)), w')) /\
  (Py.gt est remaining_daily = false ->
   exists bc w',
     pre_flight_check self input_tokens output_tokens w = (Val bc, w') /\
     approved bc = true).
Proof.
  intros Hc Hq Hup remaining_daily.
  assert (Hu : usage_seen w = ledger_total_cost w)
    by (unfold usage_seen; now rewrite Hup).
  subst remaining_daily. rewrite <- Hu. split; [|split].
  - unfold check_daily_budget, try_except, bind. rewrite get_daily_usage_run.
    destruct (Py.gt est (daily_budget self - usage_seen w)); reflexivity.
  - intros Hd. eexists _, _. now apply pre_flight_daily_reject.
  - intros Hd. rewrite (pre_flight_approve _ _ _ _ Hc Hq Hd).
    destruct (daily_budget self =? 0)%float; eexists _, _; split; reflexivity.
Qed.

(** C3 (as the code has it): no exception but the budget rejection leaves
    the check.  An exception raised inside it (the conversion of a token
    count, the division by a zero daily budget) makes it fail open:
    [approved = True], [estimated_cost = 0.0], the error text attached, the
    event logged.  A failed ledger read is not such an exception: it has
    already been turned into a usage of 0.0, so with a computable estimate
    and a non-zero daily budget the check either raises the budget exception
    or approves with the real estimate and no error attached, whatever the
    state of the connection. *)
Theorem pre_flight_check_fail_open_policy
  (input_tokens output_tokens : Z) (w : world R) :
  (forall e w', pre_flight_check self input_tokens output_tokens w = (Exc e, w') ->
     exists m, e = TokenBudgetException m) /\
  (forall e, calculate_cost_estimate self input_tokens output_tokens = Exc e ->
     pre_flight_check self input_tokens output_tokens w =
       (Val (fail_open e), with_log (w_log w ++ ["pre_flight_check_failed"]) w)) /\
  (forall est, calculate_cost_estimate self input_tokens output_tokens = Val est ->
     Py.gt est (per_query_budget self) = false ->
     Py.gt est (daily_budget self - usage_seen w) = false ->
     (daily_budget self =? 0)%float = true ->
     exists e w',
       pre_flight_check self input_tokens output_tokens w = (Val (fail_open e), w') /\
       last (w_log w') = Some "pre_flight_check_failed") /\
  (forall est, calculate_cost_estimate self input_tokens output_tokens = Val est ->
     (daily_budget self =? 0)%float = false ->
     (exists m w',
        pre_flight_check self input_tokens output_tokens w =
          (Exc (TokenBudgetException m), w')) \/
     (exists bc w',
        pre_flight_check self input_tokens output_tokens w = (Val bc, w') /\
        approved bc = true /\ estimated_cost bc = est /\ bc_error bc = None)) /\
  (ledger_down w = true -> _get_daily_usage w = (Val 0%float, after_read w)).
Proof.
  pose proof (pre_flight_check_shape input_tokens output_tokens w) as Hshape.
  repeat split.
  - intros e w' Hrun. specialize (Hshape _ _ Hrun).
    destruct (calculate_cost_estimate self input_tokens output_tokens).
    + destruct Hshape as [[m Hm]|[[_ [e' He']]|[_ [u Hu]]]].
      * inversion Hm. eauto.
      * inversion He'.
      * inversion Hu.
    + inversion Hshape.
  - intros e Hc. now apply pre_flight_estimate_fails.
  - intros est Hc Hq Hd Hz. rewrite (pre_flight_approve _ _ _ _ Hc Hq Hd), Hz.
    eexists _, _. split; [reflexivity|]. simpl. apply last_snoc.
  - intros est Hc Hz.
    destruct (pre_flight_check self input_tokens output_tokens w) as [r w'] eqn:Hrun.
    specialize (Hshape _ _ eq_refl). rewrite Hc, Hz in Hshape.
    destruct Hshape as [[m ->]|[[Hf _]|[_ [u ->]]]]; [left; eauto|discriminate|].
    right. eexists _, _. repeat split.
  - intros Hdown. rewrite get_daily_usage_run. unfold usage_seen. now rewrite Hdown.
Qed.

End BudgetGuard.

(** A per-query cap of $0.001 against an estimate of 7 + 500 tokens. *)
Lemma per_query_cap_rejects_witness :
  fst (check_per_query_budget (TokenBudgetManager_init Scenario.tight_settings)
         0.037605 Scenario.healthy) = Val false /\
  pre_flight_check (TokenBudgetManager_init Scenario.tight_settings) 7 500 Scenario.healthy =
    (Exc (TokenBudgetException
            (per_query_message (TokenBudgetManager_init Scenario.tight_settings) 0.037605)),
     with_log (w_log Scenario.healthy ++ ["per_query_budget_exceeded"]) Scenario.healthy) /\
  w_redis (snd (pre_flight_check (TokenBudgetManager_init Scenario.tight_settings) 7 500
                  Scenario.healthy)) = w_redis Scenario.healthy.
Proof.
  apply per_query_cap_rejects_before_ledger; vm_compute; reflexivity.
Defined.

Example per_query_rejection_message :
  fst (pre_flight_check (TokenBudgetManager_init Scenario.tight_settings) 7 500
         Scenario.healthy) =
  Exc (TokenBudgetException
         "Per-query budget exceeded. Estimated cost: $0.0376, Budget: $0.0010").
Proof. vm_compute. reflexivity. Qed.

(** The same estimate against a ledger that holds 99.97 of the 100 allowed:
    within the per-query cap of 5, above what remains of the day. *)
Lemma daily_cap_decides_witness :
  fst (check_daily_budget (TokenBudgetManager_init default_settings) 0.037605
         Scenario.nearly_spent) =
    Val (negb (Py.gt 0.037605
                 (daily_budget (TokenBudgetManager_init default_settings) -
                  ledger_total_cost Scenario.nearly_spent))) /\
  (Py.gt 0.037605
     (daily_budget (TokenBudgetManager_init default_settings) -
      ledger_total_cost Scenario.nearly_spent) = true ->
   exists usage w',
     pre_flight_check (TokenBudgetManager_init default_settings) 7 500 Scenario.nearly_spent =
       (Exc (TokenBudgetException
               (daily_message (TokenBudgetManager_init default_settings) 0.037605 usage)),
        w')) /\
  (Py.gt 0.037605
     (daily_budget (TokenBudgetManager_init default_settings) -
      ledger_total_cost Scenario.nearly_spent) = false ->
   exists bc w',
     pre_flight_check (TokenBudgetManager_init default_settings) 7 500 Scenario.nearly_spent =
       (Val bc, w') /\
     approved bc = true).
Proof.
  apply (daily_cap_decides_admission (TokenBudgetManager_init default_settings) 7 500
           0.037605 Scenario.nearly_spent); vm_compute; reflexivity.
Defined.

Example daily_rejection_message :
  fst (pre_flight_check (TokenBudgetManager_init default_settings) 7 500
         Scenario.nearly_spent) =
  Exc (TokenBudgetException
         "Daily budget exceeded. Estimated cost: $0.0376, Remaining: $0.0300").
Proof. vm_compute. reflexivity. Qed.

Example healthy_approval :
  fst (pre_flight_check (TokenBudgetManager_init default_settings) 7 500 Scenario.healthy) =
  Val (approval (TokenBudgetManager_init default_settings) 0.037605 0).
Proof. vm_compute. reflexivity. Qed.

(** C3, as stated, fails during a ledger outage.  With every round trip
    failing, the check of a 7 + 500 token estimate returns the ordinary
    approval: the estimate is the real one, not 0.0, and no error is
    attached; and with a daily budget of $0.01 the same outage ends in a
    rejection, not in an approval. *)
Lemma ledger_outage_is_not_fail_open :
  ledger_down Scenario.outage = true /\
  fst (pre_flight_check (TokenBudgetManager_init default_settings) 7 500 Scenario.outage) =
    Val (approval (TokenBudgetManager_init default_settings) 0.037605 0) /\
  (forall e,
     fst (pre_flight_check (TokenBudgetManager_init default_settings) 7 500 Scenario.outage)
     <> Val (fail_open e)) /\
  fst (pre_flight_check (TokenBudgetManager_init Scenario.small_daily_settings) 7 500
         Scenario.outage) =
    Exc (TokenBudgetException
           "Daily budget exceeded. Estimated cost: $0.0376, Remaining: $0.0100").
Proof.
  assert (Hrun :
    fst (pre_flight_check (TokenBudgetManager_init default_settings) 7 500 Scenario.outage) =
    Val (approval (TokenBudgetManager_init default_settings) 0.037605 0))
    by (vm_compute; reflexivity).
  repeat split; try (vm_compute; reflexivity).
  intros e He. rewrite Hrun in He.
  apply (f_equal (fun r => match r with Val b => bc_error b | Exc _ => None end)) in He.
  discriminate He.
Qed.

(** The two exceptions that do make the check fail open. *)
Example fail_open_on_overflow :
  fst (pre_flight_check (TokenBudgetManager_init default_settings) (2 ^ 1024) 500
         Scenario.healthy) =
  Val (fail_open (PyError "OverflowError" "int too large to convert to float")).
Proof. vm_compute. reflexivity. Qed.

Example fail_open_on_zero_daily_budget :
  fst (pre_flight_check (TokenBudgetManager_init Scenario.zero_daily_settings) 0 0
         Scenario.healthy) =
  Val (fail_open (PyError "ZeroDivisionError" "float division by zero")).
Proof. vm_compute. reflexivity. Qed.

(* ===================================================================== *)
(** ** Dictionaries and the dependency context *)

Lemma length_append (a b : string) :
  String.length (a +:+ b) = (String.length a + String.length b)%nat.
Proof.
  induction a as [|c a IH]; [reflexivity|].
  change (String c a +:+ b) with (String c (a +:+ b)). simpl. now rewrite IH.
Qed.

Lemma dict_get_set {A} (d : dict A) (k : Z) (v : A) (k' : Z) :
  dict_get (dict_set d k v) k' = if Z.eqb k k' then Some v else dict_get d k'.
Proof.
  induction d as [|[k0 v0] d IH]; simpl.
  - reflexivity.
  - destruct (Z.eqb_spec k0 k) as [->|Hne]; simpl.
    + destruct (Z.eqb k k'); reflexivity.
    + rewrite IH. destruct (Z.eqb_spec k0 k') as [->|Hne']; [|reflexivity].
      destruct (Z.eqb_spec k k'); [congruence|reflexivity].
Qed.

(** The comprehension, started from any accumulator. *)
Lemma dep_results_fold {A} (results : dict A) (deps : list Z) :
  forall (acc : dict A) (d : Z),
    dict_get
      (fold_left
         (fun acc d =>
            if dict_contains results d
            then match dict_get results d with
                 | Some v => dict_set acc d v
                 | None => acc
                 end
            else acc) deps acc) d =
    if decide (d ∈ deps)
    then match dict_get results d with Some v => Some v | None => dict_get acc d end
    else dict_get acc d.
Proof.
  induction deps as [|x deps IH]; intros acc d; simpl.
  - destruct (decide (d ∈ [])) as [Hin|]; [inversion Hin|reflexivity].
  - rewrite IH. unfold dict_contains.
    destruct (decide (d ∈ deps)) as [Hin|Hnin].
    + rewrite decide_True by (now right).
      destruct (dict_get results d) eqn:E; [reflexivity|].
      destruct (dict_get results x) eqn:Ex; [|reflexivity].
      rewrite dict_get_set. destruct (Z.eqb_spec x d); [congruence|reflexivity].
    + destruct (Z.eq_dec x d) as [->|Hne].
      * rewrite decide_True by (now left).
        destruct (dict_get results d) eqn:E; [|reflexivity].
        rewrite dict_get_set, Z.eqb_refl. reflexivity.
      * rewrite decide_False by (intros Hc; inversion Hc; subst; tauto).
        destruct (dict_get results x) eqn:Ex; [|reflexivity].
        rewrite dict_get_set. destruct (Z.eqb_spec x d); [congruence|reflexivity].
Qed.

Lemma dep_results_get {A} (results : dict A) (deps : list Z) (d : Z) :
  dict_get (dep_results results deps) d =
  if decide (d ∈ deps) then dict_get results d else None.
Proof.
  unfold dep_results. rewrite dep_results_fold. simpl.
  destruct (decide (d ∈ deps)); [|reflexivity].
  destruct (dict_get results d); reflexivity.
Qed.

(** ** What stays within the ledger and the log *)

Section Frame.
Context {R : Type}.

Lemma ledger_only_ret {A} (a : A) : ledger_only (R := R) (ret a).
Proof. intros w. reflexivity. Qed.

Lemma ledger_only_raise {A} (e : exn) : ledger_only (R := R) (raise (A := A) e).
Proof. intros w. reflexivity. Qed.

Lemma ledger_only_lift {A} (r : res A) : ledger_only (R := R) (lift r).
Proof. intros w. reflexivity. Qed.

Lemma ledger_only_log (event : string) : ledger_only (R := R) (log event).
Proof. intros w. reflexivity. Qed.

Lemma ledger_only_date_today : ledger_only (R := R) date_today.
Proof. intros w. reflexivity. Qed.

Lemma ledger_only_redis_command {A} (op : redis -> A * redis) :
  ledger_only (R := R) (redis_command op).
Proof.
  intros w. unfold redis_command.
  destruct (faults (w_redis w)) as [|[] fs]; simpl; try reflexivity;
    destruct (op _); reflexivity.
Qed.

Lemma ledger_only_bind {A B} (m : M A) (k : A -> M B) :
  ledger_only m -> (forall a, ledger_only (R := R) (k a)) -> ledger_only (R := R) (bind m k).
Proof.
  intros Hm Hk w. unfold bind. specialize (Hm w).
  destruct (m w) as [[a|e] w']; simpl in *; [rewrite Hk|]; exact Hm.
Qed.

Lemma ledger_only_try_except {A} (m : M A) (h : exn -> M A) :
  ledger_only m -> (forall e, ledger_only (R := R) (h e)) -> ledger_only (R := R) (try_except m h).
Proof.
  intros Hm Hh w. unfold try_except. specialize (Hm w).
  destruct (m w) as [[a|e] w']; simpl in *; [|rewrite Hh]; exact Hm.
Qed.

End Frame.

Create HintDb frame.
#[export] Hint Resolve ledger_only_ret ledger_only_raise ledger_only_lift ledger_only_log
  ledger_only_date_today ledger_only_redis_command : frame.

(** Decompose a monadic program into its primitive steps. *)
Ltac frame :=
  repeat first
    [ progress intros
    | apply ledger_only_bind
    | apply ledger_only_try_except
    | solve [auto with frame]
    | match goal with
      | |- ledger_only (if ?b then _ else _) => destruct b
      | |- ledger_only (match ?x with _ => _ end) => destruct x
      end ].

Section FrameBudget.
Context {R : Type} `{PyObject R}.
Variable self : TokenBudgetManager.

Lemma ledger_only_get_daily_usage : ledger_only (R := R) _get_daily_usage.
Proof. unfold _get_daily_usage. frame. Qed.

Lemma ledger_only_pre_flight_check (i o : Z) :
  ledger_only (R := R) (pre_flight_check self i o).
Proof.
  pose proof ledger_only_get_daily_usage.
  unfold pre_flight_check, pre_flight_body, check_per_query_budget, check_daily_budget.
  frame.
Qed.

Lemma ledger_only_record_usage (i o : Z) (name qid : string) :
  ledger_only (R := R) (record_usage self i o name qid).
Proof.
  unfold record_usage, _store_usage_record, _update_daily_totals. frame.
Qed.

End FrameBudget.

(* ===================================================================== *)
(** ** The task executor's estimates *)

Lemma agent_estimates_lookup (agent_name : string) :
  default 500 (agent_estimates !! agent_name) = spec_base_output_tokens agent_name.
Proof.
  unfold spec_base_output_tokens, agent_estimates. cbn [list_to_map foldr fst snd].
  destruct (String.eqb_spec agent_name "planner") as [->|H1]; [reflexivity|].
  destruct (String.eqb_spec agent_name "web_search") as [->|H2]; [reflexivity|].
  destruct (String.eqb_spec agent_name "data_analysis") as [->|H3]; [reflexivity|].
  destruct (String.eqb_spec agent_name "synthesis") as [->|H4]; [reflexivity|].
  destruct (String.eqb_spec agent_name "code_execution") as [->|H5]; [reflexivity|].
  rewrite !lookup_insert_ne by congruence. reflexivity.
Qed.

(** [int(base * 1.5)] is exact on every value the table can give. *)
Lemma scaled_estimate (agent_name : string) :
  res_bind (Py.mul_int_float (spec_base_output_tokens agent_name) 1.5) Py.int_of_float =
  Val (spec_base_output_tokens agent_name * 3 / 2).
Proof.
  unfold spec_base_output_tokens.
  repeat match goal with
         | |- context [if ?b then _ else _] => destruct b
         end; vm_compute; reflexivity.
Qed.

Lemma estimate_output_tokens_spec (agent_name : string) (t : task) :
  EnhancedAgentOrchestrator._estimate_output_tokens agent_name t =
  Val (spec_output_tokens agent_name (task_get_task t)).
Proof.
  unfold EnhancedAgentOrchestrator._estimate_output_tokens, spec_output_tokens.
  rewrite agent_estimates_lookup, Z.gtb_ltb.
  destruct (200 <? Py.len (task_get_task t)); [apply scaled_estimate|reflexivity].
Qed.

Section TaskExecutor.
Context {R : Type} `{PyObject R}.
Variable token_budget : TokenBudgetManager.

(** C6: the pre-flight of a task hands the budget guard the length of
    [task + "\n\nContext: " + str(context)] divided by 4 (integer
    division), that is [(len(task) + 11 + len(str(context))) // 4], and the
    table value for the agent (planner 300, web_search 500, data_analysis
    400, synthesis 800, code_execution 600, any other name 500), multiplied
    by 1.5 exactly when the description is longer than 200 characters. *)
Theorem pre_flight_token_estimates
  (agent_name : string) (t : task) (context : dict R) (w : world R) :
  Py.len (EnhancedAgentOrchestrator.input_text (task_get_task t) context) =
    Py.len (task_get_task t) + 11 + Py.len (str_dict context) /\
  EnhancedAgentOrchestrator._estimate_output_tokens agent_name t =
    Val (spec_output_tokens agent_name (task_get_task t)) /\
  EnhancedAgentOrchestrator._pre_flight_agent_check token_budget agent_name t context w =
    try_except
      (pre_flight_check token_budget
         ((Py.len (task_get_task t) + 11 + Py.len (str_dict context)) / 4)
         (spec_output_tokens agent_name (task_get_task t)))
      (fun e => log "pre_flight_check_failed" ;;; ret (fail_open e)) w.
Proof.
  assert (Hlen :
    Py.len (EnhancedAgentOrchestrator.input_text (task_get_task t) context) =
    Py.len (task_get_task t) + 11 + Py.len (str_dict context)).
  { unfold EnhancedAgentOrchestrator.input_text, Py.len.
    rewrite !length_append. simpl String.length. lia. }
  split; [exact Hlen|]. split; [apply estimate_output_tokens_spec|].
  unfold EnhancedAgentOrchestrator._pre_flight_agent_check, try_except, bind, lift.
  rewrite estimate_output_tokens_spec, Hlen. reflexivity.
Qed.

(** Whatever the budget guard does, the task executor's pre-flight returns
    an approval: the guard's rejection is one more exception to its
    catch-all handler. *)
Lemma agent_check_always_approves
  (agent_name : string) (t : task) (context : dict R) (w : world R) :
  exists bc w',
    EnhancedAgentOrchestrator._pre_flight_agent_check token_budget agent_name t context w =
      (Val bc, w') /\
    approved bc = true /\ outside_ledger w' = outside_ledger w.
Proof.
  unfold EnhancedAgentOrchestrator._pre_flight_agent_check, try_except, bind, lift.
  rewrite estimate_output_tokens_spec.
  match goal with
  | |- context [pre_flight_check ?s ?i ?o w] =>
      pose proof (ledger_only_pre_flight_check s i o w) as Hk;
      destruct (pre_flight_check s i o w) as [[bc|e] w'] eqn:Hrun
  end; simpl in Hk.
  - exists bc, w'. repeat split; [|exact Hk].
    now apply pre_flight_check_returns_approved in Hrun.
  - eexists _, _. repeat split. exact Hk.
Qed.

End TaskExecutor.

Example long_description_scales_estimate :
  EnhancedAgentOrchestrator._estimate_output_tokens "synthesis"
    {| t_task := Some (String.concat "" (repeat "0123456789" 21));
       t_agent := Some "synthesis"; t_depends_on := None |} = Val 1200 /\
  EnhancedAgentOrchestrator._estimate_output_tokens "translator"
    {| t_task := Some "short"; t_agent := Some "translator"; t_depends_on := None |} = Val 500.
Proof. split; vm_compute; reflexivity. Qed.

(* ===================================================================== *)
(** ** Steps that cannot raise *)

Section Totality.
Context {R : Type}.

Lemma never_raises_ret {A} (a : A) : never_raises (R := R) (ret a).
Proof. intros w. eexists _, _. reflexivity. Qed.

Lemma never_raises_log (event : string) : never_raises (R := R) (log event).
Proof. intros w. eexists _, _. reflexivity. Qed.

Lemma never_raises_bind {A B} (m : M A) (k : A -> M B) :
  never_raises (R := R) m -> (forall a, never_raises (R := R) (k a)) -> never_raises (R := R) (bind m k).
Proof.
  intros Hm Hk w. unfold bind. destruct (Hm w) as (a & w' & ->). apply Hk.
Qed.

(** A handler that cannot raise makes the whole [try] statement safe. *)
Lemma never_raises_try_except {A} (m : M A) (h : exn -> M A) :
  (forall e, never_raises (R := R) (h e)) -> never_raises (R := R) (try_except m h).
Proof.
  intros Hh w. unfold try_except. destruct (m w) as [[a|e] w']; [eauto|apply Hh].
Qed.

End Totality.

(* ===================================================================== *)
(** ** Recording the usage of a completed task *)

Section RecordingProofs.
Context {R : Type} `{PyObject R}.
Variable self : TokenBudgetManager.

Lemma store_usage_record_total (u : usage_record) :
  never_raises (R := R) (_store_usage_record u).
Proof. apply never_raises_try_except. intros e. apply never_raises_log. Qed.

Lemma update_daily_totals_total (c : float) (tokens : Z) :
  never_raises (R := R) (_update_daily_totals c tokens).
Proof. apply never_raises_try_except. intros e. apply never_raises_log. Qed.

Lemma record_usage_total (i o : Z) (name qid : string) :
  never_raises (R := R) (record_usage self i o name qid).
Proof.
  apply never_raises_try_except. intros e.
  apply never_raises_bind; [apply never_raises_log|intros _; apply never_raises_ret].
Qed.

(** What [record_usage] returns depends on the cost computation alone, not
    on the state of the connection. *)
Lemma record_usage_run (i o : Z) (name qid : string) (w : world R) :
  exists u w',
    record_usage self i o name qid w = (Val u, w') /\
    outside_ledger w' = outside_ledger w /\
    u = match calculate_cost_estimate self i o with
        | Val c => UsageRecorded (the_record self w i o name qid c)
        | Exc e => UsageError (str_exn e)
        end.
Proof.
  pose proof (ledger_only_record_usage self i o name qid w) as Hk.
  unfold record_usage, try_except, bind, lift, date_today in *.
  destruct (calculate_cost_estimate self i o) as [c|e].
  - destruct (store_usage_record_total (the_record self w i o name qid c) w) as ([] & w1 & E1).
    unfold the_record in E1. rewrite E1 in *.
    destruct (update_daily_totals_total c (i + o) w1) as ([] & w2 & E2).
    rewrite E2 in *. simpl in *. eexists _, _. repeat split. exact Hk.
  - simpl in *. eexists _, _. repeat split.
Qed.

Lemma record_agent_usage_run (name txt : string) (ctx : dict R) (r : R) (w : world R) :
  exists w',
    EnhancedAgentOrchestrator._record_agent_usage self name txt ctx r w = (Val tt, w') /\
    w_calls w' = w_calls w /\
    current_query_id w' = current_query_id w /\
    current_query_cost w' =
      (current_query_cost w + get_cost (usage_of self txt ctx r name w))%float /\
    agent_costs w' = <[name := get_cost (usage_of self txt ctx r name w)]> (agent_costs w).
Proof.
  unfold EnhancedAgentOrchestrator._record_agent_usage, try_except, bind.
  destruct (record_usage_run
              (Py.len (EnhancedAgentOrchestrator.input_text txt ctx) / 4)
              (Py.len (py_str r) / 4) name (current_query_id w) w)
    as (u & w1 & E & Hout & Hu).
  rewrite E. fold (usage_of self txt ctx r name w) in Hu. subst u.
  unfold outside_ledger in Hout. inversion Hout as [[Ht Hc Hi Hq Ha Hm]].
  simpl. eexists. repeat split; simpl; congruence.
Qed.

(** ** Running one task *)

Variable agents : gmap string (agent R).

(** The trace after the dispatch: at most one invocation was added, and its
    context is the one the dispatch was given. *)
Lemma dispatch_trace (a : agent R) (name txt : string) (ctx : dict R) (w : world R) :
  w_calls (snd (EnhancedAgentOrchestrator.dispatch a name txt ctx w)) =
  (w_calls w ++ invocation_of a name txt ctx)%list.
Proof.
  unfold EnhancedAgentOrchestrator.dispatch, invocation_of, invoke, raise.
  destruct (a_execute a), (a_search a), (a_synthesize a); simpl;
    rewrite ?app_nil_r; reflexivity.
Qed.

Lemma execute_agent_success (a : agent R) (name txt : string) (ctx : dict R) (r : R)
  (w : world R) :
  fst (EnhancedAgentOrchestrator.dispatch a name txt ctx w) = Val r ->
  exists w',
    EnhancedAgentOrchestrator._execute_agent_with_budget_tracking self a name txt ctx w =
      (Val r, w') /\
    w_calls w' = w_calls (snd (EnhancedAgentOrchestrator.dispatch a name txt ctx w)).
Proof.
  intros Hd.
  unfold EnhancedAgentOrchestrator._execute_agent_with_budget_tracking, try_except, bind.
  destruct (EnhancedAgentOrchestrator.dispatch a name txt ctx w) as [rr w1].
  simpl in Hd. subst rr.
  unfold EnhancedAgentOrchestrator.record_agent_execution_end at 1.
  match goal with
  | |- context [EnhancedAgentOrchestrator._record_agent_usage _ _ _ _ _ ?w2] =>
      destruct (record_agent_usage_run name txt ctx r w2) as (w3 & E & Hc & _)
  end.
  rewrite E. eexists. split; [reflexivity|]. exact Hc.
Qed.

Lemma execute_agent_failure (a : agent R) (name txt : string) (ctx : dict R) (e : exn)
  (w : world R) :
  fst (EnhancedAgentOrchestrator.dispatch a name txt ctx w) = Exc e ->
  exists w',
    EnhancedAgentOrchestrator._execute_agent_with_budget_tracking self a name txt ctx w =
      (Exc e, w') /\
    w_calls w' = w_calls (snd (EnhancedAgentOrchestrator.dispatch a name txt ctx w)).
Proof.
  intros Hd.
  unfold EnhancedAgentOrchestrator._execute_agent_with_budget_tracking, try_except, bind.
  destruct (EnhancedAgentOrchestrator.dispatch a name txt ctx w) as [rr w1].
  simpl in Hd. subst rr. eexists. split; reflexivity.
Qed.

(** A well-formed task always reaches its agent: the pre-flight returns an
    approval, the capability is awaited, and the task ends as the capability
    does. *)
Lemma run_task_runs_agent (i : Z) (t : task) (results : dict R) (total : float)
  (name : string) (a : agent R) (txt : string) (w : world R) :
  t_agent t = Some name -> agents !! name = Some a -> t_task t = Some txt ->
  let ctx := dep_results results (task_get_depends_on t) in
  exists bc w1,
    EnhancedAgentOrchestrator._pre_flight_agent_check self name t ctx w = (Val bc, w1) /\
    w_calls w1 = w_calls w /\
    exists w',
      w_calls w' = w_calls (snd (EnhancedAgentOrchestrator.dispatch a name txt ctx w1)) /\
      EnhancedAgentOrchestrator.run_task agents self i t results total w =
        match fst (EnhancedAgentOrchestrator.dispatch a name txt ctx w1) with
        | Val r => (Val (dict_set results i r, (total + estimated_cost bc)%float), w')
        | Exc e =>
            (Exc (AgentExecutionException
                    ("Agent " +:+ name +:+ " failed: " +:+ str_exn e)), w')
        end.
Proof.
  intros Ha Hl Ht ctx.
  destruct (agent_check_always_approves self name t ctx w) as (bc & w1 & E & Happ & Hout).
  exists bc, w1. split; [exact E|]. split; [now inversion Hout|].
  unfold EnhancedAgentOrchestrator.run_task, bind, lift, try_except,
    task_getitem_agent, agents_getitem, task_getitem_task.
  fold ctx. rewrite Ha, Hl, E, Happ, Ht. cbn [negb]. unfold ret.
  destruct (fst (EnhancedAgentOrchestrator.dispatch a name txt ctx w1)) as [r|e] eqn:Hd.
  - destruct (execute_agent_success a name txt _ r w1 Hd) as (w' & E' & Hc). rewrite E'.
    eexists. split; [exact Hc|reflexivity].
  - destruct (execute_agent_failure a name txt _ e w1 Hd) as (w' & E' & Hc). rewrite E'.
    eexists. split; [|reflexivity]. simpl. exact Hc.
Qed.

End RecordingProofs.

(* ===================================================================== *)
(** ** The orchestrator *)

Section Orchestration.
Context {R : Type} `{PyObject R}.
Variable settings : Settings.
Variable agents : gmap string (agent R).
Variable planner : agent R.
Variable token_budget : TokenBudgetManager.

(** C7: the context built for a task maps an index to the stored result
    exactly when the index is declared in [depends_on] and already has a
    result; a declared index without a result is left out, and building
    the context cannot raise (it is a total function).  That context is what
    an agent with an [execute] method is awaited with, in both
    orchestrators. *)
Theorem dependency_context_is_restriction :
  (forall (results : dict R) (deps : list Z) (d : Z),
     dict_get (dep_results results deps) d =
     if decide (d ∈ deps) then dict_get results d else None) /\
  (forall i t results (w : world R) name a f txt,
     t_agent t = Some name -> agents !! name = Some a ->
     a_execute a = Some f -> t_task t = Some txt ->
     w_calls (snd (AgentOrchestrator.run_task agents i t results w)) =
     (w_calls w ++
       [{| call_agent := name; call_method := "execute"; call_task := txt;
           call_context := Some (dep_results results (task_get_depends_on t)) |}])%list) /\
  (forall i t results total (w : world R) name a f txt,
     t_agent t = Some name -> agents !! name = Some a ->
     a_execute a = Some f -> t_task t = Some txt ->
     w_calls (snd (EnhancedAgentOrchestrator.run_task agents token_budget i t results total w)) =
     (w_calls w ++
       [{| call_agent := name; call_method := "execute"; call_task := txt;
           call_context := Some (dep_results results (task_get_depends_on t)) |}])%list).
Proof.
  split; [|split].
  - intros. apply dep_results_get.
  - intros i t results w name a f txt Ha Hl Hf Ht.
    unfold AgentOrchestrator.run_task, bind, lift, task_getitem_agent, agents_getitem,
      task_getitem_task, invoke.
    rewrite Ha, Hl, Hf, Ht. destruct (f txt _); reflexivity.
  - intros i t results total w name a f txt Ha Hl Hf Ht.
    destruct (run_task_runs_agent token_budget agents i t results total name a txt w Ha Hl Ht)
      as (bc & w1 & _ & Hc1 & w' & Hc & ->).
    rewrite dispatch_trace, Hc1 in Hc. unfold invocation_of in Hc. rewrite Hf in Hc.
    destruct (fst _); exact Hc.
Qed.

(** A failing task ends the loop: nothing of the rest of the plan runs. *)
Lemma run_tasks_stops_at_failure (i : Z) (t : task) (rest : list task) (results : dict R)
  (total : float) (w : world R) (e : exn) (w' : world R) :
  EnhancedAgentOrchestrator.run_task agents token_budget i t results total w = (Exc e, w') ->
  EnhancedAgentOrchestrator.run_tasks agents token_budget (t :: rest) i results total w =
    (Exc e, w').
Proof.
  intros Hrun. cbn [EnhancedAgentOrchestrator.run_tasks]. unfold bind. now rewrite Hrun.
Qed.

(** C8 (as the code has it): whatever goes wrong inside [execute] leaves it
    as a raised [AgentExecutionException] whose message is "Query execution
    failed: " followed by the description of the failure, after the failure
    has been logged; no exception of another class crosses the boundary, and
    no outcome is returned.  So it is for a planner that raises and for a plan
    above the configured maximum (no agent is invoked in either case); an
    exception raised by an agent's capability becomes "Agent <name> failed:
    ..." and ends the loop over the plan. *)
Theorem execute_failures_are_raised (query uuid : string) (w : world R) :
  (forall e w',
     EnhancedAgentOrchestrator.execute settings agents planner token_budget query uuid w =
       (Exc e, w') ->
     (exists m, e = AgentExecutionException ("Query execution failed: " +:+ m)) /\
     last (w_log w') = Some "query_failed") /\
  (forall f e, a_plan planner = Some f -> f query = Exc e ->
     fst (EnhancedAgentOrchestrator.execute settings agents planner token_budget query uuid w) =
       Exc (AgentExecutionException ("Query execution failed: " +:+ str_exn e)) /\
     w_calls (snd (EnhancedAgentOrchestrator.execute settings agents planner token_budget
                     query uuid w)) =
       (w_calls w ++ [{| call_agent := "planner"; call_method := "plan"; call_task := query;
                         call_context := None |}])%list) /\
  (forall f tasks, a_plan planner = Some f -> f query = Val tasks ->
     (Z.of_nat (length tasks) >? MAX_AGENTS_PER_QUERY settings) = true ->
     fst (EnhancedAgentOrchestrator.execute settings agents planner token_budget query uuid w) =
       Exc (AgentExecutionException
              ("Query execution failed: Too many agents required: " +:+
               pretty (Z.of_nat (length tasks)) +:+ " > " +:+
               pretty (MAX_AGENTS_PER_QUERY settings))) /\
     w_calls (snd (EnhancedAgentOrchestrator.execute settings agents planner token_budget
                     query uuid w)) =
       (w_calls w ++ [{| call_agent := "planner"; call_method := "plan"; call_task := query;
                         call_context := None |}])%list) /\
  (forall i t rest results total (w0 : world R) name a txt e,
     t_agent t = Some name -> agents !! name = Some a -> t_task t = Some txt ->
     (forall w1,
        fst (EnhancedAgentOrchestrator.dispatch a name txt
               (dep_results results (task_get_depends_on t)) w1) = Exc e) ->
     exists w',
       EnhancedAgentOrchestrator.run_tasks agents token_budget (t :: rest) i results total w0 =
         (Exc (AgentExecutionException ("Agent " +:+ name +:+ " failed: " +:+ str_exn e)),
          w') /\
       w_calls w' =
         (w_calls w0 ++
          invocation_of a name txt (dep_results results (task_get_depends_on t)))%list).
Proof.
  split; [|split; [|split]].
  - intros e w'. unfold EnhancedAgentOrchestrator.execute, bind at 1, try_except.
    match goal with
    | |- context [let (_, _) := ?body ?w0 in _] => destruct (body w0) as [[o|e0] w1]
    end.
    + intros Heq. inversion Heq.
    + unfold bind, EnhancedAgentOrchestrator.record_query_end, log, raise.
      intros Heq. inversion Heq. split; [eauto|]. simpl. apply last_snoc.
  - intros f e Hp Hf.
    unfold EnhancedAgentOrchestrator.execute, bind, try_except, call_plan, log.
    rewrite Hp. simpl. rewrite Hf. simpl. split; reflexivity.
  - intros f tasks Hp Hf Hn.
    unfold EnhancedAgentOrchestrator.execute, bind, try_except, call_plan, log.
    rewrite Hp. simpl. rewrite Hf, Hn. simpl. split; reflexivity.
  - intros i t rest results total w0 name a txt e Ha Hl Ht Hfail.
    destruct (run_task_runs_agent token_budget agents i t results total name a txt w0 Ha Hl Ht)
      as (bc & w1 & _ & Hc1 & w' & Hc & Hrun).
    rewrite Hfail in Hrun. exists w'. split.
    + now apply run_tasks_stops_at_failure.
    + now rewrite Hc, dispatch_trace, Hc1.
Qed.

(** C10 (as the code has it): the recording step cannot raise, and the task
    that ran completes with its result.  [record_usage] always returns a
    mapping: the one with the "error" key when the cost computation raised,
    and its cost then reads as 0.0; the full usage record whenever the cost
    can be computed, whatever the state of the connection.
    [_record_agent_usage] always returns, having added the cost read from that
    mapping to the query's cost and entered it in [agent_costs]. *)
Theorem usage_recording_never_fails_the_task :
  (forall i o name qid (w : world R),
     exists u w',
       record_usage token_budget i o name qid w = (Val u, w') /\
       (has_error_key u = true -> get_cost u = 0%float) /\
       (forall c, calculate_cost_estimate token_budget i o = Val c ->
          u = UsageRecorded (the_record token_budget w i o name qid c)) /\
       (forall e, calculate_cost_estimate token_budget i o = Exc e ->
          u = UsageError (str_exn e))) /\
  (forall name txt ctx (r : R) (w : world R),
     exists u w1 w',
       record_usage token_budget
         (Py.len (EnhancedAgentOrchestrator.input_text txt ctx) / 4)
         (Py.len (py_str r) / 4) name (current_query_id w) w = (Val u, w1) /\
       EnhancedAgentOrchestrator._record_agent_usage token_budget name txt ctx r w =
         (Val tt, w') /\
       current_query_cost w' = (current_query_cost w + get_cost u)%float /\
       agent_costs w' !! name = Some (get_cost u)) /\
  (forall a name txt ctx (r : R) (w : world R),
     fst (EnhancedAgentOrchestrator.dispatch a name txt ctx w) = Val r ->
     fst (EnhancedAgentOrchestrator._execute_agent_with_budget_tracking token_budget a name
            txt ctx w) = Val r).
Proof.
  split; [|split].
  - intros i o name qid w.
    destruct (record_usage_run token_budget i o name qid w) as (u & w' & E & _ & Hu).
    exists u, w'. split; [exact E|].
    destruct (calculate_cost_estimate token_budget i o) as [c|e]; subst u;
      repeat split; try discriminate; intros ? Heq; inversion Heq; reflexivity.
  - intros name txt ctx r w.
    destruct (record_usage_run token_budget
                (Py.len (EnhancedAgentOrchestrator.input_text txt ctx) / 4)
                (Py.len (py_str r) / 4) name (current_query_id w) w)
      as (u & w1 & Eu & _ & Hu).
    fold (usage_of token_budget txt ctx r name w) in Hu. subst u.
    destruct (record_agent_usage_run token_budget name txt ctx r w)
      as (w' & E & _ & _ & Hq & Ha).
    exists (usage_of token_budget txt ctx r name w), w1, w'.
    split; [exact Eu|]. split; [exact E|]. split; [exact Hq|].
    rewrite Ha. apply lookup_insert_eq.
  - intros a name txt ctx r w Hd.
    destruct (execute_agent_success token_budget a name txt ctx r w Hd) as (w' & -> & _).
    reflexivity.
Qed.

(** Whatever the budgets and the ledger, a well-formed task whose capability
    returns is run: the budget guard never keeps a task from its agent. *)
Lemma run_task_ignores_the_budget (i : Z) (t : task) (results : dict R) (total : float)
  (name : string) (a : agent R) (txt : string) (r : R) (w : world R) :
  t_agent t = Some name -> agents !! name = Some a -> t_task t = Some txt ->
  (forall w1,
     fst (EnhancedAgentOrchestrator.dispatch a name txt
            (dep_results results (task_get_depends_on t)) w1) = Val r) ->
  exists est w',
    EnhancedAgentOrchestrator.run_task agents token_budget i t results total w =
      (Val (dict_set results i r, (total + est)%float), w').
Proof.
  intros Ha Hl Ht Hok.
  destruct (run_task_runs_agent token_budget agents i t results total name a txt w Ha Hl Ht)
    as (bc & w1 & _ & _ & w' & _ & Hrun).
  rewrite Hok in Hrun. eauto.
Qed.

(** The pre-flight of the task executor never rejects: for every agent
    name, task, context and world it returns a mapping with
    [approved = True], and it touches nothing but the Redis connection and
    the log.  The rejection branch of [execute] is unreachable. *)
Theorem pre_flight_agent_check_never_rejects
  (agent_name : string) (t : task) (context : dict R) (w : world R) :
  exists bc w',
    EnhancedAgentOrchestrator._pre_flight_agent_check token_budget agent_name t context w =
      (Val bc, w') /\
    approved bc = true /\ outside_ledger w' = outside_ledger w.
Proof. apply agent_check_always_approves. Qed.

End Orchestration.

(* ===================================================================== *)
(** ** Scenarios, evaluated *)

(** A task that depends on indices 0 and 5 when only 0 has a result: the
    agent is awaited with the result of 0 alone, and nothing is raised. *)
Example forward_reference_is_dropped :
  dep_results [(0, "results for search web for X")] [0; 5] =
    [(0, "results for search web for X")] /\
  AgentOrchestrator.run_task (Scenario.agents_of Scenario.no_methods) 1 Scenario.forward_task
    [(0, "results for search web for X")] Scenario.healthy =
  (Val [(0, "results for search web for X"); (1, "analysis of analyze data Y")],
   with_calls [{| call_agent := "data_analysis"; call_method := "execute";
                  call_task := "analyze data Y";
                  call_context := Some [(0, "results for search web for X")] |}]
     Scenario.healthy).
Proof. split; vm_compute; reflexivity. Qed.

(** C4 fails on the code.  With a per-query budget of $0.001 the budget
    guard rejects the estimate of the plan's only task, yet the query
    completes: the rejection is logged as a failed pre-flight, the search
    capability is invoked once, its result is kept and the answer is
    synthesized, with an estimated cost of 0.0. *)
Theorem budget_rejection_does_not_stop_the_task :
  fst (pre_flight_check (TokenBudgetManager_init Scenario.tight_settings) 7 500
         Scenario.healthy) =
    Exc (TokenBudgetException
           "Per-query budget exceeded. Estimated cost: $0.0376, Budget: $0.0010") /\
  (exists o w',
     EnhancedAgentOrchestrator.execute Scenario.tight_settings
       (Scenario.agents_of Scenario.one_search_plan) Scenario.one_search_plan
       (TokenBudgetManager_init Scenario.tight_settings) "what is X?" "query-1"
       Scenario.healthy = (Val o, w') /\
     o_answer o = "answer" /\
     o_intermediate_results o = [(0, "results for search web for X")] /\
     o_estimated_cost o = 0%float /\
     map (fun c => (call_agent c, call_method c, call_task c)) (w_calls w') =
       [("planner", "plan", "what is X?");
        ("web_search", "search", "search web for X");
        ("synthesis", "synthesize", "what is X?")] /\
     w_log w' = ["query_started"; "per_query_budget_exceeded"; "pre_flight_check_failed";
                 "usage_recorded"; "agent_usage_recorded"; "query_completed"]).
Proof.
  split; [vm_compute; reflexivity|].
  eexists _, _. split; [vm_compute; reflexivity|]. repeat split.
Qed.

(** C8, as stated, fails: a planner that raises does not produce an outcome
    with an empty answer; [execute] raises. *)
Lemma failures_cross_the_boundary_as_exceptions :
  fst (EnhancedAgentOrchestrator.execute default_settings
         (Scenario.agents_of Scenario.broken_planner) Scenario.broken_planner
         (TokenBudgetManager_init default_settings) "what is X?" "query-1"
         Scenario.healthy) =
    Exc (AgentExecutionException "Query execution failed: Expecting value") /\
  (forall o,
     fst (EnhancedAgentOrchestrator.execute default_settings
            (Scenario.agents_of Scenario.broken_planner) Scenario.broken_planner
            (TokenBudgetManager_init default_settings) "what is X?" "query-1"
            Scenario.healthy) <> Val o).
Proof.
  assert (Hrun :
    fst (EnhancedAgentOrchestrator.execute default_settings
           (Scenario.agents_of Scenario.broken_planner) Scenario.broken_planner
           (TokenBudgetManager_init default_settings) "what is X?" "query-1"
           Scenario.healthy) =
    Exc (AgentExecutionException "Query execution failed: Expecting value"))
    by (vm_compute; reflexivity).
  split; [exact Hrun|]. intros o Ho. rewrite Hrun in Ho. discriminate Ho.
Qed.

Example too_many_tasks_message :
  fst (EnhancedAgentOrchestrator.execute default_settings
         (Scenario.agents_of Scenario.long_plan) Scenario.long_plan
         (TokenBudgetManager_init default_settings) "what is X?" "query-1"
         Scenario.healthy) =
  Exc (AgentExecutionException
         "Query execution failed: Too many agents required: 11 > 10").
Proof. vm_compute. reflexivity. Qed.

(** The second of three tasks fails: the third is never run, and the usage
    of the first stays in the ledger. *)
Example failing_agent_aborts_the_query :
  fst (EnhancedAgentOrchestrator.execute default_settings
         (Scenario.agents_of Scenario.failing_plan) Scenario.failing_plan
         (TokenBudgetManager_init default_settings) "what is X?" "query-1"
         Scenario.healthy) =
    Exc (AgentExecutionException
           "Query execution failed: Agent code_execution failed: sandbox timed out") /\
  map (fun c => (call_agent c, call_method c))
    (w_calls (snd (EnhancedAgentOrchestrator.execute default_settings
                     (Scenario.agents_of Scenario.failing_plan) Scenario.failing_plan
                     (TokenBudgetManager_init default_settings) "what is X?" "query-1"
                     Scenario.healthy))) =
    [("planner", "plan"); ("web_search", "search"); ("code_execution", "execute")] /\
  h_queries_processed <$>
    hashes (w_redis (snd (EnhancedAgentOrchestrator.execute default_settings
                            (Scenario.agents_of Scenario.failing_plan) Scenario.failing_plan
                            (TokenBudgetManager_init default_settings) "what is X?"
                            "query-1" Scenario.healthy))) !! "daily_usage:2025-01-01" =
    Some 1.
Proof. repeat split; vm_compute; reflexivity. Qed.

(** C10, as stated, fails when the backing store is unreachable: with every
    round trip failing, [record_usage] returns the full usage record (no
    "error" key) although nothing reached the store, and the task adds its
    computed cost, not 0.0, to the query. *)
Lemma store_outage_still_charges_the_query :
  ledger_down Scenario.outage = true /\
  (exists u w',
     record_usage (TokenBudgetManager_init default_settings) 7 7 "web_search" "query-1"
       Scenario.outage = (Val u, w') /\
     has_error_key u = false /\
     get_cost u = 0.00062999999999999992%float /\
     hashes (w_redis w') = ∅ /\ lists (w_redis w') = ∅) /\
  current_query_cost
    (snd (EnhancedAgentOrchestrator._record_agent_usage
            (TokenBudgetManager_init default_settings)
            "web_search" "search web for X" [] "results for search web for X"
            Scenario.outage)) =
    0.00062999999999999992%float /\
  (0 <? 0.00062999999999999992)%float = true.
Proof.
  split; [reflexivity|]. split; [|split; vm_compute; reflexivity].
  eexists _, _. split; [vm_compute; reflexivity|]. repeat split.
Qed.

(** The one way to the "error" key: a token count no float can hold. *)
Example recording_error_key :
  fst (record_usage (TokenBudgetManager_init default_settings) (2 ^ 1024) 7 "web_search"
         "query-1" Scenario.healthy) =
  Val (UsageError "int too large to convert to float").
Proof. vm_compute. reflexivity. Qed.

(** The properties above at the scenarios: their hypotheses can be met. *)

(** A token count no float can hold, and a daily budget of zero, against
    the fail-open policy; the outage against the ledger read. *)
Lemma fail_open_policy_witness :
  pre_flight_check (R := string) (TokenBudgetManager_init default_settings) (2 ^ 1024) 500
    Scenario.healthy =
    (Val (fail_open (PyError "OverflowError" "int too large to convert to float")),
     with_log (w_log Scenario.healthy ++ ["pre_flight_check_failed"]) Scenario.healthy) /\
  (exists e w',
     pre_flight_check (R := string) (TokenBudgetManager_init Scenario.zero_daily_settings) 0 0
       Scenario.healthy = (Val (fail_open e), w') /\
     last (w_log w') = Some "pre_flight_check_failed") /\
  _get_daily_usage Scenario.outage = (Val 0%float, after_read Scenario.outage).
Proof.
  split; [|split].
  - apply (pre_flight_check_fail_open_policy (TokenBudgetManager_init default_settings)
             (2 ^ 1024) 500 Scenario.healthy).
    vm_compute. reflexivity.
  - apply (pre_flight_check_fail_open_policy
             (TokenBudgetManager_init Scenario.zero_daily_settings) 0 0 Scenario.healthy)
      with (est := 0%float); vm_compute; reflexivity.
  - apply (pre_flight_check_fail_open_policy (TokenBudgetManager_init default_settings)
             7 500 Scenario.outage).
    reflexivity.
Defined.

(** The forward reference of [Scenario.forward_task]: index 5 is declared
    and has no result. *)
Lemma dependency_context_witness :
  dict_get (dep_results [(0, "results for search web for X")] [0; 5]) 0 =
    Some "results for search web for X" /\
  dict_get (dep_results [(0, "results for search web for X")] [0; 5]) 5 = None /\
  w_calls (snd (EnhancedAgentOrchestrator.run_task
                  (Scenario.agents_of Scenario.no_methods)
                  (TokenBudgetManager_init default_settings) 1 Scenario.forward_task
                  [(0, "results for search web for X")] 0%float Scenario.healthy)) =
    [{| call_agent := "data_analysis"; call_method := "execute";
        call_task := "analyze data Y";
        call_context := Some [(0, "results for search web for X")] |}].
Proof.
  destruct (dependency_context_is_restriction (R := string)
              (Scenario.agents_of Scenario.no_methods)
              (TokenBudgetManager_init default_settings)) as (Hget & _ & Hrun).
  split; [|split].
  - rewrite Hget. reflexivity.
  - rewrite Hget. reflexivity.
  - rewrite (Hrun 1 Scenario.forward_task [(0, "results for search web for X")] 0%float
               Scenario.healthy "data_analysis" Scenario.data_analysis
               (fun t _ => Val ("analysis of " +:+ t)) "analyze data Y");
      reflexivity.
Defined.

(** A planner that raises, a plan of eleven tasks, and an agent whose
    capability raises. *)
Lemma execute_failures_witness :
  fst (EnhancedAgentOrchestrator.execute default_settings
         (Scenario.agents_of Scenario.broken_planner) Scenario.broken_planner
         (TokenBudgetManager_init default_settings) "what is X?" "query-1"
         Scenario.healthy) =
    Exc (AgentExecutionException ("Query execution failed: " +:+ "Expecting value")) /\
  fst (EnhancedAgentOrchestrator.execute default_settings
         (Scenario.agents_of Scenario.long_plan) Scenario.long_plan
         (TokenBudgetManager_init default_settings) "what is X?" "query-1"
         Scenario.healthy) =
    Exc (AgentExecutionException
           ("Query execution failed: Too many agents required: " +:+ pretty 11 +:+ " > " +:+
            pretty 10)) /\
  (exists w',
     EnhancedAgentOrchestrator.run_tasks (Scenario.agents_of Scenario.failing_plan)
       (TokenBudgetManager_init default_settings)
       [Scenario.code_task; Scenario.search_task] 1
       [(0, "results for search web for X")] 0%float Scenario.healthy =
       (Exc (AgentExecutionException
               ("Agent " +:+ "code_execution" +:+ " failed: " +:+ "sandbox timed out")), w') /\
     w_calls w' =
       [{| call_agent := "code_execution"; call_method := "execute";
           call_task := "run the script";
           call_context := Some [(0, "results for search web for X")] |}]).
Proof.
  split; [|split].
  - apply (execute_failures_are_raised default_settings
             (Scenario.agents_of Scenario.broken_planner) Scenario.broken_planner
             (TokenBudgetManager_init default_settings) "what is X?" "query-1"
             Scenario.healthy)
      with (f := fun _ => Exc (PyError "JSONDecodeError" "Expecting value"))
           (e := PyError "JSONDecodeError" "Expecting value"); reflexivity.
  - apply (execute_failures_are_raised default_settings
             (Scenario.agents_of Scenario.long_plan) Scenario.long_plan
             (TokenBudgetManager_init default_settings) "what is X?" "query-1"
             Scenario.healthy)
      with (f := fun _ => Val (repeat Scenario.search_task 11))
           (tasks := repeat Scenario.search_task 11); reflexivity.
  - destruct (execute_failures_are_raised (R := string) default_settings
                (Scenario.agents_of Scenario.failing_plan) Scenario.failing_plan
                (TokenBudgetManager_init default_settings) "what is X?" "query-1"
                Scenario.healthy) as (_ & _ & _ & Hagent).
    apply (Hagent 1 Scenario.code_task [Scenario.search_task]
             [(0, "results for search web for X")] 0%float Scenario.healthy
             "code_execution" Scenario.failing_agent "run the script"
             (PyError "TimeoutError" "sandbox timed out")); reflexivity.
Defined.

(** A token count no float can hold yields the "error" key and a cost
    read of 0.0; seven tokens in and out yield the full record; a capability
    that returns completes its task during an outage. *)
Lemma usage_recording_witness :
  (exists u w',
     record_usage (R := string) (TokenBudgetManager_init default_settings) (2 ^ 1024) 7
       "web_search" "query-1" Scenario.healthy = (Val u, w') /\
     u = UsageError (str_exn (PyError "OverflowError" "int too large to convert to float")) /\
     get_cost u = 0%float) /\
  (exists u w',
     record_usage (R := string) (TokenBudgetManager_init default_settings) 7 7
       "web_search" "query-1" Scenario.outage = (Val u, w') /\
     u = UsageRecorded
           (the_record (TokenBudgetManager_init default_settings) Scenario.outage 7 7
              "web_search" "query-1" 0.00062999999999999992)) /\
  fst (EnhancedAgentOrchestrator._execute_agent_with_budget_tracking
         (TokenBudgetManager_init default_settings) Scenario.web_search "web_search"
         "search web for X" [] Scenario.outage) = Val "results for search web for X".
Proof.
  destruct (usage_recording_never_fails_the_task (R := string)
              (TokenBudgetManager_init default_settings)) as (Hmap & _ & Hdone).
  split; [|split].
  - destruct (Hmap (2 ^ 1024) 7 "web_search" "query-1" Scenario.healthy)
      as (u & w' & Hrun & Hzero & _ & Herr).
    exists u, w'. split; [exact Hrun|].
    assert (Hu : u = UsageError
                       (str_exn (PyError "OverflowError" "int too large to convert to float")))
      by (apply Herr; vm_compute; reflexivity).
    split; [exact Hu|]. apply Hzero. rewrite Hu. reflexivity.
  - destruct (Hmap 7 7 "web_search" "query-1" Scenario.outage)
      as (u & w' & Hrun & _ & Hrec & _).
    exists u, w'. split; [exact Hrun|]. apply Hrec. vm_compute. reflexivity.
  - apply Hdone. reflexivity.
Defined.

(* ===================================================================== *)
(** ** Rounding to binary64 is monotone *)

Lemma digits2_pos_bounds (p : positive) :
  2 ^ (Zpos (digits2_pos p) - 1) <= Zpos p < 2 ^ Zpos (digits2_pos p).
Proof.
  induction p as [p IH|p IH|]; cbn [digits2_pos].
  - rewrite Pos2Z.inj_succ.
    replace (Z.succ (Zpos (digits2_pos p)) - 1) with (Z.succ (Zpos (digits2_pos p) - 1)) by lia.
    rewrite !Z.pow_succ_r by lia. lia.
  - rewrite Pos2Z.inj_succ.
    replace (Z.succ (Zpos (digits2_pos p)) - 1) with (Z.succ (Zpos (digits2_pos p) - 1)) by lia.
    rewrite !Z.pow_succ_r by lia. lia.
  - simpl. lia.
Qed.

Lemma Zdigits2_bounds (m : Z) : 0 < m -> 2 ^ (Zdigits2 m - 1) <= m < 2 ^ Zdigits2 m.
Proof. destruct m; try lia. intros _. apply digits2_pos_bounds. Qed.

Lemma Zdigits2_pos (m : Z) : 0 < m -> 0 < Zdigits2 m.
Proof. destruct m; simpl; lia. Qed.

Lemma pow2_pos (k : Z) : 0 <= k -> 0 < 2 ^ k.
Proof. intros. apply Z.pow_pos_nonneg; lia. Qed.

Lemma pow2_lt_inv (a b : Z) : 0 <= b -> 2 ^ a < 2 ^ b -> a < b.
Proof.
  intros Hb H. destruct (Z_lt_le_dec a b) as [|Hle]; [assumption|].
  apply (Z.pow_le_mono_r 2) in Hle; lia.
Qed.

Lemma Zdigits2_mono (m1 m2 : Z) : 0 < m1 -> m1 <= m2 -> Zdigits2 m1 <= Zdigits2 m2.
Proof.
  intros H1 H12.
  pose proof (Zdigits2_bounds m1 H1) as [Hlo _].
  pose proof (Zdigits2_bounds m2 ltac:(lia)) as [_ Hhi].
  pose proof (Zdigits2_pos m2 ltac:(lia)).
  assert (2 ^ (Zdigits2 m1 - 1) < 2 ^ Zdigits2 m2) by lia.
  apply pow2_lt_inv in H0; lia.
Qed.

Lemma Zdigits2_unique (m d : Z) : 0 < m -> 2 ^ (d - 1) <= m < 2 ^ d -> Zdigits2 m = d.
Proof.
  intros Hm [Hlo Hhi]. pose proof (Zdigits2_bounds m Hm) as [Hlo' Hhi'].
  pose proof (Zdigits2_pos m Hm).
  assert (0 < d).
  { destruct (Z_lt_le_dec 0 d) as [|Hd]; [assumption|].
    assert (2 ^ d <= 2 ^ 0) by (destruct (Z.eq_dec d 0) as [->|]; [lia|rewrite Z.pow_neg_r by lia; simpl; lia]).
    simpl in *. lia. }
  assert (2 ^ (d - 1) < 2 ^ Zdigits2 m) by lia.
  assert (2 ^ (Zdigits2 m - 1) < 2 ^ d) by lia.
  apply pow2_lt_inv in H1; apply pow2_lt_inv in H2; lia.
Qed.

Lemma Zdigits2_shift (m k : Z) : 0 < m -> 0 <= k -> Zdigits2 (m * 2 ^ k) = Zdigits2 m + k.
Proof.
  intros Hm Hk. pose proof (Zdigits2_bounds m Hm) as [Hlo Hhi].
  pose proof (Zdigits2_pos m Hm). pose proof (pow2_pos k Hk).
  apply Zdigits2_unique; [nia|].
  replace (Zdigits2 m + k - 1) with ((Zdigits2 m - 1) + k) by lia.
  rewrite !Z.pow_add_r by lia. nia.
Qed.

Lemma Zdigits2_div (m n : Z) :
  0 < m -> 0 <= n -> n < Zdigits2 m -> Zdigits2 (m / 2 ^ n) = Zdigits2 m - n.
Proof.
  intros Hm Hn Hlt. pose proof (Zdigits2_bounds m Hm) as [Hlo Hhi].
  pose proof (pow2_pos n Hn).
  assert (Hlo' : 2 ^ (Zdigits2 m - n - 1) <= m / 2 ^ n).
  { apply Z.div_le_lower_bound; [lia|].
    rewrite <- Z.pow_add_r by lia. replace (n + (Zdigits2 m - n - 1)) with (Zdigits2 m - 1) by lia.
    exact Hlo. }
  assert (Hhi' : m / 2 ^ n < 2 ^ (Zdigits2 m - n)).
  { apply Z.div_lt_upper_bound; [lia|].
    rewrite <- Z.pow_add_r by lia. replace (n + (Zdigits2 m - n)) with (Zdigits2 m) by lia.
    exact Hhi. }
  pose proof (pow2_pos (Zdigits2 m - n - 1) ltac:(lia)).
  apply Zdigits2_unique; [lia|]. split; assumption.
Qed.

(** Iterating a function a positive number of times. *)
Lemma iter_pos_nat {A} (f : A -> A) (p : positive) : forall x,
  SpecFloat.iter_pos f p x = Nat.iter (Pos.to_nat p) f x.
Proof.
  induction p as [p IH|p IH|]; intros x; cbn [SpecFloat.iter_pos].
  - rewrite !IH, Pos2Nat.inj_xI.
    replace (S (2 * Pos.to_nat p))%nat with (Pos.to_nat p + (Pos.to_nat p + 1))%nat by lia.
    rewrite !Nat.iter_add. simpl. reflexivity.
  - rewrite !IH, Pos2Nat.inj_xO.
    replace (2 * Pos.to_nat p)%nat with (Pos.to_nat p + Pos.to_nat p)%nat by lia.
    rewrite Nat.iter_add. reflexivity.
  - reflexivity.
Qed.

Lemma shr_1_nonneg (m : Z) (r s : bool) : 0 <= m ->
  shr_1 {| shr_m := m; shr_r := r; shr_s := s |} =
  {| shr_m := m / 2; shr_r := Z.odd m; shr_s := r || s |}.
Proof.
  intros Hm. destruct m as [|[p|p|]|p]; try lia; cbn [shr_1].
  - reflexivity.
  - f_equal. rewrite Pos2Z.inj_xI. apply Z.div_unique with 1; lia.
  - f_equal. rewrite Pos2Z.inj_xO. apply Z.div_unique with 0; lia.
  - reflexivity.
Qed.

Lemma shr_iter (M : Z) (k : nat) : 0 <= M ->
  Nat.iter (S k) shr_1 {| shr_m := M; shr_r := false; shr_s := false |} =
  shr_spec M (Z.of_nat (S k)).
Proof.
  intros HM. induction k as [|k IH].
  - cbn [Nat.iter]. rewrite shr_1_nonneg by assumption. unfold shr_spec.
    change (Z.of_nat 1 - 1) with 0. change (Z.of_nat 1) with 1.
    rewrite Z.pow_0_r, Z.pow_1_r, Z.div_1_r, Z.mod_1_r. reflexivity.
  - change (Nat.iter (S (S k)) shr_1 ?x) with (shr_1 (Nat.iter (S k) shr_1 x)).
    rewrite IH. unfold shr_spec.
    pose proof (pow2_pos (Z.of_nat (S k)) ltac:(lia)).
    pose proof (pow2_pos (Z.of_nat (S k) - 1) ltac:(lia)).
    rewrite shr_1_nonneg by (apply Z.div_pos; lia).
    replace (Z.of_nat (S (S k)) - 1) with (Z.of_nat (S k)) by lia.
    replace (Z.of_nat (S (S k))) with (Z.succ (Z.of_nat (S k))) by lia.
    f_equal.
    + rewrite Z.pow_succ_r by lia. rewrite Z.div_div by lia. f_equal. lia.
    + assert (Hp : 2 ^ Z.of_nat (S k) = 2 ^ (Z.of_nat (S k) - 1) * 2).
      { set (j := Z.of_nat (S k) - 1). replace (Z.of_nat (S k)) with (Z.succ j) by lia.
        rewrite Z.pow_succ_r by lia. lia. }
      rewrite Hp, Z.rem_mul_r by lia.
      set (lo := M mod 2 ^ (Z.of_nat (S k) - 1)).
      set (hi := M / 2 ^ (Z.of_nat (S k) - 1)).
      assert (0 <= lo < 2 ^ (Z.of_nat (S k) - 1)) by (apply Z.mod_pos_bound; lia).
      pose proof (Z.mod_pos_bound hi 2 ltac:(lia)).
      pose proof (Zmod_odd hi) as Ho.
      destruct (Z.odd hi); rewrite Ho; destruct (Z.eqb_spec lo 0) as [E'|E']; cbn [orb negb];
        symmetry; rewrite ?negb_true_iff, ?negb_false_iff; try apply Z.eqb_neq; try apply Z.eqb_eq; nia.
Qed.

Lemma rne_0 (M : Z) : rne M 0 = M.
Proof. unfold rne. rewrite Z.pow_0_r, Z.mod_1_r, Z.div_1_r. reflexivity. Qed.

Lemma round_shr_spec (M n : Z) : 0 <= M -> 1 <= n ->
  round_nearest_even (shr_m (shr_spec M n)) (loc_of_shr_record (shr_spec M n)) = rne M n.
Proof.
  intros HM Hn. unfold shr_spec, rne. cbn [shr_m loc_of_shr_record].
  pose proof (pow2_pos (n - 1) ltac:(lia)) as Hp.
  assert (Hpn : 2 ^ n = 2 ^ (n - 1) * 2).
  { set (j := n - 1). replace n with (Z.succ j) by lia. rewrite Z.pow_succ_r by lia. lia. }
  rewrite Hpn at 2 3. rewrite Z.rem_mul_r by lia.
  set (lo := M mod 2 ^ (n - 1)). set (hi := M / 2 ^ (n - 1)).
  assert (Hlo : 0 <= lo < 2 ^ (n - 1)) by (apply Z.mod_pos_bound; lia).
  pose proof (Z.mod_pos_bound hi 2 ltac:(lia)) as Hh.
  pose proof (Zmod_odd hi) as Ho.
  destruct (Z.odd hi); rewrite Ho; destruct (Z.eqb_spec lo 0) as [E|E]; cbn [negb round_nearest_even].
  - assert (Hc : (2 * (lo + 2 ^ (n - 1) * 1) ?= 2 ^ (n - 1) * 2) = Eq) by (apply Z.compare_eq_iff; lia).
    rewrite Hc. reflexivity.
  - assert (Hc : (2 * (lo + 2 ^ (n - 1) * 1) ?= 2 ^ (n - 1) * 2) = Gt) by (apply Z.compare_gt_iff; lia).
    rewrite Hc. reflexivity.
  - assert (Hc : (2 * (lo + 2 ^ (n - 1) * 0) ?= 2 ^ (n - 1) * 2) = Lt) by (apply Z.compare_lt_iff; lia).
    rewrite Hc. reflexivity.
  - assert (Hc : (2 * (lo + 2 ^ (n - 1) * 0) ?= 2 ^ (n - 1) * 2) = Lt) by (apply Z.compare_lt_iff; lia).
    rewrite Hc. reflexivity.
Qed.

Lemma shr_pos (M e n : Z) : 0 <= M -> 0 < n ->
  shr {| shr_m := M; shr_r := false; shr_s := false |} e n = (shr_spec M n, e + n).
Proof.
  intros HM Hn. destruct n as [|p|p]; try lia. cbn [shr].
  rewrite iter_pos_nat. destruct (Pos2Nat.is_succ p) as [k Hk]. rewrite Hk.
  rewrite shr_iter by assumption. rewrite <- Hk, positive_nat_Z. reflexivity.
Qed.

Lemma first_stage (M e : Z) : 0 <= M -> 0 <= shift_of M e ->
  let '(mrs, e') := shr_fexp prec emax M e loc_Exact in
  round_nearest_even (shr_m mrs) (loc_of_shr_record mrs) = rne M (shift_of M e) /\
  e' = e + shift_of M e.
Proof.
  intros HM Hn. unfold shr_fexp. fold (shift_of M e). cbn [shr_record_of_loc].
  destruct (Z.eq_dec (shift_of M e) 0) as [E|E].
  - rewrite E. cbn [shr]. cbn [shr_m loc_of_shr_record round_nearest_even].
    rewrite rne_0. split; lia.
  - rewrite shr_pos by lia. split; [apply round_shr_spec; lia|reflexivity].
Qed.

Lemma binary_round_aux_finish (s : bool) (M e : Z) : 0 <= M -> 0 <= shift_of M e ->
  binary_round_aux prec emax s M e loc_Exact =
  finish s (rne M (shift_of M e)) (e + shift_of M e).
Proof.
  intros HM Hn. unfold binary_round_aux, finish.
  pose proof (first_stage M e HM Hn) as Hf.
  destruct (shr_fexp prec emax M e loc_Exact) as [mrs e'].
  destruct Hf as [-> ->]. reflexivity.
Qed.

Lemma finish_zero (s : bool) (E : Z) : finish s 0 E = S754_zero s.
Proof.
  unfold finish, shr_fexp. cbn [Zdigits2 shr_record_of_loc].
  destruct (Z_lt_le_dec 0 (fexp prec emax (0 + E) - E)) as [Hn|Hn].
  - rewrite shr_pos by lia. unfold shr_spec. cbn [shr_m]. rewrite Z.div_0_l; [reflexivity|].
    pose proof (pow2_pos (fexp prec emax (0 + E) - E)). lia.
  - destruct (fexp prec emax (0 + E) - E); try lia; reflexivity.
Qed.

Lemma finish_small (s : bool) (q E : Z) : 0 < q < 2 ^ prec -> emin <= E ->
  finish s q E =
  if E <=? emax - prec then S754_finite s (Z.to_pos q) E else S754_infinity s.
Proof.
  intros Hq HE. unfold finish, shr_fexp. cbn [shr_record_of_loc].
  assert (Hd : Zdigits2 q <= prec).
  { pose proof (Zdigits2_bounds q ltac:(lia)) as [Hlo _].
    assert (2 ^ (Zdigits2 q - 1) < 2 ^ prec) by lia.
    apply pow2_lt_inv in H; [lia|]. unfold prec. lia. }
  assert (Hn : fexp prec emax (Zdigits2 q + E) - E <= 0).
  { unfold fexp. unfold SpecFloat.emin in *. lia. }
  destruct (fexp prec emax (Zdigits2 q + E) - E) eqn:En; try lia; cbn [shr shr_m];
    destruct q; try lia; reflexivity.
Qed.

Lemma finish_top (s : bool) (E : Z) : emin <= E ->
  finish s (2 ^ prec) E =
  if E + 1 <=? emax - prec then S754_finite s (Z.to_pos (2 ^ (prec - 1))) (E + 1)
  else S754_infinity s.
Proof.
  intros HE. unfold finish, shr_fexp. cbn [shr_record_of_loc].
  assert (Hd : Zdigits2 (2 ^ prec) = prec + 1) by reflexivity.
  assert (Hn : fexp prec emax (Zdigits2 (2 ^ prec) + E) - E = 1).
  { rewrite Hd. unfold fexp, SpecFloat.emin, prec, emax in *. lia. }
  rewrite Hn. rewrite shr_pos by (try lia; unfold prec; lia).
  unfold shr_spec. cbn [shr_m].
  replace (2 ^ prec / 2 ^ 1) with (2 ^ (prec - 1)) by reflexivity.
  reflexivity.
Qed.

Lemma rne_bounds (M n : Z) : M / 2 ^ n <= rne M n <= M / 2 ^ n + 1.
Proof.
  unfold rne. destruct (2 * (M mod 2 ^ n) ?= 2 ^ n); [destruct (Z.even _)| |]; lia.
Qed.

Lemma rne_mono (M1 M2 n : Z) : 0 <= n -> M1 <= M2 -> rne M1 n <= rne M2 n.
Proof.
  intros Hn H12. pose proof (pow2_pos n Hn) as Hp.
  assert (Hq : M1 / 2 ^ n <= M2 / 2 ^ n) by (apply Z.div_le_mono; lia).
  destruct (Z.eq_dec (M1 / 2 ^ n) (M2 / 2 ^ n)) as [E|E].
  - pose proof (Z.div_mod M1 (2 ^ n) ltac:(lia)) as D1.
    pose proof (Z.div_mod M2 (2 ^ n) ltac:(lia)) as D2.
    assert (Hr : M1 mod 2 ^ n <= M2 mod 2 ^ n) by nia.
    unfold rne. rewrite <- E.
    destruct (Z.compare_spec (2 * (M1 mod 2 ^ n)) (2 ^ n));
      destruct (Z.compare_spec (2 * (M2 mod 2 ^ n)) (2 ^ n));
      try destruct (Z.even (M1 / 2 ^ n)); lia.
  - pose proof (rne_bounds M1 n). pose proof (rne_bounds M2 n). lia.
Qed.

Lemma rne_scale (M n k : Z) : 0 <= n -> 0 <= k -> rne (M * 2 ^ k) (n + k) = rne M n.
Proof.
  intros Hn Hk. unfold rne.
  pose proof (pow2_pos n Hn). pose proof (pow2_pos k Hk).
  rewrite Z.pow_add_r by lia.
  rewrite Z.div_mul_cancel_r by lia.
  rewrite Z.mul_mod_distr_r by lia.
  replace (2 * (M mod 2 ^ n * 2 ^ k)) with (2 * (M mod 2 ^ n) * 2 ^ k) by lia.
  rewrite <- Zmult_compare_compat_r by lia. reflexivity.
Qed.

Lemma rne_le_pow (M n : Z) : 0 < M -> 0 <= n -> Zdigits2 M - prec <= n ->
  0 <= rne M n <= 2 ^ prec.
Proof.
  intros HM Hn Hd. pose proof (rne_bounds M n) as [Hlo Hhi].
  pose proof (pow2_pos n Hn). pose proof (Zdigits2_bounds M HM) as [_ Hlt].
  assert (0 <= M / 2 ^ n) by (apply Z.div_pos; lia).
  assert (M / 2 ^ n < 2 ^ prec).
  { apply Z.div_lt_upper_bound; [lia|]. rewrite <- Z.pow_add_r by (unfold prec; lia).
    eapply Z.lt_le_trans; [exact Hlt|]. apply Z.pow_le_mono_r; lia. }
  lia.
Qed.

Lemma rne_ge_half (M n : Z) : 0 < M -> 0 <= n -> n = Zdigits2 M - prec ->
  2 ^ (prec - 1) <= rne M n.
Proof.
  intros HM Hn Hd. pose proof (rne_bounds M n) as [Hlo _].
  pose proof (pow2_pos n Hn). pose proof (Zdigits2_bounds M HM) as [Hge _].
  assert (2 ^ (prec - 1) <= M / 2 ^ n); [|lia].
  apply Z.div_le_lower_bound; [lia|]. rewrite <- Z.pow_add_r by (unfold prec; lia).
  replace (n + (prec - 1)) with (Zdigits2 M - 1) by lia. exact Hge.
Qed.

Lemma pos_compare_le (a b : Z) : 0 < a -> a <= b ->
  Pos.compare_cont Eq (Z.to_pos a) (Z.to_pos b) <> Gt.
Proof.
  intros Ha Hab. change (Pos.compare_cont Eq ?x ?y) with (Pos.compare x y).
  rewrite <- Z2Pos.inj_compare by lia. apply Z.compare_le_iff. exact Hab.
Qed.

Lemma SFleb_finite (m1 m2 : positive) (e1 e2 : Z) :
  e1 < e2 \/ (e1 = e2 /\ Pos.compare_cont Eq m1 m2 <> Gt) ->
  SFleb (S754_finite false m1 e1) (S754_finite false m2 e2) = true.
Proof.
  intros [H|[-> H]]; unfold SFleb, SFcompare.
  - apply Z.compare_lt_iff in H. rewrite H. reflexivity.
  - rewrite Z.compare_refl. destruct (Pos.compare_cont Eq m1 m2); congruence.
Qed.

Lemma finish_le (q1 E1 q2 E2 : Z) :
  emin <= E1 -> 0 <= q1 <= 2 ^ prec -> 0 <= q2 <= 2 ^ prec ->
  (E1 = E2 /\ q1 <= q2) \/ (E1 < E2 /\ 2 ^ (prec - 1) <= q2) ->
  SFleb (finish false q1 E1) (finish false q2 E2) = true.
Proof.
  intros HE1 Hq1 Hq2 Hcase.
  assert (HE2 : emin <= E2) by lia.
  assert (HE12 : E1 <= E2) by lia.
  assert (Hhalf : 0 < 2 ^ (prec - 1) < 2 ^ prec) by (unfold prec; simpl; lia).
  destruct (Z.eq_dec q1 0) as [->|Hn1].
  - rewrite finish_zero.
    destruct (Z.eq_dec q2 0) as [->|Hn2]; [rewrite finish_zero; reflexivity|].
    destruct (Z.eq_dec q2 (2 ^ prec)) as [->|Ht2].
    + rewrite finish_top by assumption. destruct (_ <=? _); reflexivity.
    + rewrite finish_small by lia. destruct (_ <=? _); reflexivity.
  - assert (Hn2 : q2 <> 0) by lia.
    destruct (Z.eq_dec q1 (2 ^ prec)) as [->|Ht1];
      destruct (Z.eq_dec q2 (2 ^ prec)) as [->|Ht2];
      rewrite ?finish_top, ?finish_small by lia.
    + destruct (Z.leb_spec (E1 + 1) (emax - prec)), (Z.leb_spec (E2 + 1) (emax - prec));
        try reflexivity; [|lia].
      apply SFleb_finite. destruct (Z.eq_dec E1 E2); [right|left; lia].
      split; [lia|]. rewrite Pos.compare_cont_refl. discriminate.
    + destruct (Z.leb_spec (E1 + 1) (emax - prec)), (Z.leb_spec E2 (emax - prec));
        try reflexivity; [|lia].
      apply SFleb_finite. destruct (Z.eq_dec (E1 + 1) E2); [right|left; lia].
      split; [lia|]. apply pos_compare_le; lia.
    + destruct (Z.leb_spec E1 (emax - prec)), (Z.leb_spec (E2 + 1) (emax - prec));
        try reflexivity; [|lia].
      apply SFleb_finite. left. lia.
    + destruct (Z.leb_spec E1 (emax - prec)), (Z.leb_spec E2 (emax - prec));
        try reflexivity; [|lia].
      apply SFleb_finite. destruct (Z.eq_dec E1 E2); [right|left; lia].
      split; [lia|]. apply pos_compare_le; lia.
Qed.

Lemma shift_of_ge (M e : Z) : Zdigits2 M - prec <= shift_of M e /\ emin <= e + shift_of M e.
Proof. unfold shift_of, fexp. lia. Qed.

(** Rounding is monotone at a common exponent. *)
Lemma binary_round_aux_mono (M1 M2 e : Z) :
  0 < M1 -> M1 <= M2 -> 0 <= shift_of M1 e -> 0 <= shift_of M2 e ->
  SFleb (binary_round_aux prec emax false M1 e loc_Exact)
        (binary_round_aux prec emax false M2 e loc_Exact) = true.
Proof.
  intros H1 H12 Hn1 Hn2.
  rewrite !binary_round_aux_finish by lia.
  pose proof (shift_of_ge M1 e) as [Hd1 HE1]. pose proof (shift_of_ge M2 e) as [Hd2 HE2].
  pose proof (Zdigits2_mono M1 M2 H1 H12) as Hd.
  assert (Hn : shift_of M1 e <= shift_of M2 e) by (unfold shift_of, fexp; lia).
  apply finish_le; [assumption|apply rne_le_pow; lia|apply rne_le_pow; lia|].
  destruct (Z.eq_dec (shift_of M1 e) (shift_of M2 e)) as [E|E].
  - left. split; [lia|]. rewrite E. apply rne_mono; lia.
  - right. split; [lia|]. apply rne_ge_half; [lia|lia|].
    unfold shift_of, fexp in *. lia.
Qed.

Lemma shift_of_scale (M e k : Z) : 0 < M -> 0 <= k ->
  shift_of (M * 2 ^ k) (e - k) = shift_of M e + k.
Proof.
  intros HM Hk. unfold shift_of. rewrite Zdigits2_shift by assumption.
  replace (Zdigits2 M + k + (e - k)) with (Zdigits2 M + e) by lia. lia.
Qed.

Lemma binary_round_aux_scale (s : bool) (M e k : Z) :
  0 < M -> 0 <= k -> 0 <= shift_of M e ->
  binary_round_aux prec emax s (M * 2 ^ k) (e - k) loc_Exact =
  binary_round_aux prec emax s M e loc_Exact.
Proof.
  intros HM Hk Hn. pose proof (pow2_pos k Hk).
  pose proof (shift_of_scale M e k HM Hk) as Hs.
  rewrite (binary_round_aux_finish s (M * 2 ^ k) (e - k)); [|nia|lia].
  rewrite (binary_round_aux_finish s M e); [|lia|lia].
  rewrite Hs, rne_scale by assumption. f_equal. lia.
Qed.

(** Rounding is monotone in the value [M * 2 ^ e]. *)
Lemma binary_round_aux_mono_val (M1 e1 M2 e2 e0 : Z) :
  0 < M1 -> 0 < M2 -> e0 <= e1 -> e0 <= e2 ->
  0 <= shift_of M1 e1 -> 0 <= shift_of M2 e2 ->
  M1 * 2 ^ (e1 - e0) <= M2 * 2 ^ (e2 - e0) ->
  SFleb (binary_round_aux prec emax false M1 e1 loc_Exact)
        (binary_round_aux prec emax false M2 e2 loc_Exact) = true.
Proof.
  intros H1 H2 He1 He2 Hn1 Hn2 Hv.
  pose proof (pow2_pos (e1 - e0) ltac:(lia)). pose proof (pow2_pos (e2 - e0) ltac:(lia)).
  rewrite <- (binary_round_aux_scale false M1 e1 (e1 - e0)) by lia.
  rewrite <- (binary_round_aux_scale false M2 e2 (e2 - e0)) by lia.
  replace (e1 - (e1 - e0)) with e0 by lia. replace (e2 - (e2 - e0)) with e0 by lia.
  assert (Hs1 : shift_of (M1 * 2 ^ (e1 - e0)) e0 = shift_of M1 e1 + (e1 - e0)).
  { pose proof (shift_of_scale M1 e1 (e1 - e0) H1 ltac:(lia)) as Hs.
    replace (e1 - (e1 - e0)) with e0 in Hs by lia. exact Hs. }
  assert (Hs2 : shift_of (M2 * 2 ^ (e2 - e0)) e0 = shift_of M2 e2 + (e2 - e0)).
  { pose proof (shift_of_scale M2 e2 (e2 - e0) H2 ltac:(lia)) as Hs.
    replace (e2 - (e2 - e0)) with e0 in Hs by lia. exact Hs. }
  apply binary_round_aux_mono; [nia|assumption|lia|lia].
Qed.

(** What a bounded (canonical) mantissa tells. *)
Lemma bounded_facts (m : positive) (e : Z) : bounded prec emax m e = true ->
  Zdigits2 (Zpos m) <= prec /\ emin <= e /\ e <= emax - prec /\
  shift_of (Zpos m) e = 0 /\
  (Zdigits2 (Zpos m) = prec \/ e = emin).
Proof.
  unfold bounded, canonical_mantissa, shift_of. rewrite andb_true_iff, Z.eqb_eq, Z.leb_le.
  cbn [Zdigits2]. unfold fexp, SpecFloat.emin. lia.
Qed.

Lemma val_le_base (M1 e1 M2 e2 e0 : Z) : e0 <= e1 -> e0 <= e2 ->
  val_le M1 e1 M2 e2 <-> M1 * 2 ^ (e1 - e0) <= M2 * 2 ^ (e2 - e0).
Proof.
  intros H1 H2. unfold val_le. set (em := Z.min e1 e2).
  assert (Hm : e0 <= em) by (subst em; lia).
  assert (He1 : em <= e1) by (subst em; lia). assert (He2 : em <= e2) by (subst em; lia).
  pose proof (pow2_pos (em - e0) ltac:(lia)) as Hp.
  replace (e1 - e0) with ((e1 - em) + (em - e0)) by lia.
  replace (e2 - e0) with ((e2 - em) + (em - e0)) by lia.
  rewrite !Z.pow_add_r by lia. rewrite !Z.mul_assoc.
  split; intros H; nia.
Qed.

Lemma SFleb_val (m1 m2 : positive) (e1 e2 : Z) :
  bounded prec emax m1 e1 = true -> bounded prec emax m2 e2 = true ->
  SFleb (S754_finite false m1 e1) (S754_finite false m2 e2) = true ->
  val_le (Zpos m1) e1 (Zpos m2) e2.
Proof.
  intros B1 B2 Hle.
  apply bounded_facts in B1 as (Hd1 & Hm1 & _ & _ & _).
  apply bounded_facts in B2 as (Hd2 & Hm2 & _ & _ & Hn2).
  unfold SFleb, SFcompare in Hle. unfold val_le.
  destruct (Z.compare_spec e1 e2) as [->|Hlt|Hgt]; [| |discriminate].
  - rewrite Z.min_id, Z.sub_diag, Z.pow_0_r.
    change (Pos.compare_cont Eq m1 m2) with (Pos.compare m1 m2) in Hle.
    destruct (Pos.compare_spec m1 m2); try discriminate; lia.
  - rewrite Z.min_l by lia. rewrite Z.sub_diag, Z.pow_0_r.
    destruct Hn2 as [Hn2|Hn2]; [|lia].
    pose proof (Zdigits2_bounds (Zpos m1) ltac:(lia)) as [_ Hhi1].
    pose proof (Zdigits2_bounds (Zpos m2) ltac:(lia)) as [Hlo2 _].
    rewrite Hn2 in Hlo2.
    assert (2 ^ Zdigits2 (Zpos m1) <= 2 ^ prec) by (apply Z.pow_le_mono_r; lia).
    assert (2 ^ 1 <= 2 ^ (e2 - e1)) by (apply Z.pow_le_mono_r; lia).
    assert (2 ^ prec = 2 ^ (prec - 1) * 2 ^ 1) by reflexivity.
    nia.
Qed.

(** The digits of a product. *)
Lemma Zdigits2_mul (m1 m2 : Z) : 0 < m1 -> 0 < m2 ->
  Zdigits2 m1 + Zdigits2 m2 - 1 <= Zdigits2 (m1 * m2).
Proof.
  intros H1 H2.
  pose proof (Zdigits2_bounds m1 H1) as [L1 _]. pose proof (Zdigits2_bounds m2 H2) as [L2 _].
  pose proof (Zdigits2_bounds (m1 * m2) ltac:(nia)) as [_ U].
  pose proof (Zdigits2_pos m1 H1). pose proof (Zdigits2_pos m2 H2).
  pose proof (Zdigits2_pos (m1 * m2) ltac:(nia)).
  assert (2 ^ (Zdigits2 m1 - 1 + (Zdigits2 m2 - 1)) < 2 ^ Zdigits2 (m1 * m2)).
  { rewrite Z.pow_add_r by lia.
    pose proof (pow2_pos (Zdigits2 m1 - 1) ltac:(lia)).
    pose proof (pow2_pos (Zdigits2 m2 - 1) ltac:(lia)). nia. }
  apply pow2_lt_inv in H4; lia.
Qed.

Lemma shift_of_mul (m1 m2 : positive) (e1 e2 : Z) :
  bounded prec emax m1 e1 = true -> bounded prec emax m2 e2 = true ->
  0 <= shift_of (Zpos m1 * Zpos m2) (e1 + e2).
Proof.
  intros B1 B2.
  apply bounded_facts in B1 as (Hd1 & Hm1 & _ & _ & Hn1).
  apply bounded_facts in B2 as (Hd2 & Hm2 & _ & _ & Hn2).
  pose proof (Zdigits2_mul (Zpos m1) (Zpos m2) ltac:(lia) ltac:(lia)).
  pose proof (Zdigits2_pos (Zpos m1) ltac:(lia)). pose proof (Zdigits2_pos (Zpos m2) ltac:(lia)).
  unfold shift_of, fexp, SpecFloat.emin in *. unfold prec, emax in *. lia.
Qed.

Lemma SFmul_finite (m1 m2 : positive) (e1 e2 : Z) :
  SFmul prec emax (S754_finite false m1 e1) (S754_finite false m2 e2) =
  binary_round_aux prec emax false (Zpos m1 * Zpos m2) (e1 + e2) loc_Exact.
Proof. reflexivity. Qed.

Lemma finish_nonneg (q E : Z) : 0 <= q <= 2 ^ prec -> emin <= E -> nonneg (finish false q E).
Proof.
  intros Hq HE.
  destruct (Z.eq_dec q 0) as [->|Hn]; [rewrite finish_zero; exact I|].
  destruct (Z.eq_dec q (2 ^ prec)) as [->|Ht].
  - rewrite finish_top by assumption. destruct (_ <=? _); reflexivity.
  - rewrite finish_small by lia. destruct (_ <=? _); reflexivity.
Qed.

Lemma binary_round_aux_nonneg (M e : Z) : 0 < M -> 0 <= shift_of M e ->
  nonneg (binary_round_aux prec emax false M e loc_Exact).
Proof.
  intros HM Hn. rewrite binary_round_aux_finish by lia.
  pose proof (shift_of_ge M e) as [Hd HE].
  apply finish_nonneg; [apply rne_le_pow; lia|lia].
Qed.

Lemma SFleb_zero_l (s : bool) (y : spec_float) : nonneg y -> SFleb (S754_zero s) y = true.
Proof. destruct y as [| [] | | [] ? ?]; simpl; intros H; try reflexivity; try discriminate; contradiction. Qed.

Lemma SFleb_inf_r (x : spec_float) : nonneg x -> SFleb x (S754_infinity false) = true.
Proof. destruct x as [| [] | | [] ? ?]; simpl; intros H; try reflexivity; try discriminate; contradiction. Qed.

Lemma SFleb_refl (x : spec_float) : nonneg x -> SFleb x x = true.
Proof.
  destruct x as [| [] | | [] m e]; simpl; intros H; try reflexivity; try discriminate; try contradiction.
  unfold SFleb, SFcompare. rewrite Z.compare_refl, Pos.compare_cont_refl. reflexivity.
Qed.

Lemma SFmul_nonneg (x r : spec_float) :
  valid_binary x = true -> valid_binary r = true ->
  finite_nonneg x -> finite_nonneg r -> nonneg (SFmul prec emax x r).
Proof.
  intros Vx Vr Hx Hr.
  destruct x as [sx| | |sx mx ex], r as [sr| | |sr mr er]; simpl in Hx, Hr; try contradiction;
    subst; try exact I.
  rewrite SFmul_finite. apply binary_round_aux_nonneg; [lia|now apply shift_of_mul].
Qed.

(** Multiplying by a fixed non-negative finite factor is monotone. *)
Lemma SFmul_mono_l (x x' r : spec_float) :
  valid_binary x = true -> valid_binary x' = true -> valid_binary r = true ->
  finite_nonneg x -> finite_nonneg x' -> finite_nonneg r ->
  SFleb x x' = true ->
  SFleb (SFmul prec emax x r) (SFmul prec emax x' r) = true.
Proof.
  intros Vx Vx' Vr Hx Hx' Hr Hle.
  destruct r as [sr| | |sr mr er]; simpl in Hr; try contradiction.
  - (* r = 0 *)
    destruct x as [sx| | |sx mx ex], x' as [sx'| | |sx' mx' ex']; simpl in *; try contradiction;
      reflexivity.
  - subst sr.
    destruct x as [sx| | |sx mx ex]; simpl in Hx; try contradiction.
    + (* x = 0 *)
      apply SFleb_zero_l. apply (SFmul_nonneg x' (S754_finite false mr er)); assumption || exact eq_refl.
    + subst sx. destruct x' as [sx'| | |sx' mx' ex']; simpl in Hx'; try contradiction.
      * (* x' = 0 < x: impossible *) discriminate Hle.
      * subst sx'. rewrite !SFmul_finite.
        pose proof (SFleb_val _ _ _ _ Vx Vx' Hle) as Hv.
        set (e0 := Z.min ex ex').
        apply (val_le_base _ _ _ _ e0) in Hv; [|subst e0; lia|subst e0; lia].
        apply (binary_round_aux_mono_val _ _ _ _ (e0 + er));
          [lia|lia|subst e0; lia|subst e0; lia|now apply shift_of_mul|now apply shift_of_mul|].
        replace (ex + er - (e0 + er)) with (ex - e0) by lia.
        replace (ex' + er - (e0 + er)) with (ex' - e0) by lia.
        replace (Zpos mx * Zpos mr * 2 ^ (ex - e0)) with (Zpos mx * 2 ^ (ex - e0) * Zpos mr) by ring.
        replace (Zpos mx' * Zpos mr * 2 ^ (ex' - e0)) with (Zpos mx' * 2 ^ (ex' - e0) * Zpos mr)
          by ring.
        apply Z.mul_le_mono_nonneg_r; [lia|exact Hv].
Qed.

Lemma pos_iter_xO (m d : positive) : Zpos (Pos.iter xO m d) = Zpos m * 2 ^ Zpos d.
Proof.
  induction d as [|d IH] using Pos.peano_ind.
  - cbn [Pos.iter]. change (2 ^ 1) with 2. lia.
  - rewrite Pos.iter_succ, Pos2Z.inj_xO, IH, Pos2Z.inj_succ, Z.pow_succ_r by lia. lia.
Qed.

Lemma shl_align_spec (mx : positive) (ex ex' : Z) :
  snd (shl_align mx ex ex') = Z.min ex ex' /\
  Zpos (fst (shl_align mx ex ex')) = Zpos mx * 2 ^ (ex - Z.min ex ex').
Proof.
  unfold shl_align. destruct (ex' - ex) as [|d|d] eqn:E; cbn [fst snd].
  - rewrite Z.min_l by lia. rewrite Z.sub_diag. simpl. lia.
  - rewrite Z.min_l by lia. rewrite Z.sub_diag. simpl. lia.
  - rewrite Z.min_r by lia. rewrite pos_iter_xO. split; [reflexivity|]. f_equal. f_equal. lia.
Qed.

(** [binary_round] is [binary_round_aux] on an aligned representation of the
    same value. *)
Lemma binary_round_aligned (s : bool) (m : positive) (e : Z) :
  exists M e', 0 < M /\ e' <= e /\ M = Zpos m * 2 ^ (e - e') /\ 0 <= shift_of M e' /\
    e + shift_of (Zpos m) e = e' + shift_of M e' /\
    binary_round prec emax s m e = binary_round_aux prec emax s M e' loc_Exact.
Proof.
  unfold binary_round.
  pose proof (shl_align_spec m e (fexp prec emax (Zpos (digits2_pos m) + e))) as [He HM].
  destruct (shl_align m e _) as [mz ez]. cbn [fst snd] in *.
  exists (Zpos mz), ez. subst ez.
  assert (Hk : 0 <= e - Z.min e (fexp prec emax (Zpos (digits2_pos m) + e))) by lia.
  assert (Hs : shift_of (Zpos mz) (Z.min e (fexp prec emax (Zpos (digits2_pos m) + e))) =
               fexp prec emax (Zpos (digits2_pos m) + e) -
               Z.min e (fexp prec emax (Zpos (digits2_pos m) + e))).
  { unfold shift_of. rewrite HM, Zdigits2_shift by lia. f_equal. f_equal. cbn [Zdigits2]. lia. }
  repeat split; try lia; try assumption.
  rewrite Hs. unfold shift_of. cbn [Zdigits2]. lia.
Qed.

Lemma binary_round_mono (m1 m2 : positive) (e1 e2 : Z) :
  val_le (Zpos m1) e1 (Zpos m2) e2 ->
  SFleb (binary_round prec emax false m1 e1) (binary_round prec emax false m2 e2) = true.
Proof.
  intros Hv.
  destruct (binary_round_aligned false m1 e1) as (M1 & e1' & HM1 & He1 & EM1 & Hn1 & _ & ->).
  destruct (binary_round_aligned false m2 e2) as (M2 & e2' & HM2 & He2 & EM2 & Hn2 & _ & ->).
  set (e0 := Z.min e1' e2').
  apply (val_le_base _ _ _ _ e0) in Hv; [|subst e0; lia|subst e0; lia].
  apply (binary_round_aux_mono_val _ _ _ _ e0); try assumption; try (subst e0; lia).
  subst M1 M2. rewrite <- !Z.mul_assoc, <- !Z.pow_add_r by (subst e0; lia).
  replace (e1 - e1' + (e1' - e0)) with (e1 - e0) by lia.
  replace (e2 - e2' + (e2' - e0)) with (e2 - e0) by lia. exact Hv.
Qed.

Lemma binary_round_nonneg (m : positive) (e : Z) : nonneg (binary_round prec emax false m e).
Proof.
  destruct (binary_round_aligned false m e) as (M & e' & HM & _ & _ & Hn & _ & ->).
  now apply binary_round_aux_nonneg.
Qed.

(** Rounding a representable number returns it. *)
Lemma binary_round_id (m : positive) (e : Z) : bounded prec emax m e = true ->
  binary_round prec emax false m e = S754_finite false m e.
Proof.
  intros B. apply bounded_facts in B as (Hd & Hm & He & Hs & _).
  assert (Hf : fexp prec emax (Zpos (digits2_pos m) + e) = e)
    by (unfold shift_of in Hs; cbn [Zdigits2] in Hs; lia).
  unfold binary_round. rewrite Hf. unfold shl_align. rewrite Z.sub_diag.
  rewrite binary_round_aux_finish; [|lia|lia].
  rewrite Hs, rne_0, Z.add_0_r. rewrite finish_small.
  - apply Z.leb_le in He. rewrite He. reflexivity.
  - pose proof (Zdigits2_bounds (Zpos m) ltac:(lia)) as [_ Hhi].
    assert (2 ^ Zdigits2 (Zpos m) <= 2 ^ prec) by (apply Z.pow_le_mono_r; lia).
    lia.
  - exact Hm.
Qed.

(** What rounding returns is a valid binary64 number. *)
Lemma finish_valid (s : bool) (q E : Z) :
  0 <= q <= 2 ^ prec -> emin <= E -> (E = emin \/ 2 ^ (prec - 1) <= q) ->
  valid_binary (finish s q E) = true.
Proof.
  intros Hq HE Hc.
  destruct (Z.eq_dec q 0) as [->|Hn]; [rewrite finish_zero; reflexivity|].
  destruct (Z.eq_dec q (2 ^ prec)) as [->|Ht].
  - rewrite finish_top by assumption. destruct (Z.leb_spec (E + 1) (emax - prec)); [|reflexivity].
    cbn [SpecFloat.valid_binary]. unfold bounded, canonical_mantissa.
    apply andb_true_iff. split; [|apply Z.leb_le; lia].
    apply Z.eqb_eq.
    change (Zpos (digits2_pos (Z.to_pos (2 ^ (prec - 1))))) with prec.
    unfold fexp, SpecFloat.emin in *. unfold prec, emax in *. lia.
  - rewrite finish_small by lia. destruct (Z.leb_spec E (emax - prec)); [|reflexivity].
    cbn [SpecFloat.valid_binary]. unfold bounded, canonical_mantissa.
    apply andb_true_iff. split; [|apply Z.leb_le; lia].
    apply Z.eqb_eq.
    assert (Hz : Zpos (digits2_pos (Z.to_pos q)) = Zdigits2 q) by (destruct q; try lia; reflexivity).
    rewrite Hz.
    assert (Hd : Zdigits2 q <= prec).
    { pose proof (Zdigits2_bounds q ltac:(lia)) as [Hlo _].
      assert (Hlt : 2 ^ (Zdigits2 q - 1) < 2 ^ prec) by lia.
      apply pow2_lt_inv in Hlt; [lia|]. unfold prec. lia. }
    destruct Hc as [->|Hc]; [unfold fexp; lia|].
    assert (Hd' : prec <= Zdigits2 q).
    { pose proof (Zdigits2_bounds q ltac:(lia)) as [_ Hhi].
      assert (Hlt : 2 ^ (prec - 1) < 2 ^ Zdigits2 q) by lia.
      pose proof (Zdigits2_pos q ltac:(lia)).
      apply pow2_lt_inv in Hlt; lia. }
    unfold fexp. lia.
Qed.

Lemma binary_round_aux_valid (s : bool) (M e : Z) : 0 < M -> 0 <= shift_of M e ->
  valid_binary (binary_round_aux prec emax s M e loc_Exact) = true.
Proof.
  intros HM Hn. rewrite binary_round_aux_finish by lia.
  pose proof (shift_of_ge M e) as [Hd HE].
  apply finish_valid; [apply rne_le_pow; lia|lia|].
  destruct (Z.eq_dec (e + shift_of M e) emin) as [E|E]; [left; exact E|right].
  apply rne_ge_half; [lia|lia|]. unfold shift_of, fexp in *. lia.
Qed.

Lemma binary_round_valid (s : bool) (m : positive) (e : Z) :
  valid_binary (binary_round prec emax s m e) = true.
Proof.
  destruct (binary_round_aligned s m e) as (M & e' & HM & _ & _ & Hn & _ & ->).
  now apply binary_round_aux_valid.
Qed.

(** Below the top binade nothing overflows. *)
Lemma finish_finite (q E : Z) : 0 <= q <= 2 ^ prec -> emin <= E -> E + 1 <= emax - prec ->
  finite_nonneg (finish false q E).
Proof.
  intros Hq HE Hb.
  destruct (Z.eq_dec q 0) as [->|Hn]; [rewrite finish_zero; exact I|].
  destruct (Z.eq_dec q (2 ^ prec)) as [->|Ht].
  - rewrite finish_top by assumption. apply Z.leb_le in Hb. rewrite Hb. reflexivity.
  - rewrite finish_small by lia. assert (Hb' : (E <=? emax - prec) = true) by (apply Z.leb_le; lia).
    rewrite Hb'. reflexivity.
Qed.

Lemma binary_round_finite (m : positive) (e : Z) :
  Zdigits2 (Zpos m) + e < emax -> finite_nonneg (binary_round prec emax false m e).
Proof.
  intros Hb.
  destruct (binary_round_aligned false m e) as (M & e' & HM & He & EM & Hn & HE & ->).
  rewrite binary_round_aux_finish by lia.
  pose proof (shift_of_ge M e') as [Hd HE'].
  apply finish_finite; [apply rne_le_pow; lia|lia|].
  rewrite <- HE. unfold shift_of, fexp, SpecFloat.emin in *. unfold prec, emax in *. lia.
Qed.

Lemma SFadd_comm (x y : spec_float) : SFadd prec emax x y = SFadd prec emax y x.
Proof.
  destruct x as [[]|[]| |sx mx ex], y as [[]|[]| |sy my ey]; try reflexivity.
  cbn [SFadd]. rewrite (Z.min_comm ey ex). f_equal. apply Z.add_comm.
Qed.

(** The sum of two positive finite numbers is the rounding of their exact sum. *)
Lemma SFadd_finite (mx my : positive) (ex ey : Z) :
  exists p,
    Zpos p = Zpos mx * 2 ^ (ex - Z.min ex ey) + Zpos my * 2 ^ (ey - Z.min ex ey) /\
    SFadd prec emax (S754_finite false mx ex) (S754_finite false my ey) =
    binary_round prec emax false p (Z.min ex ey).
Proof.
  cbn [SFadd cond_Zopp].
  pose proof (shl_align_spec mx ex (Z.min ex ey)) as [_ Hx].
  pose proof (shl_align_spec my ey (Z.min ex ey)) as [_ Hy].
  rewrite (Z.min_r ex (Z.min ex ey)) in Hx by lia.
  rewrite (Z.min_r ey (Z.min ex ey)) in Hy by lia.
  exists (fst (shl_align mx ex (Z.min ex ey)) + fst (shl_align my ey (Z.min ex ey)))%positive.
  split; [rewrite Pos2Z.inj_add; lia|reflexivity].
Qed.

Lemma SFadd_nonneg (x y : spec_float) : nonneg x -> nonneg y -> nonneg (SFadd prec emax x y).
Proof.
  intros Hx Hy.
  destruct x as [[]|[]| |sx mx ex], y as [[]|[]| |sy my ey]; simpl in Hx, Hy;
    try contradiction; try discriminate; subst; try exact I; try reflexivity.
  destruct (SFadd_finite mx my ex ey) as (p & _ & ->). apply binary_round_nonneg.
Qed.

(** Adding a fixed non-negative number is monotone. *)
Lemma SFadd_mono_l (x x' y : spec_float) :
  valid_binary x = true -> valid_binary x' = true -> valid_binary y = true ->
  nonneg x -> nonneg x' -> nonneg y ->
  SFleb x x' = true ->
  SFleb (SFadd prec emax x y) (SFadd prec emax x' y) = true.
Proof.
  intros Vx Vx' Vy Hx Hx' Hy Hle.
  destruct y as [sy|[]| |sy my ey]; simpl in Hy; try contradiction; try discriminate.
  - (* y = 0 *)
    destruct x as [sx|[]| |[] mx ex], x' as [sx'|[]| |[] mx' ex']; simpl in Hx, Hx';
      try contradiction; try discriminate; try exact Hle;
      try (destruct sx, sy; reflexivity); try (destruct sx, sx', sy; reflexivity).
  - (* y = +inf *)
    destruct x as [sx|[]| |[] mx ex], x' as [sx'|[]| |[] mx' ex']; simpl in Hx, Hx';
      try contradiction; try discriminate; reflexivity.
  - subst sy.
    destruct x as [sx|[]| |[] mx ex]; simpl in Hx; try contradiction; try discriminate.
    + (* x = 0 *)
      destruct x' as [sx'|[]| |[] mx' ex']; simpl in Hx'; try contradiction; try discriminate.
      * apply (SFleb_refl (S754_finite false my ey)). reflexivity.
      * reflexivity.
      * cbn [SFadd]. change (SFleb (S754_finite false my ey)
                               (SFadd prec emax (S754_finite false mx' ex') (S754_finite false my ey)) = true).
        destruct (SFadd_finite mx' my ex' ey) as (p & Hp & ->).
        rewrite <- (binary_round_id my ey Vy).
        apply binary_round_mono.
        apply (val_le_base _ _ _ _ (Z.min ex' ey)); [lia|lia|].
        rewrite Z.sub_diag, Z.pow_0_r, Hp.
        pose proof (pow2_pos (ex' - Z.min ex' ey) ltac:(lia)). lia.
    + (* x = +inf *)
      destruct x' as [sx'|[]| |[] mx' ex']; simpl in Hx'; try contradiction; try discriminate;
        reflexivity.
    + (* x finite *)
      destruct x' as [sx'|[]| |[] mx' ex']; simpl in Hx'; try contradiction; try discriminate.
      * apply SFleb_inf_r. apply SFadd_nonneg; reflexivity.
      * destruct (SFadd_finite mx my ex ey) as (p & Hp & ->).
        destruct (SFadd_finite mx' my ex' ey) as (p' & Hp' & ->).
        apply binary_round_mono.
        pose proof (SFleb_val _ _ _ _ Vx Vx' Hle) as Hv.
        set (e0 := Z.min (Z.min ex ex') ey).
        apply (val_le_base _ _ _ _ e0) in Hv; [|subst e0; lia|subst e0; lia].
        apply (val_le_base _ _ _ _ e0); [subst e0; lia|subst e0; lia|].
        rewrite Hp, Hp'. rewrite !Z.mul_add_distr_r, <- !Z.mul_assoc, <- !Z.pow_add_r
          by (subst e0; lia).
        replace (ex - Z.min ex ey + (Z.min ex ey - e0)) with (ex - e0) by lia.
        replace (ey - Z.min ex ey + (Z.min ex ey - e0)) with (ey - e0) by lia.
        replace (ex' - Z.min ex' ey + (Z.min ex' ey - e0)) with (ex' - e0) by lia.
        replace (ey - Z.min ex' ey + (Z.min ex' ey - e0)) with (ey - e0) by lia.
        lia.
Qed.

Lemma SFadd_mono_r (x y y' : spec_float) :
  valid_binary x = true -> valid_binary y = true -> valid_binary y' = true ->
  nonneg x -> nonneg y -> nonneg y' ->
  SFleb y y' = true ->
  SFleb (SFadd prec emax x y) (SFadd prec emax x y') = true.
Proof.
  intros. rewrite (SFadd_comm x y), (SFadd_comm x y'). now apply SFadd_mono_l.
Qed.

(* ===================================================================== *)
(** ** The cost model *)

Lemma Prim2SF_zero : Prim2SF 0 = S754_zero false.
Proof. reflexivity. Qed.

Lemma Prim2SF_infinity : Prim2SF infinity = S754_infinity false.
Proof. reflexivity. Qed.

Lemma usable_rate_finite_nonneg (r : float) :
  usable_rate r = true -> finite_nonneg (Prim2SF r).
Proof.
  unfold usable_rate. rewrite andb_true_iff, FloatAxioms.leb_spec, FloatAxioms.ltb_spec, Prim2SF_zero, Prim2SF_infinity.
  destruct (Prim2SF r) as [s|[]| |[] m e]; cbn; intros [H1 H2]; try discriminate; exact I || reflexivity.
Qed.

Lemma binary_normalize_facts (a : Z) : 0 <= a ->
  valid_binary (binary_normalize prec emax a 0 false) = true /\
  nonneg (binary_normalize prec emax a 0 false).
Proof.
  intros Ha. destruct a as [|p|p]; try lia; cbn [binary_normalize].
  - split; [reflexivity|exact I].
  - split; [apply binary_round_valid|apply binary_round_nonneg].
Qed.

Lemma is_infinity_nonneg (x : float) : nonneg (Prim2SF x) ->
  PrimFloat.is_infinity x = false -> finite_nonneg (Prim2SF x).
Proof.
  unfold PrimFloat.is_infinity. rewrite FloatAxioms.eqb_spec, FloatAxioms.abs_spec, Prim2SF_infinity.
  destruct (Prim2SF x) as [s|[]| |[] m e]; cbn; intros H1 H2; try discriminate;
    try contradiction; exact I || reflexivity.
Qed.

Lemma finite_nonneg_not_infinity (x : float) : finite_nonneg (Prim2SF x) ->
  PrimFloat.is_infinity x = false.
Proof.
  unfold PrimFloat.is_infinity. rewrite FloatAxioms.eqb_spec, FloatAxioms.abs_spec, Prim2SF_infinity.
  destruct (Prim2SF x) as [s|[]| |[] m e]; cbn; intros H1; try contradiction; reflexivity.
Qed.

Lemma finite_nonneg_nonneg (x : spec_float) : finite_nonneg x -> nonneg x.
Proof. destruct x; simpl; tauto. Qed.

(** [float(n)] for a natural number [n] *)
Lemma float_of_int_spec (a : Z) (f : float) : 0 <= a -> Py.float_of_int a = Val f ->
  Prim2SF f = binary_normalize prec emax a 0 false /\ finite_nonneg (Prim2SF f).
Proof.
  intros Ha. unfold Py.float_of_int.
  destruct (binary_normalize_facts a Ha) as [Hv Hn].
  destruct (PrimFloat.is_infinity _) eqn:Hi; [discriminate|].
  intros Hf. inversion Hf; subst f. clear Hf.
  assert (HP := Prim2SF_SF2Prim _ Hv).
  split; [exact HP|]. apply is_infinity_nonneg; [rewrite HP; exact Hn|exact Hi].
Qed.

Lemma float_of_int_total (a : Z) : 0 <= a < 2 ^ 1023 -> exists f, Py.float_of_int a = Val f.
Proof.
  intros [Ha Hb]. unfold Py.float_of_int.
  destruct (binary_normalize_facts a Ha) as [Hv Hn].
  assert (Hfin : finite_nonneg (binary_normalize prec emax a 0 false)).
  { destruct a as [|p|p]; try lia; cbn [binary_normalize]; [exact I|].
    apply binary_round_finite.
    pose proof (Zdigits2_bounds (Zpos p) ltac:(lia)) as [Hlo _].
    assert (Hlt : 2 ^ (Zdigits2 (Zpos p) - 1) < 2 ^ 1023) by lia.
    apply pow2_lt_inv in Hlt; [|lia]. unfold emax. lia. }
  rewrite finite_nonneg_not_infinity; [eauto|].
  rewrite (Prim2SF_SF2Prim _ Hv). exact Hfin.
Qed.

Lemma float_of_int_mono (a a' : Z) (f f' : float) : 0 <= a <= a' ->
  Py.float_of_int a = Val f -> Py.float_of_int a' = Val f' -> (f <=? f')%float = true.
Proof.
  intros [Ha Haa'] Hf Hf'.
  apply float_of_int_spec in Hf as [Hf _]; [|lia].
  apply float_of_int_spec in Hf' as [Hf' Hn']; [|lia].
  rewrite FloatAxioms.leb_spec, Hf. rewrite Hf' in *.
  destruct a as [|p|p]; try lia; cbn [binary_normalize].
  - apply SFleb_zero_l. now apply finite_nonneg_nonneg.
  - destruct a' as [|p'|p']; try lia; cbn [binary_normalize].
    apply binary_round_mono. unfold val_le. rewrite Z.min_id, Z.sub_diag, Z.pow_0_r. lia.
Qed.

Lemma mul_finite_nonneg (x r : float) :
  finite_nonneg (Prim2SF x) -> finite_nonneg (Prim2SF r) -> nonneg (Prim2SF (x * r)).
Proof.
  intros Hx Hr. rewrite FloatAxioms.mul_spec. apply SFmul_nonneg; try apply Prim2SF_valid; assumption.
Qed.

Lemma mul_mono_l (x x' r : float) :
  finite_nonneg (Prim2SF x) -> finite_nonneg (Prim2SF x') -> finite_nonneg (Prim2SF r) ->
  (x <=? x')%float = true -> (x * r <=? x' * r)%float = true.
Proof.
  intros Hx Hx' Hr. rewrite !FloatAxioms.leb_spec, !FloatAxioms.mul_spec.
  apply SFmul_mono_l; try apply Prim2SF_valid; assumption.
Qed.

Lemma add_mono_l (x x' y : float) :
  nonneg (Prim2SF x) -> nonneg (Prim2SF x') -> nonneg (Prim2SF y) ->
  (x <=? x')%float = true -> (x + y <=? x' + y)%float = true.
Proof.
  intros Hx Hx' Hy. rewrite !FloatAxioms.leb_spec, !FloatAxioms.add_spec.
  apply SFadd_mono_l; try apply Prim2SF_valid; assumption.
Qed.

Lemma add_mono_r (x y y' : float) :
  nonneg (Prim2SF x) -> nonneg (Prim2SF y) -> nonneg (Prim2SF y') ->
  (y <=? y')%float = true -> (x + y <=? x + y')%float = true.
Proof.
  intros Hx Hy Hy'. rewrite !FloatAxioms.leb_spec, !FloatAxioms.add_spec.
  apply SFadd_mono_r; try apply Prim2SF_valid; assumption.
Qed.

Section CostModel.
Variable self : TokenBudgetManager.

Lemma calculate_cost_estimate_val (i o : Z) (c : float) :
  calculate_cost_estimate self i o = Val c ->
  exists fi fo, Py.float_of_int i = Val fi /\ Py.float_of_int o = Val fo /\
    c = (fi * cost_per_input_token self + fo * cost_per_output_token self)%float.
Proof.
  unfold calculate_cost_estimate, Py.mul_int_float, res_bind.
  destruct (Py.float_of_int i) as [fi|]; [|discriminate].
  destruct (Py.float_of_int o) as [fo|]; [|discriminate].
  intros Hc. inversion Hc. eauto.
Qed.

(** With usable rates the estimate exists for every count below [2 ^ 1023]
    and never decreases when a count grows. *)
Lemma cost_estimate_total_and_monotone :
  usable_rate (cost_per_input_token self) = true ->
  usable_rate (cost_per_output_token self) = true ->
  (forall i o, 0 <= i < 2 ^ 1023 -> 0 <= o < 2 ^ 1023 ->
     exists c, calculate_cost_estimate self i o = Val c) /\
  (forall i i' o c c', 0 <= i <= i' -> 0 <= o ->
     calculate_cost_estimate self i o = Val c ->
     calculate_cost_estimate self i' o = Val c' -> (c <=? c')%float = true) /\
  (forall i o o' c c', 0 <= i -> 0 <= o <= o' ->
     calculate_cost_estimate self i o = Val c ->
     calculate_cost_estimate self i o' = Val c' -> (c <=? c')%float = true).
Proof.
  intros Hin Hout.
  apply usable_rate_finite_nonneg in Hin. apply usable_rate_finite_nonneg in Hout.
  split; [|split].
  - intros i o Hi Ho.
    destruct (float_of_int_total i Hi) as [fi Hfi]. destruct (float_of_int_total o Ho) as [fo Hfo].
    unfold calculate_cost_estimate, Py.mul_int_float, res_bind. rewrite Hfi, Hfo. eauto.
  - intros i i' o c c' Hi Ho Hc Hc'.
    apply calculate_cost_estimate_val in Hc as (fi & fo & Hfi & Hfo & ->).
    apply calculate_cost_estimate_val in Hc' as (fi' & fo' & Hfi' & Hfo' & ->).
    rewrite Hfo in Hfo'. inversion Hfo'; subst fo'.
    pose proof (float_of_int_mono i i' fi fi' Hi Hfi Hfi') as Hle.
    apply float_of_int_spec in Hfi as [_ Hni]; [|lia].
    apply float_of_int_spec in Hfi' as [_ Hni']; [|lia].
    apply float_of_int_spec in Hfo as [_ Hno]; [|lia].
    apply add_mono_l; try (apply mul_finite_nonneg; assumption).
    apply mul_mono_l; assumption.
  - intros i o o' c c' Hi Ho Hc Hc'.
    apply calculate_cost_estimate_val in Hc as (fi & fo & Hfi & Hfo & ->).
    apply calculate_cost_estimate_val in Hc' as (fi' & fo' & Hfi' & Hfo' & ->).
    rewrite Hfi in Hfi'. inversion Hfi'; subst fi'.
    pose proof (float_of_int_mono o o' fo fo' Ho Hfo Hfo') as Hle.
    apply float_of_int_spec in Hfi as [_ Hni]; [|lia].
    apply float_of_int_spec in Hfo as [_ Hno]; [|lia].
    apply float_of_int_spec in Hfo' as [_ Hno']; [|lia].
    apply add_mono_r; try (apply mul_finite_nonneg; assumption).
    apply mul_mono_l; assumption.
Qed.
End CostModel.

Lemma calculate_cost_estimate_formula (settings : Settings) (i o : Z) :
  calculate_cost_estimate (TokenBudgetManager_init settings) i o =
  spec_estimate_cost settings i o.
Proof.
  unfold calculate_cost_estimate, spec_estimate_cost, Py.mul_int_float, res_bind.
  cbn [TokenBudgetManager_init cost_per_input_token cost_per_output_token].
  destruct (Py.float_of_int i); [|reflexivity].
  destruct (Py.float_of_int o); reflexivity.
Qed.

(** C5 (as the code has it): the estimate is the binary64 value of
    [input_tokens * rate_in + output_tokens * rate_out], each rate being the
    per-million rate divided by 1,000,000 once, at construction; it exists
    for all counts from 0 up to [2 ^ 1023]; and for rates that are at least
    0.0 and finite it never decreases when either count grows. *)
Theorem cost_estimate_formula_and_monotonicity (settings : Settings) :
  usable_rate (cost_per_input_token (TokenBudgetManager_init settings)) = true ->
  usable_rate (cost_per_output_token (TokenBudgetManager_init settings)) = true ->
  (forall i o,
     calculate_cost_estimate (TokenBudgetManager_init settings) i o =
     spec_estimate_cost settings i o) /\
  (forall i o, 0 <= i < 2 ^ 1023 -> 0 <= o < 2 ^ 1023 ->
     exists c, calculate_cost_estimate (TokenBudgetManager_init settings) i o = Val c) /\
  (forall i i' o c c', 0 <= i <= i' -> 0 <= o ->
     calculate_cost_estimate (TokenBudgetManager_init settings) i o = Val c ->
     calculate_cost_estimate (TokenBudgetManager_init settings) i' o = Val c' ->
     (c <=? c')%float = true) /\
  (forall i o o' c c', 0 <= i -> 0 <= o <= o' ->
     calculate_cost_estimate (TokenBudgetManager_init settings) i o = Val c ->
     calculate_cost_estimate (TokenBudgetManager_init settings) i o' = Val c' ->
     (c <=? c')%float = true).
Proof.
  intros Hin Hout. split; [apply calculate_cost_estimate_formula|].
  now apply cost_estimate_total_and_monotone.
Qed.

(** The shipped rates, $15 and $75 per million tokens. *)
Lemma cost_estimate_default_rates_witness :
  (forall i o,
     calculate_cost_estimate (TokenBudgetManager_init default_settings) i o =
     spec_estimate_cost default_settings i o) /\
  (forall i o, 0 <= i < 2 ^ 1023 -> 0 <= o < 2 ^ 1023 ->
     exists c, calculate_cost_estimate (TokenBudgetManager_init default_settings) i o = Val c) /\
  (forall i i' o c c', 0 <= i <= i' -> 0 <= o ->
     calculate_cost_estimate (TokenBudgetManager_init default_settings) i o = Val c ->
     calculate_cost_estimate (TokenBudgetManager_init default_settings) i' o = Val c' ->
     (c <=? c')%float = true) /\
  (forall i o o' c c', 0 <= i -> 0 <= o <= o' ->
     calculate_cost_estimate (TokenBudgetManager_init default_settings) i o = Val c ->
     calculate_cost_estimate (TokenBudgetManager_init default_settings) i o' = Val c' ->
     (c <=? c')%float = true).
Proof.
  apply (cost_estimate_formula_and_monotonicity default_settings); vm_compute; reflexivity.
Defined.

Example cost_estimate_values :
  calculate_cost_estimate (TokenBudgetManager_init default_settings) 1000 500 =
    Val 0.052499999999999998%float /\
  calculate_cost_estimate (TokenBudgetManager_init default_settings) 2000 500 =
    Val 0.067500000000000004%float /\
  calculate_cost_estimate (TokenBudgetManager_init default_settings) (2 ^ 1024) 500 =
    Exc (PyError "OverflowError" "int too large to convert to float").
Proof. repeat split; vm_compute; reflexivity. Qed.

(** C5, as stated, fails: the estimate is not homogeneous of degree 1.  With
    the shipped rates the estimate for (0, 9) tokens is not 3 times the
    estimate for (0, 3) tokens; the two differ in the last bit. *)
Lemma cost_estimate_is_not_homogeneous :
  calculate_cost_estimate (TokenBudgetManager_init default_settings) 0 3 =
    Val 0.00022499999999999999%float /\
  calculate_cost_estimate (TokenBudgetManager_init default_settings) (3 * 0) (3 * 3) =
    Val 0.00067499999999999993%float /\
  Py.mul_int_float 3 0.00022499999999999999 = Val 0.00067500000000000004%float /\
  (0.00067499999999999993 =? 0.00067500000000000004)%float = false /\
  res_bind (calculate_cost_estimate (TokenBudgetManager_init default_settings) 0 3)
    (Py.mul_int_float 3) <>
  calculate_cost_estimate (TokenBudgetManager_init default_settings) (3 * 0) (3 * 3).
Proof.
  assert (H1 : calculate_cost_estimate (TokenBudgetManager_init default_settings) 0 3 =
               Val 0.00022499999999999999%float) by (vm_compute; reflexivity).
  assert (H2 : calculate_cost_estimate (TokenBudgetManager_init default_settings)
                 (3 * 0) (3 * 3) = Val 0.00067499999999999993%float)
    by (vm_compute; reflexivity).
  assert (H3 : Py.mul_int_float 3 0.00022499999999999999 = Val 0.00067500000000000004%float)
    by (vm_compute; reflexivity).
  repeat split; try assumption; try (vm_compute; reflexivity).
  rewrite H1, H2. cbn [res_bind]. rewrite H3. intros Heq.
  apply (f_equal (fun r => match r with
                           | Val x => (x =? 0.00067499999999999993)%float
                           | Exc _ => false
                           end)) in Heq.
  vm_compute in Heq. discriminate Heq.
Qed.

(* ===================================================================== *)
(** ** The ledger's integer counters *)




Section LedgerCounters.
Context {R : Type}.


End LedgerCounters.

Example outage_loses_the_increment :
  fst (_update_daily_totals 0.00063 14 Scenario.outage) = Val tt /\
  hashes (w_redis (snd (_update_daily_totals 0.00063 14 Scenario.outage))) = ∅ /\
  w_log (snd (_update_daily_totals 0.00063 14 Scenario.outage)) =
    ["daily_totals_update_failed"].
Proof. repeat split; vm_compute; reflexivity. Qed.

(* ===================================================================== *)
(** ** The reports of the budget manager *)

Section ReportProofs.
Context {R : Type}.
Variable self : TokenBudgetManager.

(** The report of the day, by cases on the connection and the ledger. *)
Lemma get_daily_usage_cases (w : world R) :
  get_daily_usage self w =
  if ledger_down w
  then (Val (UsageReportError "Error connecting to Redis"),
        with_log (w_log (after_read w) ++ ["daily_usage_retrieval_failed"]) (after_read w))
  else
    match hashes (w_redis w) !! ("daily_usage:" +:+ w_today w) with
    | None => (Val (UsageStats (no_usage (w_today w))), after_read w)
    | Some h =>
        if (daily_budget self =? 0)%float
        then (Val (UsageReportError "float division by zero"),
              with_log (w_log (after_read w) ++ ["daily_usage_retrieval_failed"])
                (after_read w))
        else (Val (UsageStats {|
                     s_date := w_today w;
                     s_total_cost := h_total_cost h;
                     s_total_tokens := h_total_tokens h;
                     s_queries_processed := h_queries_processed h;
                     s_budget_usage_percent :=
                       min_100 (h_total_cost h / daily_budget self * 100)%float;
                     s_daily_budget := Some (daily_budget self);
                     s_remaining_budget := Some (daily_budget self - h_total_cost h)%float |}),
              after_read w)
    end.
Proof.
  unfold get_daily_usage, try_except, bind, date_today, redis_command, ret, lift,
    ledger_down, after_read, hgetall, Py.truediv, log.
  destruct (faults (w_redis w)) as [|[] fs] eqn:E; cbn [hd tl];
    try reflexivity; cbn [hashes redis_with_faults];
    destruct (hashes (w_redis w) !! _); try reflexivity;
    destruct (daily_budget self =? 0)%float; reflexivity.
Qed.

Lemma min_100_capped (x : float) :
  match min_100 x with
  | PyInt n => n = 100
  | PyFloat y => Py.gt y 100 = false
  end.
Proof. unfold min_100. destruct (Py.gt x 100) eqn:E; [reflexivity|exact E]. Qed.

(** [get_daily_usage] never raises.  A failed round trip is reported as an
    error, where the guard's own read counts a usage of 0.0.  A day without
    an entry reads as zeros, without the keys [daily_budget] and
    [remaining_budget].  A day with an entry reads as its totals, with
    [remaining_budget = daily_budget - total_cost], the amount the daily
    check compares an estimate with; a daily budget of zero turns that
    report into an error.  The percentage of a report is never above 100. *)
Theorem daily_usage_report (w : world R) :
  (exists report w', get_daily_usage self w = (Val report, w')) /\
  (ledger_down w = true ->
     fst (get_daily_usage self w) = Val (UsageReportError "Error connecting to Redis") /\
     fst (_get_daily_usage w) = Val 0%float) /\
  (ledger_down w = false ->
     hashes (w_redis w) !! ("daily_usage:" +:+ w_today w) = None ->
     fst (get_daily_usage self w) = Val (UsageStats (no_usage (w_today w)))) /\
  (forall h,
     ledger_down w = false ->
     hashes (w_redis w) !! ("daily_usage:" +:+ w_today w) = Some h ->
     (daily_budget self =? 0)%float = false ->
     exists s,
       fst (get_daily_usage self w) = Val (UsageStats s) /\
       s_total_cost s = h_total_cost h /\
       s_total_tokens s = h_total_tokens h /\
       s_queries_processed s = h_queries_processed h /\
       s_daily_budget s = Some (daily_budget self) /\
       s_remaining_budget s = Some (daily_budget self - h_total_cost h)%float /\
       forall est,
         fst (check_daily_budget self est w) =
         Val (negb (Py.gt est (daily_budget self - h_total_cost h)))) /\
  (forall h,
     ledger_down w = false ->
     hashes (w_redis w) !! ("daily_usage:" +:+ w_today w) = Some h ->
     (daily_budget self =? 0)%float = true ->
     fst (get_daily_usage self w) = Val (UsageReportError "float division by zero")) /\
  (forall s,
     fst (get_daily_usage self w) = Val (UsageStats s) ->
     match s_budget_usage_percent s with
     | PyInt n => n = 100
     | PyFloat x => Py.gt x 100 = false
     end).
Proof.
  rewrite get_daily_usage_cases.
  split; [|split; [|split; [|split; [|split]]]].
  - destruct (ledger_down w); [eauto|].
    destruct (hashes (w_redis w) !! _); [|eauto].
    destruct (daily_budget self =? 0)%float; eauto.
  - intros Hd. rewrite Hd, get_daily_usage_run. unfold usage_seen. rewrite Hd.
    split; reflexivity.
  - intros Hd Hn. rewrite Hd, Hn. reflexivity.
  - intros h Hd Hh Hz. rewrite Hd, Hh, Hz. eexists. split; [reflexivity|].
    repeat split. intros est.
    unfold check_daily_budget, try_except, bind. rewrite get_daily_usage_run.
    unfold usage_seen, ledger_total_cost, hget_total_cost. rewrite Hd, Hh. cbn [fmap option_fmap option_map default].
    destruct (Py.gt est _); reflexivity.
  - intros h Hd Hh Hz. rewrite Hd, Hh, Hz. reflexivity.
  - destruct (ledger_down w); [discriminate|].
    destruct (hashes (w_redis w) !! _) as [h|].
    + destruct (daily_budget self =? 0)%float; [discriminate|].
      intros s Hs. inversion Hs. cbn [s_budget_usage_percent]. apply min_100_capped.
    + intros s Hs. inversion Hs. reflexivity.
Qed.




(** The world after a reset. *)
Lemma reset_daily_usage_run (target_date : option string) (w : world R) :
  let reset_date :=
    match target_date with
    | Some d => if String.eqb d "" then w_today w else d
    | None => w_today w
    end in
  reset_daily_usage target_date w =
  (Val tt,
   if ledger_down w
   then with_log (w_log w ++ ["daily_usage_reset_failed"]) (after_read w)
   else with_log (w_log w ++ ["daily_usage_reset"])
          (with_redis (del ("daily_usage:" +:+ reset_date)
                         (redis_with_faults (tl (faults (w_redis w))) (w_redis w))) w)).
Proof.
  intros reset_date.
  assert (Hd : (match target_date with
                | Some d => if String.eqb d "" then date_today else ret d
                | None => date_today
                end) w = (Val reset_date, w)).
  { subst reset_date. destruct target_date as [d|]; [destruct (String.eqb d "")|]; reflexivity. }
  unfold reset_daily_usage, try_except, bind at 1. rewrite Hd.
  unfold bind, redis_command, log, ledger_down, after_read.
  destruct (faults (w_redis w)) as [|[] fs] eqn:Ef; reflexivity.
Qed.

(** A reset never raises and leaves the usage logs alone.  On a reachable
    store it deletes the totals of the target day ([None] and the empty
    string stand for today) and of no other day; when that day is today and
    the connection stays healthy, the guard then reads a usage of 0.0 and the
    report shows a day without usage.  On a failed round trip nothing is
    deleted. *)
Theorem reset_deletes_the_day (target_date : option string) (w : world R) :
  let reset_date :=
    match target_date with
    | Some d => if String.eqb d "" then w_today w else d
    | None => w_today w
    end in
  exists w',
    reset_daily_usage target_date w = (Val tt, w') /\
    lists (w_redis w') = lists (w_redis w) /\
    (ledger_down w = false ->
     hashes (w_redis w') = delete ("daily_usage:" +:+ reset_date) (hashes (w_redis w)) /\
     hashes (w_redis w') !! ("daily_usage:" +:+ reset_date) = None /\
     (forall key, key <> "daily_usage:" +:+ reset_date ->
        hashes (w_redis w') !! key = hashes (w_redis w) !! key) /\
     last (w_log w') = Some "daily_usage_reset") /\
    (faults (w_redis w) = [] -> reset_date = w_today w ->
     fst (_get_daily_usage w') = Val 0%float /\
     fst (get_daily_usage self w') = Val (UsageStats (no_usage (w_today w)))) /\
    (ledger_down w = true ->
     hashes (w_redis w') = hashes (w_redis w) /\
     last (w_log w') = Some "daily_usage_reset_failed").
Proof.
  intros reset_date. rewrite reset_daily_usage_run. fold reset_date.
  eexists. split; [reflexivity|]. split; [|split; [|split]].
  - destruct (ledger_down w); reflexivity.
  - intros Hd. rewrite Hd.
    cbn [w_redis with_redis with_log lists hashes del redis_with_faults w_log].
    split; [reflexivity|]. split; [apply lookup_delete_eq|]. split; [|apply last_snoc].
    intros key Hk. now apply lookup_delete_ne.
  - intros Hf Hdate.
    assert (Hd : ledger_down w = false) by (unfold ledger_down; now rewrite Hf).
    rewrite Hd, Hf, Hdate, get_daily_usage_run, get_daily_usage_cases.
    unfold usage_seen, ledger_total_cost, hget_total_cost, ledger_down.
    cbn [w_redis with_redis with_log faults hashes del redis_with_faults w_today hd tl].
    rewrite lookup_delete_eq. split; reflexivity.
  - intros Hd. rewrite Hd. split; [reflexivity|apply last_snoc].
Qed.

End ReportProofs.

(* ===================================================================== *)
(** ** The usage history *)

Section HistoryProofs.
Context {R : Type}.
Variable self : TokenBudgetManager.

Lemma history_entry_healthy (today i : Z) (w : world R) :
  faults (w_redis w) = [] ->
  1 <= today - i <= 3652059 ->
  (daily_budget self =? 0)%float = false ->
  history_entry self today i w =
    (Val (day_stats self (hashes (w_redis w)) (today - i)), after_read w).
Proof.
  intros Hf [Hlo Hhi] Hz.
  unfold history_entry, bind, lift, Date.fromordinal, redis_command, after_read, day_stats,
    hgetall, Py.truediv.
  destruct (Z.ltb_spec (today - i) 1) as [|_]; [lia|].
  destruct (Z.ltb_spec 3652059 (today - i)) as [|_]; [lia|].
  rewrite Hf. cbn [tl hashes redis_with_faults].
  destruct (hashes (w_redis w) !! _); [rewrite Hz|]; reflexivity.
Qed.

Lemma history_loop_healthy (today : Z) (range : list Z) :
  (daily_budget self =? 0)%float = false ->
  Forall (fun i => 1 <= today - i <= 3652059) range ->
  forall (history : list usage_stats) (w : world R),
    faults (w_redis w) = [] ->
    exists w',
      history_loop self today range history w =
        (Val (history ++ map (fun i => day_stats self (hashes (w_redis w)) (today - i)) range)%list,
         w') /\
      w_log w' = w_log w.
Proof.
  intros Hz Hr. induction Hr as [|i range Hi Hr IH]; intros history w Hf.
  - cbn [history_loop map]. rewrite app_nil_r. eexists. split; reflexivity.
  - cbn [history_loop map]. unfold bind.
    rewrite (history_entry_healthy today i w Hf Hi Hz).
    destruct (IH (history ++ [day_stats self (hashes (w_redis w)) (today - i)])%list
                (after_read w)) as (w' & E & Hl).
    { unfold after_read. cbn [w_redis with_redis faults redis_with_faults]. now rewrite Hf. }
    rewrite E. exists w'. split; [|exact Hl].
    rewrite <- app_assoc. reflexivity.
Qed.

(** A loop that ends has added one entry for each index of its range. *)
Lemma history_loop_length (today : Z) (range : list Z) :
  forall (history h : list usage_stats) (w w' : world R),
    history_loop self today range history w = (Val h, w') ->
    length h = (length history + length range)%nat.
Proof.
  induction range as [|i range IH]; intros history h w w' Hrun.
  - cbn in Hrun. inversion Hrun. cbn. lia.
  - cbn [history_loop] in Hrun. unfold bind in Hrun.
    destruct (history_entry self today i w) as [[entry|e] w1]; [|discriminate].
    apply IH in Hrun. rewrite length_app in Hrun. cbn in *. lia.
Qed.

(** A failing iteration ends the loop. *)
Lemma history_loop_fails (today : Z) (range : list Z) (i : Z) :
  i ∈ range ->
  (forall w : world R, exists e w', history_entry self today i w = (Exc e, w')) ->
  forall (history : list usage_stats) (w : world R),
    exists e w', history_loop self today range history w = (Exc e, w').
Proof.
  intros Hin Hfail. induction range as [|j range IH]; intros history w.
  - inversion Hin.
  - cbn [history_loop]. unfold bind.
    destruct (decide (i = j)) as [<-|Hne].
    + destruct (Hfail w) as (e & w' & ->). eauto.
    + destruct (history_entry self today j w) as [[entry|e] w1]; [|eauto].
      apply IH. inversion Hin; [congruence|assumption].
Qed.

Lemma rev_lookup_seqZ {A} (f : Z -> A) (days k : Z) :
  0 <= k < days ->
  rev (map f (seqZ 0 days)) !! Z.to_nat k = Some (f (days - 1 - k)).
Proof.
  intros Hk. rewrite rev_alt. change (rev_append ?l []) with (reverse l).
  rewrite reverse_lookup by (rewrite length_map, length_seqZ; lia).
  rewrite length_map, length_seqZ.
  change (map f ?l) with (f <$> l). rewrite list_lookup_fmap.
  rewrite lookup_seqZ_lt by lia. cbn. f_equal. f_equal. lia.
Qed.

(** [get_usage_history] never raises, and its answer is all or nothing:
    the empty list, or one entry for each of the [days] days.  On a healthy
    connection, with every day asked for in the calendar and a daily budget
    that is not zero, entry [k] holds the totals of day
    [today - (days - 1 - k)], zeros for a day without an entry: the oldest
    day comes first and today last.  A first round trip that fails, or a
    range that reaches before 0001-01-01, gives the empty list. *)
Theorem usage_history_is_all_or_nothing (today days : Z) (w : world R) :
  (exists history w',
     get_usage_history self today days w = (Val history, w') /\
     (history = [] \/ (0 < days /\ Z.of_nat (length history) = days))) /\
  (faults (w_redis w) = [] ->
   (daily_budget self =? 0)%float = false ->
   days <= today <= 3652059 ->
   exists history w',
     get_usage_history self today days w = (Val history, w') /\
     Z.of_nat (length history) = Z.max 0 days /\
     w_log w' = w_log w /\
     forall k, 0 <= k < days ->
       history !! Z.to_nat k =
       Some (day_stats self (hashes (w_redis w)) (today - (days - 1 - k)))) /\
  (0 < days -> ledger_down w = true ->
   fst (get_usage_history self today days w) = Val [] /\
   last (w_log (snd (get_usage_history self today days w))) =
     Some "usage_history_retrieval_failed") /\
  (0 <= today < days ->
   fst (get_usage_history self today days w) = Val []).
Proof.
  split; [|split; [|split]].
  - unfold get_usage_history, try_except, bind, ret, log.
    destruct (history_loop self today (seqZ 0 days) [] w) as [[h|e] w1] eqn:Hrun.
    + eexists _, _. split; [reflexivity|].
      apply history_loop_length in Hrun. rewrite length_seqZ in Hrun. cbn in Hrun.
      destruct (Z_lt_le_dec 0 days) as [Hpos|Hneg].
      * right. split; [exact Hpos|]. rewrite length_rev, Hrun. lia.
      * left. destruct h; [reflexivity|]. cbn in Hrun. lia.
    + eexists _, _. split; [reflexivity|]. now left.
  - intros Hf Hz Hrange.
    destruct (history_loop_healthy today (seqZ 0 days) Hz) with (history := @nil usage_stats)
      (w := w) as (w' & E & Hl); [|exact Hf|].
    { apply Forall_forall. intros i Hi. apply elem_of_seqZ in Hi. lia. }
    unfold get_usage_history, try_except, bind, ret. rewrite E. cbn [app].
    eexists _, _. split; [reflexivity|]. split; [|split; [exact Hl|]].
    + rewrite length_rev, length_map, length_seqZ. lia.
    + intros k Hk. now apply rev_lookup_seqZ.
  - intros Hpos Hd.
    assert (Hrun : exists w',
               get_usage_history self today days w =
               (Val [], with_log (w_log w' ++ ["usage_history_retrieval_failed"]) w')).
    { unfold get_usage_history, try_except, bind at 1.
      rewrite (seqZ_cons 0 days Hpos). cbn [history_loop]. unfold bind at 1.
      assert (Hfail : exists e w', history_entry self today 0 w = (Exc e, w')).
      { unfold history_entry, bind, lift, redis_command.
        destruct (Date.fromordinal (today - 0)); [|eauto].
        unfold ledger_down in Hd.
        destruct (faults (w_redis w)) as [|[] fs]; cbn in Hd; try discriminate. eauto. }
      destruct Hfail as (e & w' & ->). eexists. reflexivity. }
    destruct Hrun as (w' & ->). split; [reflexivity|]. apply last_snoc.
  - intros Hrange.
    destruct (history_loop_fails today (seqZ 0 days) today) with (history := @nil usage_stats)
      (w := w) as (e & w' & E).
    { apply elem_of_seqZ. lia. }
    { intros w0. unfold history_entry, bind, lift, Date.fromordinal.
      replace (today - today) with 0 by lia. cbn. eauto. }
    unfold get_usage_history, try_except, bind. rewrite E. reflexivity.
Qed.

End HistoryProofs.

(* ===================================================================== *)
(** ** Reading a returned value back *)

Section Inversion.
Context {R : Type}.

Lemma bind_val_inv {A B} (m : M (R := R) A) (k : A -> M B) (w : world R) (b : B)
  (w' : world R) :
  bind m k w = (Val b, w') -> exists a w1, m w = (Val a, w1) /\ k a w1 = (Val b, w').
Proof.
  unfold bind. destruct (m w) as [[a|e] w1]; [eauto|discriminate].
Qed.

Lemma bind_exc_inv {A B} (m : M (R := R) A) (k : A -> M B) (w : world R) (e : exn)
  (w' : world R) :
  bind m k w = (Exc e, w') ->
  m w = (Exc e, w') \/ exists a w1, m w = (Val a, w1) /\ k a w1 = (Exc e, w').
Proof.
  unfold bind. destruct (m w) as [[a|e0] w1]; [eauto|].
  intros Heq. left. inversion Heq. reflexivity.
Qed.

Lemma try_except_val_inv {A} (m : M (R := R) A) (h : exn -> M A) (w : world R) (a : A)
  (w' : world R) :
  try_except m h w = (Val a, w') ->
  m w = (Val a, w') \/ exists e w1, m w = (Exc e, w1) /\ h e w1 = (Val a, w').
Proof.
  unfold try_except. destruct (m w) as [[a0|e] w1]; [|eauto].
  intros Heq. left. exact Heq.
Qed.

(** ** What leaves the session alone *)

Lemma keeps_session_ret {A} (a : A) : keeps_session (R := R) (ret a).
Proof. intros w. reflexivity. Qed.

Lemma keeps_session_raise {A} (e : exn) : keeps_session (R := R) (raise (A := A) e).
Proof. intros w. reflexivity. Qed.

Lemma keeps_session_lift {A} (r : res A) : keeps_session (R := R) (lift r).
Proof. intros w. reflexivity. Qed.

Lemma keeps_session_log (event : string) : keeps_session (R := R) (log event).
Proof. intros w. reflexivity. Qed.

Lemma keeps_session_invoke (name method txt : string) (ctx : option (dict R)) (r : res R) :
  keeps_session (invoke name method txt ctx r).
Proof. intros w. reflexivity. Qed.

Lemma keeps_session_ledger_only {A} (m : M (R := R) A) : ledger_only m -> keeps_session m.
Proof.
  intros Hm w. specialize (Hm w). unfold outside_ledger in Hm. unfold session_of.
  inversion Hm. congruence.
Qed.

Lemma keeps_session_bind {A B} (m : M (R := R) A) (k : A -> M B) :
  keeps_session m -> (forall a, keeps_session (k a)) -> keeps_session (bind m k).
Proof.
  intros Hm Hk w. unfold bind. specialize (Hm w).
  destruct (m w) as [[a|e] w']; simpl in *; [rewrite Hk|]; exact Hm.
Qed.

Lemma keeps_session_try_except {A} (m : M (R := R) A) (h : exn -> M A) :
  keeps_session m -> (forall e, keeps_session (h e)) -> keeps_session (try_except m h).
Proof.
  intros Hm Hh w. unfold try_except. specialize (Hm w).
  destruct (m w) as [[a|e] w']; simpl in *; [|rewrite Hh]; exact Hm.
Qed.

End Inversion.

Create HintDb session.
#[export] Hint Resolve keeps_session_ret keeps_session_raise keeps_session_lift
  keeps_session_log keeps_session_invoke : session.

Ltac session :=
  repeat first
    [ progress intros
    | solve [auto with session]
    | apply keeps_session_bind
    | apply keeps_session_try_except
    | match goal with
      | |- keeps_session (if ?b then _ else _) => destruct b
      | |- keeps_session (match ?x with _ => _ end) => destruct x
      end ].

Section SessionProofs.
Context {R : Type} `{PyObject R}.
Variable settings : Settings.
Variable agents : gmap string (agent R).
Variable planner : agent R.
Variable token_budget : TokenBudgetManager.

Lemma keeps_session_call_plan (query : string) : keeps_session (call_plan planner query).
Proof.
  unfold call_plan. destruct (a_plan planner); [intros w; reflexivity|auto with session].
Qed.

Lemma keeps_session_call_synthesis (query : string) (results : dict R) :
  keeps_session (call_synthesis agents query results).
Proof. unfold call_synthesis. session. Qed.

Lemma keeps_session_agent_check (name : string) (t : task) (ctx : dict R) :
  keeps_session (EnhancedAgentOrchestrator._pre_flight_agent_check token_budget name t ctx).
Proof.
  assert (forall i o, keeps_session (R := R) (pre_flight_check token_budget i o))
    by (intros; apply keeps_session_ledger_only, ledger_only_pre_flight_check).
  unfold EnhancedAgentOrchestrator._pre_flight_agent_check. session.
Qed.

Lemma keeps_session_execution_end :
  keeps_session (R := R) EnhancedAgentOrchestrator.record_agent_execution_end.
Proof. intros w. reflexivity. Qed.

Lemma keeps_session_record_agent_usage (name txt : string) (ctx : dict R) (r : R) :
  keeps_session (EnhancedAgentOrchestrator._record_agent_usage token_budget name txt ctx r).
Proof.
  assert (forall i o n q, keeps_session (R := R) (record_usage token_budget i o n q))
    by (intros; apply keeps_session_ledger_only, ledger_only_record_usage).
  unfold EnhancedAgentOrchestrator._record_agent_usage. session; intros w; reflexivity.
Qed.

Lemma keeps_session_dispatch (a : agent R) (name txt : string) (ctx : dict R) :
  keeps_session (EnhancedAgentOrchestrator.dispatch a name txt ctx).
Proof. unfold EnhancedAgentOrchestrator.dispatch. session. Qed.

Lemma keeps_session_execute_agent (a : agent R) (name txt : string) (ctx : dict R) :
  keeps_session
    (EnhancedAgentOrchestrator._execute_agent_with_budget_tracking token_budget a name txt ctx).
Proof.
  pose proof keeps_session_execution_end.
  pose proof keeps_session_record_agent_usage.
  pose proof keeps_session_dispatch.
  unfold EnhancedAgentOrchestrator._execute_agent_with_budget_tracking. session.
Qed.

Lemma keeps_session_run_task (i : Z) (t : task) (results : dict R) (total : float) :
  keeps_session (EnhancedAgentOrchestrator.run_task agents token_budget i t results total).
Proof.
  pose proof keeps_session_agent_check.
  pose proof keeps_session_execute_agent.
  unfold EnhancedAgentOrchestrator.run_task. session.
Qed.

Lemma keeps_session_run_tasks (tasks : list task) :
  forall (i : Z) (results : dict R) (total : float),
    keeps_session (EnhancedAgentOrchestrator.run_tasks agents token_budget tasks i results total).
Proof.
  induction tasks as [|t rest IH]; intros i results total;
    cbn [EnhancedAgentOrchestrator.run_tasks].
  - auto with session.
  - apply keeps_session_bind; [apply keeps_session_run_task|]. intros st. apply IH.
Qed.

End SessionProofs.

(* ===================================================================== *)
(** ** The results of a plan *)

Lemma keys_dict_set_fresh {A} (d : dict A) (k : Z) (v : A) :
  k ∉ keys d -> keys (dict_set d k v) = (keys d ++ [k])%list.
Proof.
  unfold keys. induction d as [|[k0 v0] d IH]; intros Hk; cbn [dict_set map fst app].
  - reflexivity.
  - destruct (Z.eqb_spec k0 k) as [->|Hne].
    + exfalso. apply Hk. cbn. left.
    + cbn [map fst]. rewrite IH; [reflexivity|].
      intros Hin. apply Hk. cbn. now right.
Qed.

(** Storing the result of task [i] after the results of the tasks before
    it. *)
Lemma keys_dict_set_next {A} (d : dict A) (i : Z) (v : A) :
  0 <= i -> keys d = seqZ 0 i -> keys (dict_set d i v) = seqZ 0 (i + 1).
Proof.
  intros Hi Hk. rewrite keys_dict_set_fresh.
  - rewrite Hk, (seqZ_app 0 i 1) by lia. reflexivity.
  - rewrite Hk, elem_of_seqZ. lia.
Qed.

Section PlanResults.
Context {R : Type} `{PyObject R}.
Variable settings : Settings.
Variable agents : gmap string (agent R).
Variable planner : agent R.
Variable token_budget : TokenBudgetManager.

(** A task that returns named an agent of the registry, had a description,
    and has stored one result under its index. *)
Lemma run_task_val_inv (i : Z) (t : task) (results : dict R) (total : float) (w : world R)
  (st : dict R * float) (w' : world R) :
  EnhancedAgentOrchestrator.run_task agents token_budget i t results total w = (Val st, w') ->
  (exists name a txt,
     t_agent t = Some name /\ agents !! name = Some a /\ t_task t = Some txt) /\
  exists r est, st = (dict_set results i r, (total + est)%float).
Proof.
  unfold EnhancedAgentOrchestrator.run_task. intros Hrun.
  apply bind_val_inv in Hrun as (name & w1 & Hname & Hrun).
  apply bind_val_inv in Hrun as (a & w2 & Ha & Hrun).
  apply try_except_val_inv in Hrun as [Hrun|(e & w3 & _ & Hrun)].
  - apply bind_val_inv in Hrun as (bc & w3 & _ & Hrun).
    apply bind_val_inv in Hrun as (_u & w4 & _ & Hrun).
    apply bind_val_inv in Hrun as (txt & w5 & Htxt & Hrun).
    apply bind_val_inv in Hrun as (r & w6 & _ & Hrun).
    inversion Hrun. split; [|eauto].
    unfold lift, task_getitem_agent, agents_getitem, task_getitem_task in *.
    destruct (t_agent t) as [n|] eqn:En; [|discriminate]. inversion Hname; subst n.
    destruct (agents !! name) as [a0|] eqn:Ea; [|discriminate].
    destruct (t_task t) as [s|] eqn:Es; [|discriminate].
    eauto 10.
  - apply bind_val_inv in Hrun as (txt & w4 & _ & Hrun).
    apply bind_val_inv in Hrun as (_u & w5 & _ & Hrun).
    discriminate Hrun.
Qed.

Lemma run_tasks_keys (tasks : list task) :
  forall (i : Z) (results : dict R) (total : float) (w : world R) (st : dict R * float)
    (w' : world R),
    0 <= i -> keys results = seqZ 0 i ->
    EnhancedAgentOrchestrator.run_tasks agents token_budget tasks i results total w =
      (Val st, w') ->
    keys (fst st) = seqZ 0 (i + Z.of_nat (length tasks)) /\
    Forall (fun t => exists name a txt,
              t_agent t = Some name /\ agents !! name = Some a /\ t_task t = Some txt)
      tasks.
Proof.
  induction tasks as [|t rest IH]; intros i results total w st w' Hi Hk Hrun;
    cbn [EnhancedAgentOrchestrator.run_tasks] in Hrun.
  - inversion Hrun. cbn. rewrite Z.add_0_r. split; [assumption|constructor].
  - apply bind_val_inv in Hrun as (st1 & w1 & Htask & Hrun).
    apply run_task_val_inv in Htask as (Ht & r & est & ->).
    apply IH in Hrun as [Hkeys Hall]; [|lia|now apply keys_dict_set_next].
    split; [|now constructor].
    rewrite Hkeys. f_equal. cbn [length]. lia.
Qed.

(** The steps behind an outcome that [execute] returns. *)
Lemma execute_val_inv (query uuid : string) (w : world R) (o : query_outcome R)
  (w' : world R) :
  EnhancedAgentOrchestrator.execute settings agents planner token_budget query uuid w =
    (Val o, w') ->
  exists f tasks results total answer w1 w2 w3,
    a_plan planner = Some f /\ f query = Val tasks /\
    (Z.of_nat (length tasks) >? MAX_AGENTS_PER_QUERY settings) = false /\
    session_of w1 =
      (uuid, queries_completed (w_metrics w), queries_failed (w_metrics w)) /\
    EnhancedAgentOrchestrator.run_tasks agents token_budget tasks 0 [] 0%float w1 =
      (Val (results, total), w2) /\
    call_synthesis agents query results w2 = (Val answer, w3) /\
    (TOKEN_BUDGET_DAILY settings =? 0)%float = false /\
    o = {| o_query_id := current_query_id w3;
           o_answer := answer;
           o_steps := tasks;
           o_intermediate_results := results;
           o_total_cost := current_query_cost w3;
           o_agent_costs := agent_costs w3;
           o_estimated_cost := total;
           o_currency := "USD";
           o_agents_used := Z.of_nat (length tasks) |} /\
    current_query_cost w' = current_query_cost w3 /\
    agent_costs w' = agent_costs w3.
Proof.
  unfold EnhancedAgentOrchestrator.execute. intros Hrun.
  apply bind_val_inv in Hrun as (_u & w0 & Hset & Hrun).
  apply try_except_val_inv in Hrun as [Hrun|(e & wf & _ & Hrun)].
  - apply bind_val_inv in Hrun as (_u1 & wl & Hl & Hrun).
    apply bind_val_inv in Hrun as (tasks & w1 & Hplan & Hrun).
    apply bind_val_inv in Hrun as (_u2 & w1' & Hmax & Hrun).
    apply bind_val_inv in Hrun as ([results total] & w2 & Htasks & Hrun).
    apply bind_val_inv in Hrun as (answer & w3 & Hsyn & Hrun).
    apply bind_val_inv in Hrun as (cost & w3' & Hcost & Hrun).
    apply bind_val_inv in Hrun as (_u3 & w4 & Hrec & Hrun).
    apply bind_val_inv in Hrun as (_u4 & w5 & Hend & Hrun).
    apply bind_val_inv in Hrun as (_u5 & w6 & Hlog & Hrun).
    unfold call_plan in Hplan. destruct (a_plan planner) as [f|] eqn:Hf; [|discriminate].
    inversion Hplan as [[Hq Hw1]].
    destruct (Z.of_nat (length tasks) >? MAX_AGENTS_PER_QUERY settings) eqn:Hn;
      [discriminate|].
    inversion Hmax; subst w1'.
    inversion Hcost; subst cost w3'.
    unfold EnhancedAgentOrchestrator.record_cost, Py.truediv in Hrec.
    destruct (TOKEN_BUDGET_DAILY settings =? 0)%float eqn:Hz; [discriminate|].
    inversion Hrec; subst w4. inversion Hend; subst w5. inversion Hlog; subst w6.
    inversion Hrun; subst w'.
    exists f, tasks, results, total, answer, w1, w2, w3.
    repeat split; try assumption.
    subst w1. inversion Hl; subst wl. inversion Hset; subst w0. reflexivity.
  - apply bind_val_inv in Hrun as (_u1 & w1 & _ & Hrun).
    apply bind_val_inv in Hrun as (_u2 & w2 & _ & Hrun).
    discriminate Hrun.
Qed.

(** An exception that leaves [execute] was raised by its handler. *)
Lemma execute_exc_inv (query uuid : string) (w : world R) (e : exn) (w' : world R) :
  EnhancedAgentOrchestrator.execute settings agents planner token_budget query uuid w =
    (Exc e, w') ->
  exists m, e = AgentExecutionException ("Query execution failed: " +:+ m).
Proof.
  unfold EnhancedAgentOrchestrator.execute, bind at 1, try_except.
  match goal with
  | |- context [let (_, _) := ?body ?w0 in _] => destruct (body w0) as [[o|e0] w1]
  end.
  - intros Heq. inversion Heq.
  - unfold bind, EnhancedAgentOrchestrator.record_query_end, log, raise.
    intros Heq. inversion Heq. eauto.
Qed.

(** The body of [execute] counts the query as completed exactly when it
    returns. *)
Lemma counts_completion_bind {A B} (m : M (R := R) A) (k : A -> M B) :
  keeps_session m -> (forall a, counts_completion (k a)) -> counts_completion (bind m k).
Proof.
  intros Hm Hk w. unfold bind. specialize (Hm w).
  destruct (m w) as [[a|e] w1]; cbn [snd] in Hm; [|exact Hm].
  specialize (Hk a w1). destruct (k a w1) as [[b|e] w2].
  - rewrite Hk. unfold session_of in Hm. inversion Hm. reflexivity.
  - congruence.
Qed.

Lemma keeps_session_record_cost (c : float) :
  keeps_session (R := R) (EnhancedAgentOrchestrator.record_cost settings c).
Proof.
  intros w. unfold EnhancedAgentOrchestrator.record_cost.
  destruct (Py.truediv _ _); reflexivity.
Qed.

(** The session after [execute]: the query id is the one drawn at the
    start, and the query has been counted once. *)
Lemma execute_session (query uuid : string) (w : world R) (r : res (query_outcome R))
  (w' : world R) :
  EnhancedAgentOrchestrator.execute settings agents planner token_budget query uuid w =
    (r, w') ->
  session_of w' =
  match r with
  | Val _ => (uuid, queries_completed (w_metrics w) + 1, queries_failed (w_metrics w))
  | Exc _ => (uuid, queries_completed (w_metrics w), queries_failed (w_metrics w) + 1)
  end.
Proof.
  unfold EnhancedAgentOrchestrator.execute, bind at 1, try_except.
  match goal with
  | |- context [let (_, _) := ?body ?w0 in _] =>
      assert (Hbody : counts_completion body);
      [|specialize (Hbody w0); destruct (body w0) as [[o|e0] w1]]
  end.
  - pose proof (keeps_session_call_plan planner).
    pose proof (keeps_session_run_tasks agents token_budget).
    pose proof (keeps_session_call_synthesis agents).
    pose proof keeps_session_record_cost.
    repeat first
      [ apply counts_completion_bind; [solve [session | intros w0; reflexivity]|intros]
      | intros w0; reflexivity ].
    intros w0. unfold bind, EnhancedAgentOrchestrator.record_query_end, log. cbn.
    rewrite Z.add_0_r. reflexivity.
  - intros Heq. inversion Heq; subst. exact Hbody.
  - unfold bind, EnhancedAgentOrchestrator.record_query_end, log, raise. cbn.
    intros Heq. inversion Heq; subst.
    unfold session_of in *. cbn in *. inversion Hbody. now rewrite Z.add_0_r.
Qed.

End PlanResults.

(* ===================================================================== *)
(** ** The session of the orchestrator *)

Section SessionTheorems.
Context {R : Type} `{PyObject R}.
Variable settings : Settings.
Variable agents : gmap string (agent R).
Variable planner : agent R.
Variable token_budget : TokenBudgetManager.

(** Every call of [execute] is counted once by the metrics collector: as a
    completed query when it returns an outcome, as a failed query when it
    raises, never as both; and it leaves the id drawn for the query as the
    id of the current query. *)
Theorem every_query_is_counted_once (query uuid : string) (w : world R) :
  exists r w',
    EnhancedAgentOrchestrator.execute settings agents planner token_budget query uuid w =
      (r, w') /\
    current_query_id w' = uuid /\
    match r with
    | Val _ =>
        queries_completed (w_metrics w') = queries_completed (w_metrics w) + 1 /\
        queries_failed (w_metrics w') = queries_failed (w_metrics w)
    | Exc _ =>
        queries_completed (w_metrics w') = queries_completed (w_metrics w) /\
        queries_failed (w_metrics w') = queries_failed (w_metrics w) + 1
    end.
Proof.
  destruct (EnhancedAgentOrchestrator.execute settings agents planner token_budget query
              uuid w) as [r w'] eqn:Hrun.
  exists r, w'. split; [reflexivity|].
  apply execute_session in Hrun. unfold session_of in Hrun.
  destruct r; inversion Hrun; repeat split.
Qed.

(** An outcome that [execute] returns accounts for the whole plan: its
    steps are the planner's tasks, no more of them than the configured
    maximum, every step names an agent of the registry and has a
    description, the intermediate results are keyed by the positions
    0, 1, ..., n-1 of the steps in that order, and the costs it reports are
    the session's. *)
Theorem returned_outcome_accounts_for_the_plan (query uuid : string) (w : world R)
  (o : query_outcome R) (w' : world R) :
  EnhancedAgentOrchestrator.execute settings agents planner token_budget query uuid w =
    (Val o, w') ->
  (exists f, a_plan planner = Some f /\ f query = Val (o_steps o)) /\
  o_agents_used o = Z.of_nat (length (o_steps o)) /\
  o_agents_used o <= MAX_AGENTS_PER_QUERY settings /\
  Forall (fun t => exists name a txt,
            t_agent t = Some name /\ agents !! name = Some a /\ t_task t = Some txt)
    (o_steps o) /\
  keys (o_intermediate_results o) = seqZ 0 (o_agents_used o) /\
  o_query_id o = uuid /\
  o_currency o = "USD" /\
  o_total_cost o = current_query_cost w' /\
  o_agent_costs o = agent_costs w'.
Proof.
  intros Hrun.
  destruct (execute_val_inv settings agents planner token_budget query uuid w o w' Hrun)
    as (f & tasks & results & total & answer & w1 & w2 & w3 &
        Hf & Hq & Hn & Hs & Htasks & Hsyn & Hz & -> & Hc & Ha).
  cbn [o_steps o_agents_used o_intermediate_results o_query_id o_currency o_total_cost
       o_agent_costs].
  destruct (run_tasks_keys agents token_budget tasks 0 [] 0%float w1 (results, total) w2)
    as [Hkeys Hall]; [lia|reflexivity|exact Htasks|].
  pose proof (keeps_session_run_tasks agents token_budget tasks 0 [] 0%float w1) as Hk1.
  pose proof (keeps_session_call_synthesis agents query results w2) as Hk2.
  rewrite Htasks in Hk1. rewrite Hsyn in Hk2. cbn [snd] in Hk1, Hk2.
  rewrite Hk1, Hs in Hk2. unfold session_of in Hk2. inversion Hk2 as [[Hid Hqc Hqf]].
  split; [eauto|]. split; [reflexivity|]. split; [|split; [exact Hall|]].
  - rewrite Z.gtb_ltb in Hn. apply Z.ltb_ge in Hn. exact Hn.
  - split; [exact Hkeys|]. repeat split; congruence.
Qed.

(** After [execute], whether it returned or raised, the cost breakdown of
    the query's id reports the session's accumulated cost and per-agent
    costs (for a returned outcome, the costs of the outcome), and every other
    id is answered with an error. *)
Theorem cost_breakdown_of_the_current_query (query uuid : string) (w : world R) :
  exists r w',
    EnhancedAgentOrchestrator.execute settings agents planner token_budget query uuid w =
      (r, w') /\
    fst (get_query_cost_breakdown settings uuid w') =
      Val (CostBreakdown uuid (current_query_cost w') (agent_costs w') "USD"
             (LLM_MODEL settings)) /\
    (forall id, id <> uuid ->
       fst (get_query_cost_breakdown settings id w') =
         Val (CostBreakdownError "Query ID not found in current session")) /\
    (forall o, r = Val o ->
       fst (get_query_cost_breakdown settings (o_query_id o) w') =
         Val (CostBreakdown (o_query_id o) (o_total_cost o) (o_agent_costs o) "USD"
                (LLM_MODEL settings))).
Proof.
  destruct (EnhancedAgentOrchestrator.execute settings agents planner token_budget query
              uuid w) as [r w'] eqn:Hrun.
  exists r, w'. split; [reflexivity|].
  assert (Hid : current_query_id w' = uuid).
  { apply execute_session in Hrun. unfold session_of in Hrun.
    destruct r; now inversion Hrun. }
  assert (Hfound :
    fst (get_query_cost_breakdown settings uuid w') =
      Val (CostBreakdown uuid (current_query_cost w') (agent_costs w') "USD"
             (LLM_MODEL settings))).
  { unfold get_query_cost_breakdown. rewrite Hid, String.eqb_refl. reflexivity. }
  split; [exact Hfound|]. split.
  - intros id Hne. unfold get_query_cost_breakdown. rewrite Hid.
    destruct (String.eqb_spec id uuid); [contradiction|reflexivity].
  - intros o ->.
    destruct (execute_val_inv settings agents planner token_budget query uuid w o w' Hrun)
      as (f & tasks & results & total & answer & w1 & w2 & w3 &
          Hf & Hq & Hn & Hs & Htasks & Hsyn & Hz & -> & Hc & Ha).
    cbn [o_query_id o_total_cost o_agent_costs].
    pose proof (keeps_session_run_tasks agents token_budget tasks 0 [] 0%float w1) as Hk1.
    pose proof (keeps_session_call_synthesis agents query results w2) as Hk2.
    rewrite Htasks in Hk1. rewrite Hsyn in Hk2. cbn [snd] in Hk1, Hk2.
    rewrite Hk1, Hs in Hk2. unfold session_of in Hk2. inversion Hk2 as [[Hid3 Hqc Hqf]].
    rewrite Hid3, <- Hc, <- Ha. exact Hfound.
Qed.

(** With a daily budget of zero no query returns an outcome: the division
    that updates the budget gauge raises after the plan has run, and the
    query ends as a failed query. *)
Theorem zero_daily_budget_fails_every_query (query uuid : string) (w : world R) :
  (TOKEN_BUDGET_DAILY settings =? 0)%float = true ->
  exists m w',
    EnhancedAgentOrchestrator.execute settings agents planner token_budget query uuid w =
      (Exc (AgentExecutionException ("Query execution failed: " +:+ m)), w') /\
    queries_failed (w_metrics w') = queries_failed (w_metrics w) + 1.
Proof.
  intros Hz.
  destruct (EnhancedAgentOrchestrator.execute settings agents planner token_budget query
              uuid w) as [[o|e] w'] eqn:Hrun.
  - destruct (execute_val_inv settings agents planner token_budget query uuid w o w' Hrun)
      as (f & tasks & results & total & answer & w1 & w2 & w3 &
          _ & _ & _ & _ & _ & _ & Hnz & _).
    congruence.
  - destruct (execute_exc_inv settings agents planner token_budget query uuid w e w' Hrun)
      as (m & ->).
    exists m, w'. split; [reflexivity|].
    apply execute_session in Hrun. unfold session_of in Hrun. now inversion Hrun.
Qed.

(** The per-agent costs of a query keep one entry for each agent name: when
    the same agent completes two tasks, the second cost replaces the first
    in [agent_costs], while the query's accumulated cost holds both. *)
Theorem agent_costs_keep_the_last_task (name txt1 txt2 : string) (ctx1 ctx2 : dict R)
  (r1 r2 : R) (w : world R) :
  exists w1 w2,
    EnhancedAgentOrchestrator._record_agent_usage token_budget name txt1 ctx1 r1 w =
      (Val tt, w1) /\
    EnhancedAgentOrchestrator._record_agent_usage token_budget name txt2 ctx2 r2 w1 =
      (Val tt, w2) /\
    agent_costs w1 !! name = Some (get_cost (usage_of token_budget txt1 ctx1 r1 name w)) /\
    agent_costs w2 !! name = Some (get_cost (usage_of token_budget txt2 ctx2 r2 name w1)) /\
    current_query_cost w2 =
      (current_query_cost w + get_cost (usage_of token_budget txt1 ctx1 r1 name w) +
       get_cost (usage_of token_budget txt2 ctx2 r2 name w1))%float /\
    forall other, other <> name -> agent_costs w2 !! other = agent_costs w !! other.
Proof.
  destruct (record_agent_usage_run token_budget name txt1 ctx1 r1 w)
    as (w1 & E1 & _ & _ & Hq1 & Ha1).
  destruct (record_agent_usage_run token_budget name txt2 ctx2 r2 w1)
    as (w2 & E2 & _ & _ & Hq2 & Ha2).
  exists w1, w2. split; [exact E1|]. split; [exact E2|].
  split; [rewrite Ha1; apply lookup_insert_eq|].
  split; [rewrite Ha2; apply lookup_insert_eq|].
  split; [rewrite Hq2, Hq1; reflexivity|].
  intros other Hne. rewrite Ha2, Ha1, !lookup_insert_ne by congruence. reflexivity.
Qed.

End SessionTheorems.

(* ===================================================================== *)
(** ** The plain orchestrator and the query endpoint *)

Section PlainOrchestrator.
Context {R : Type}.
Variable agents : gmap string (agent R).
Variable planner : agent R.

(** A task that returns named an agent of the registry that has an
    [execute] method, had a description, and has stored one result under its
    index. *)
Lemma plain_run_task_val_inv (i : Z) (t : task) (results : dict R) (w : world R)
  (results' : dict R) (w' : world R) :
  AgentOrchestrator.run_task agents i t results w = (Val results', w') ->
  (exists name a f txt,
     t_agent t = Some name /\ agents !! name = Some a /\ a_execute a = Some f /\
     t_task t = Some txt) /\
  exists r, results' = dict_set results i r.
Proof.
  unfold AgentOrchestrator.run_task. intros Hrun.
  apply bind_val_inv in Hrun as (name & w1 & Hname & Hrun).
  apply bind_val_inv in Hrun as (a & w2 & Ha & Hrun).
  apply bind_val_inv in Hrun as (r & w3 & Hr & Hrun).
  inversion Hrun. split; [|eauto].
  unfold lift, task_getitem_agent, agents_getitem in *.
  destruct (t_agent t) as [n|] eqn:En; [|discriminate]. inversion Hname; subst n.
  destruct (agents !! name) as [a0|] eqn:Ea; [|discriminate]. inversion Ha; subst a0.
  destruct (a_execute a) as [f|] eqn:Ef; [|discriminate].
  apply bind_val_inv in Hr as (txt & w4 & Htxt & _).
  unfold lift, task_getitem_task in Htxt.
  destruct (t_task t) as [s|] eqn:Es; [|discriminate]. eauto 10.
Qed.

Lemma plain_run_tasks_keys (tasks : list task) :
  forall (i : Z) (results : dict R) (w : world R) (results' : dict R) (w' : world R),
    0 <= i -> keys results = seqZ 0 i ->
    AgentOrchestrator.run_tasks agents tasks i results w = (Val results', w') ->
    keys results' = seqZ 0 (i + Z.of_nat (length tasks)) /\
    Forall (fun t => exists name a f txt,
              t_agent t = Some name /\ agents !! name = Some a /\ a_execute a = Some f /\
              t_task t = Some txt)
      tasks.
Proof.
  induction tasks as [|t rest IH]; intros i results w results' w' Hi Hk Hrun;
    cbn [AgentOrchestrator.run_tasks] in Hrun.
  - inversion Hrun; subst. cbn. rewrite Z.add_0_r. split; [assumption|constructor].
  - apply bind_val_inv in Hrun as (st1 & w1 & Htask & Hrun).
    apply plain_run_task_val_inv in Htask as (Ht & r & ->).
    apply IH in Hrun as [Hkeys Hall]; [|lia|now apply keys_dict_set_next].
    split; [|now constructor].
    rewrite Hkeys. f_equal. cbn [length]. lia.
Qed.

(** A task whose agent has no [execute] method ends the plan with an
    [AttributeError]; no capability is invoked for it. *)
Lemma plain_run_task_without_execute (i : Z) (t : task) (results : dict R) (w : world R)
  (name : string) (a : agent R) :
  t_agent t = Some name -> agents !! name = Some a -> a_execute a = None ->
  AgentOrchestrator.run_task agents i t results w = (AttributeError "execute", w).
Proof.
  intros Hn Ha He.
  unfold AgentOrchestrator.run_task, bind, lift, task_getitem_agent, agents_getitem.
  rewrite Hn, Ha, He. reflexivity.
Qed.

(** The plain orchestrator awaits [execute] on every agent.  An outcome it
    returns accounts for the whole plan, of whatever length: the steps are
    the planner's tasks, every step names an agent of the registry that has
    an [execute] method, and the intermediate results are keyed by the
    positions of the steps.  A task whose agent has no [execute] method (a
    search-only or synthesis-only agent) raises [AttributeError] without
    invoking anything, and the tasks after it do not run. *)
Theorem plain_orchestrator_awaits_execute :
  (forall query (w : world R) o w',
     AgentOrchestrator.execute agents planner query w = (Val o, w') ->
     (exists f, a_plan planner = Some f /\ f query = Val (po_steps o)) /\
     Forall (fun t => exists name a f txt,
               t_agent t = Some name /\ agents !! name = Some a /\
               a_execute a = Some f /\ t_task t = Some txt)
       (po_steps o) /\
     keys (po_intermediate_results o) = seqZ 0 (Z.of_nat (length (po_steps o)))) /\
  (forall i t rest results (w : world R) name a,
     t_agent t = Some name -> agents !! name = Some a -> a_execute a = None ->
     exists m,
       AgentOrchestrator.run_tasks agents (t :: rest) i results w =
         (Exc (PyError "AttributeError" m), w)).
Proof.
  split.
  - intros query w o w' Hrun. unfold AgentOrchestrator.execute in Hrun.
    apply bind_val_inv in Hrun as (tasks & w1 & Hplan & Hrun).
    apply bind_val_inv in Hrun as (results & w2 & Htasks & Hrun).
    apply bind_val_inv in Hrun as (answer & w3 & Hsyn & Hrun).
    inversion Hrun; subst. cbn [po_steps po_intermediate_results].
    unfold call_plan in Hplan. destruct (a_plan planner) as [f|] eqn:Hf; [|discriminate].
    inversion Hplan as [[Hq Hw1]].
    apply plain_run_tasks_keys in Htasks as [Hkeys Hall]; [|lia|reflexivity].
    split; [eauto|]. split; assumption.
  - intros i t rest results w name a Hn Ha He.
    cbn [AgentOrchestrator.run_tasks]. unfold bind.
    rewrite (plain_run_task_without_execute i t results w name a Hn Ha He).
    eexists. reflexivity.
Qed.

End PlainOrchestrator.

Section Endpoint.
Variable create : string -> res string.
Variable json_loads : string -> res (list task).
Variable post : string -> WebSearchAgent.request -> res json.
Variable TAVILY_API_KEY : string.
Variable QueryResponse_of : plain_outcome json -> res Main.QueryResponse.

#[local] Abbreviation agents := (Main.agents create json_loads post TAVILY_API_KEY).
#[local] Abbreviation planner := (Main.planner create json_loads).
#[local] Abbreviation execute_query :=
  (Main.execute_query create json_loads post TAVILY_API_KEY QueryResponse_of).

(** The one agent of the registry that has an [execute] method. *)
Lemma main_agents_execute (name : string) (a : agent json) :
  agents !! name = Some a ->
  name <> "data_analysis" -> a_execute a = None.
Proof.
  unfold Main.agents. cbn [list_to_map foldr fst snd].
  intros Hl Hne.
  destruct (String.eqb_spec name "planner") as [->|H1];
    [rewrite lookup_insert_eq in Hl; inversion Hl; reflexivity|].
  rewrite lookup_insert_ne in Hl by congruence.
  destruct (String.eqb_spec name "web_search") as [->|H2];
    [rewrite lookup_insert_eq in Hl; inversion Hl; reflexivity|].
  rewrite lookup_insert_ne in Hl by congruence.
  rewrite lookup_insert_ne in Hl by congruence.
  destruct (String.eqb_spec name "synthesis") as [->|H4];
    [rewrite lookup_insert_eq in Hl; inversion Hl; reflexivity|].
  rewrite lookup_insert_ne in Hl by congruence.
  rewrite lookup_empty in Hl. discriminate.
Qed.

(** A first task that is not a data analysis task fails before anything
    runs. *)
Lemma main_first_task_fails (t : task) (rest : list task) (w : world json) :
  t_agent t <> Some "data_analysis" ->
  exists e, AgentOrchestrator.run_tasks agents (t :: rest) 0 [] w = (Exc e, w).
Proof.
  intros Hne. cbn [AgentOrchestrator.run_tasks].
  unfold bind at 1, AgentOrchestrator.run_task, bind, lift, task_getitem_agent,
    agents_getitem.
  destruct (t_agent t) as [name|] eqn:Hn; [|eexists; reflexivity].
  destruct (agents !! name) as [a|] eqn:Ha; [|eexists; reflexivity].
  rewrite (main_agents_execute name a Ha) by congruence. eexists. reflexivity.
Qed.

(** Data analysis tasks with a description all run, each storing an
    analysis. *)
Lemma main_run_analysis_tasks (tasks : list task) :
  Forall (fun t => t_agent t = Some "data_analysis" /\ exists txt, t_task t = Some txt)
    tasks ->
  forall (i : Z) (results : dict json) (w : world json),
    0 <= i -> keys results = seqZ 0 i ->
    exists results' w',
      AgentOrchestrator.run_tasks agents tasks i results w = (Val results', w') /\
      length results' = (length results + length tasks)%nat /\
      length (w_calls w') = (length (w_calls w) + length tasks)%nat /\
      w_log w' = w_log w.
Proof.
  induction 1 as [|t rest [Ha [txt Ht]] Hrest IH]; intros i results w Hi Hk.
  - cbn. eexists _, _. split; [reflexivity|]. repeat split; lia.
  - cbn [AgentOrchestrator.run_tasks]. unfold bind at 1.
    assert (Hrun : AgentOrchestrator.run_task agents i t results w =
                   (Val (dict_set results i (Main.analysis txt)),
                    with_calls (w_calls w ++
                      [{| call_agent := "data_analysis"; call_method := "execute";
                          call_task := txt;
                          call_context :=
                            Some (dep_results results (task_get_depends_on t)) |}]) w)).
    { unfold AgentOrchestrator.run_task, bind, lift, task_getitem_agent, agents_getitem,
        task_getitem_task, invoke. rewrite Ha, Ht. reflexivity. }
    rewrite Hrun.
    destruct (IH (i + 1) (dict_set results i (Main.analysis txt))
                (with_calls (w_calls w ++
                   [{| call_agent := "data_analysis"; call_method := "execute";
                       call_task := txt;
                       call_context :=
                         Some (dep_results results (task_get_depends_on t)) |}]) w))
      as (results' & w' & E & Hlen & Hcalls & Hlog);
      [lia|now apply keys_dict_set_next|].
    exists results', w'. split; [exact E|].
    assert (Hl : length (dict_set results i (Main.analysis txt)) = S (length results)).
    { pose proof (keys_dict_set_next results i (Main.analysis txt) Hi Hk) as Hk'.
      apply (f_equal length) in Hk'. apply (f_equal length) in Hk.
      unfold keys in Hk, Hk'. rewrite length_map, length_seqZ in Hk, Hk'. lia. }
    rewrite Hlen, Hcalls, Hl. cbn [w_calls with_calls length]. rewrite length_app.
    cbn [length]. repeat split; try lia. exact Hlog.
Qed.

(** The endpoint never raises: whatever the planner, the agents and the
    validation of the response do, it returns a response.  When the
    orchestrator or the validation raises, the response carries the text of
    the exception as its answer, no steps and no results.  With the registry
    of the module the only agent the orchestrator can run is the data
    analysis: a plan whose first task names another agent (the web search,
    the synthesis, the planner, an unknown name, or none) is answered with
    the error response after the planner alone has been invoked, and a plan
    of data analysis tasks reaches the synthesis, whose answer counts one
    source for each task. *)
Theorem query_endpoint_never_raises (query : string) (w : world json) :
  (exists response w', execute_query query w = (Val response, w')) /\
  (forall e w1,
     AgentOrchestrator.execute agents planner query w = (Exc e, w1) ->
     execute_query query w =
       (Val {| Main.qr_answer := "Error executing query: " +:+ str_exn e;
               Main.qr_steps := [];
               Main.qr_intermediate_results := [];
               Main.qr_execution_time := 0 |},
        with_log (w_log w1 ++ ["query_execution_failed"]) w1)) /\
  (forall t rest,
     PlannerAgent.plan create json_loads query = Val (t :: rest) ->
     t_agent t <> Some "data_analysis" ->
     exists m w',
       execute_query query w =
         (Val {| Main.qr_answer := "Error executing query: " +:+ m;
                 Main.qr_steps := [];
                 Main.qr_intermediate_results := [];
                 Main.qr_execution_time := 0 |}, w') /\
       w_calls w' =
         (w_calls w ++ [{| call_agent := "planner"; call_method := "plan";
                           call_task := query; call_context := None |}])%list) /\
  (forall tasks,
     PlannerAgent.plan create json_loads query = Val tasks ->
     Forall (fun t => t_agent t = Some "data_analysis" /\ exists txt, t_task t = Some txt)
       tasks ->
     exists results w',
       AgentOrchestrator.execute agents planner query w =
         (Val {| po_answer := Main.synthesis_answer query results;
                 po_steps := tasks;
                 po_intermediate_results := results |}, w') /\
       length results = length tasks /\
       length (w_calls w') = (length (w_calls w) + length tasks + 2)%nat).
Proof.
  split; [|split; [|split]].
  - unfold Main.execute_query, try_except, bind, lift, log, ret.
    destruct (AgentOrchestrator.execute agents planner query w) as [[o|e] w1];
      [destruct (QueryResponse_of o)|]; eauto.
  - intros e w1 Hrun. unfold Main.execute_query, try_except, bind. rewrite Hrun.
    reflexivity.
  - intros t rest Hplan Hne.
    destruct (main_first_task_fails t rest
                (with_calls (w_calls w ++ [{| call_agent := "planner"; call_method := "plan";
                                              call_task := query; call_context := None |}]) w)
                Hne) as (e & Hfail).
    unfold Main.execute_query, try_except, bind at 1, AgentOrchestrator.execute,
      bind at 1, call_plan.
    cbn [a_plan Main.planner]. rewrite Hplan. unfold bind at 1. rewrite Hfail.
    eexists _, _. split; reflexivity.
  - intros tasks Hplan Hall.
    destruct (main_run_analysis_tasks tasks Hall 0 []
                (with_calls (w_calls w ++ [{| call_agent := "planner"; call_method := "plan";
                                              call_task := query; call_context := None |}]) w))
      as (results & w1 & E & Hlen & Hcalls & _); [lia|reflexivity|].
    unfold AgentOrchestrator.execute, bind at 1, call_plan.
    cbn [a_plan Main.planner]. rewrite Hplan. unfold bind at 1. rewrite E.
    unfold bind, call_synthesis, lift, agents_getitem, invoke, ret.
    assert (Hs : agents !! "synthesis" = Some Main.MockSynthesisAgent) by reflexivity.
    rewrite Hs. cbn [a_synthesize Main.MockSynthesisAgent].
    eexists _, _. split; [reflexivity|]. split; [exact Hlen|].
    cbn [w_calls with_calls] in *. rewrite length_app, Hcalls, length_app. cbn. lia.
Qed.

End Endpoint.

(* ===================================================================== *)
(** ** The planner's reading of a reply *)

Lemma append_empty_r (s : string) : s +:+ EmptyString = s.
Proof.
  induction s as [|c s IH]; [reflexivity|].
  change (String c s +:+ EmptyString) with (String c (s +:+ EmptyString)). now rewrite IH.
Qed.

Lemma append_assoc (a b c : string) : (a +:+ b) +:+ c = a +:+ (b +:+ c).
Proof.
  induction a as [|x a IH]; [reflexivity|].
  change (String x (a +:+ b) +:+ c = String x (a +:+ (b +:+ c))).
  change (String x ((a +:+ b) +:+ c) = String x (a +:+ (b +:+ c))). now rewrite IH.
Qed.

Lemma split_first (sep s : string) :
  list_getitem (Str.split sep s) 0 = Val (Str.first_piece sep s).
Proof.
  unfold Str.split, Str.first_piece.
  destruct (String.length s); cbn [Str.split_fuel];
    destruct (Str.cut sep s) as [[a b]|]; reflexivity.
Qed.

Lemma cut_empty (c : ascii) (sep : string) : Str.cut (String c sep) EmptyString = None.
Proof. reflexivity. Qed.

Lemma split_second (c : ascii) (sep s a b : string) :
  Str.cut (String c sep) s = Some (a, b) ->
  list_getitem (Str.split (String c sep) s) 1 = Val (Str.first_piece (String c sep) b).
Proof.
  intros Hcut. unfold Str.split, Str.first_piece.
  destruct s as [|c0 s]; [discriminate Hcut|].
  cbn [String.length Str.split_fuel]. rewrite Hcut.
  destruct (String.length s); cbn [Str.split_fuel];
    destruct (Str.cut (String c sep) b) as [[a' b']|]; reflexivity.
Qed.

(** A text without the first character of the separator is cut after it. *)
Lemma cut_past (c : ascii) (sep pre u : string) :
  Str.has_char c pre = false ->
  Str.cut (String c sep) (pre +:+ u) =
  match Str.cut (String c sep) u with
  | Some (a, b) => Some (pre +:+ a, b)
  | None => None
  end.
Proof.
  induction pre as [|c0 pre IH]; intros Hno.
  - change (EmptyString +:+ u) with u. destruct (Str.cut (String c sep) u) as [[a b]|]; reflexivity.
  - cbn [Str.has_char] in Hno. apply orb_false_elim in Hno as [Hc Hno].
    change (String c0 pre +:+ u) with (String c0 (pre +:+ u)).
    cbn [Str.cut String.prefix].
    destruct (ascii_dec c c0) as [->|Hne]; [rewrite Ascii.eqb_refl in Hc; discriminate|].
    rewrite (IH Hno). destruct (Str.cut (String c sep) u) as [[a b]|]; reflexivity.
Qed.

Lemma cut_none (c : ascii) (sep s : string) :
  Str.has_char c s = false -> Str.cut (String c sep) s = None.
Proof.
  intros Hno. rewrite <- (append_empty_r s) at 1. rewrite (cut_past c sep s EmptyString Hno).
  reflexivity.
Qed.

Lemma prefix_append (a b : string) : String.prefix a (a +:+ b) = true.
Proof.
  induction a as [|c a IH]; [destruct b; reflexivity|].
  change (String c a +:+ b) with (String c (a +:+ b)). cbn [String.prefix].
  destruct (ascii_dec c c); [exact IH|congruence].
Qed.

Lemma drop_append (a b : string) : Str.drop (String.length a) (a +:+ b) = b.
Proof.
  induction a as [|c a IH]; [destruct b; reflexivity|].
  change (String c a +:+ b) with (String c (a +:+ b)). exact IH.
Qed.

Lemma cut_here (sep u : string) : Str.cut sep (sep +:+ u) = Some (EmptyString, u).
Proof.
  destruct (sep +:+ u) eqn:E; cbn [Str.cut]; rewrite <- E, prefix_append, drop_append;
    reflexivity.
Qed.

Lemma first_piece_past (c : ascii) (sep pre u : string) :
  Str.has_char c pre = false ->
  Str.first_piece (String c sep) (pre +:+ String c sep +:+ u) = pre.
Proof.
  intros Hno. unfold Str.first_piece.
  rewrite (cut_past c sep pre _ Hno), cut_here. now rewrite append_empty_r.
Qed.

(** Where the next [```json] can stand in a text that starts with [```]
    and goes on with another character: at its start, or after the three
    ticks. *)
Lemma cut_fence_after_ticks (post : string) :
  String.prefix "`" post = false ->
  match Str.cut "```json" ("```" +:+ post) with
  | Some (a, _) => a = EmptyString \/ exists a', a = "```" +:+ a'
  | None => True
  end.
Proof.
  intros Hpost.
  change ("```" +:+ post) with (String "`" (String "`" (String "`" post))).
  cbn [Str.cut].
  destruct (String.prefix "```json" (String "`" (String "`" (String "`" post))));
    [now left|].
  assert (H2 : String.prefix "```json" (String "`" (String "`" post)) = false).
  { cbn [String.prefix]. repeat (destruct (ascii_dec _ _); [|reflexivity]).
    destruct post as [|c p]; [reflexivity|].
    cbn [String.prefix] in Hpost |- *.
    destruct (ascii_dec "`" c); [|reflexivity].
    destruct p; discriminate Hpost. }
  assert (H1 : String.prefix "```json" (String "`" post) = false).
  { cbn [String.prefix]. repeat (destruct (ascii_dec _ _); [|reflexivity]).
    destruct post as [|c p]; [reflexivity|].
    cbn [String.prefix] in Hpost |- *.
    destruct (ascii_dec "`" c); [|reflexivity].
    destruct p; discriminate Hpost. }
  rewrite H2, H1.
  destruct (Str.cut "```json" post) as [[a b]|]; [|exact I].
  right. exists a. reflexivity.
Qed.

Section PlannerProofs.
Variable create : string -> res string.
Variable json_loads : string -> res (list task).

(** Reading the reply never raises.  A reply without a [```json] fence is
    parsed as it stands.  From a reply with one fenced block, whose text
    before the fence and whose block hold no backtick and whose closing
    [```] is not followed by a backtick, exactly the block is parsed,
    whatever follows; so it is when the block is never closed.  The plan is
    what [json.loads] makes of that text, and its exception is the
    planner's. *)
Theorem planner_parses_the_fenced_block :
  (forall text, exists s, PlannerAgent.json_str text = Val s) /\
  (forall text,
     Str.contains "```json" text = false -> PlannerAgent.json_str text = Val text) /\
  (forall pre body post,
     Str.has_char "`" pre = false -> Str.has_char "`" body = false ->
     String.prefix "`" post = false ->
     PlannerAgent.json_str (pre +:+ "```json" +:+ body +:+ "```" +:+ post) = Val body) /\
  (forall pre body,
     Str.has_char "`" pre = false -> Str.has_char "`" body = false ->
     PlannerAgent.json_str (pre +:+ "```json" +:+ body) = Val body) /\
  (forall query pre body post,
     Str.has_char "`" pre = false -> Str.has_char "`" body = false ->
     String.prefix "`" post = false ->
     create (PlannerAgent.prompt query) =
       Val (pre +:+ "```json" +:+ body +:+ "```" +:+ post) ->
     PlannerAgent.plan create json_loads query = json_loads body).
Proof.
  assert (Hclosed : forall pre body post,
     Str.has_char "`" pre = false -> Str.has_char "`" body = false ->
     String.prefix "`" post = false ->
     PlannerAgent.json_str (pre +:+ "```json" +:+ body +:+ "```" +:+ post) = Val body).
  { intros pre body post Hpre Hbody Hpost. unfold PlannerAgent.json_str, Str.contains.
    rewrite (cut_past "`" "``json" pre _ Hpre), cut_here.
    rewrite (split_second "`" "``json" _ (pre +:+ EmptyString) (body +:+ "```" +:+ post))
      by (rewrite (cut_past "`" "``json" pre _ Hpre), cut_here; reflexivity).
    cbn [res_bind]. rewrite split_first.
    unfold Str.first_piece at 2. rewrite (cut_past "`" "``json" body _ Hbody).
    pose proof (cut_fence_after_ticks post Hpost) as Hcut.
    destruct (Str.cut "```json" ("```" +:+ post)) as [[a b]|].
    - destruct Hcut as [->|[a' ->]].
      + rewrite append_empty_r. unfold Str.first_piece.
        now rewrite (cut_none "`" "``" body Hbody).
      + now rewrite (first_piece_past "`" "``" body a' Hbody).
    - now rewrite (first_piece_past "`" "``" body post Hbody). }
  split; [|split; [|split; [exact Hclosed|split]]].
  - intros text. unfold PlannerAgent.json_str, Str.contains.
    destruct (Str.cut "```json" text) as [[a b]|] eqn:Hcut; [|eauto].
    rewrite (split_second "`" "``json" text a b Hcut). cbn [res_bind].
    rewrite split_first. eauto.
  - intros text Hno. unfold PlannerAgent.json_str. now rewrite Hno.
  - intros pre body Hpre Hbody. unfold PlannerAgent.json_str, Str.contains.
    rewrite (cut_past "`" "``json" pre _ Hpre), cut_here.
    rewrite (split_second "`" "``json" _ (pre +:+ EmptyString) body)
      by (rewrite (cut_past "`" "``json" pre _ Hpre), cut_here; reflexivity).
    cbn [res_bind]. rewrite split_first.
    unfold Str.first_piece.
    rewrite (cut_none "`" "``json" body Hbody), (cut_none "`" "``" body Hbody). reflexivity.
  - intros query pre body post Hpre Hbody Hpost Hreply.
    unfold PlannerAgent.plan. rewrite Hreply. cbn [res_bind].
    rewrite (Hclosed pre body post Hpre Hbody Hpost). reflexivity.
Qed.

End PlannerProofs.

(* ===================================================================== *)
(** ** The results of a web search *)

Lemma result_of_val_inv (r : json) (x : WebSearchAgent.search_result) :
  WebSearchAgent.result_of r = Val x ->
  exists d,
    r = JDict d /\
    Json.lookup d "title" = Some (WebSearchAgent.sr_title x) /\
    Json.lookup d "content" = Some (WebSearchAgent.sr_content x) /\
    Json.lookup d "url" = Some (WebSearchAgent.sr_url x) /\
    WebSearchAgent.sr_score x = default (JInt 0) (Json.lookup d "score").
Proof.
  unfold WebSearchAgent.result_of, Json.getitem, Json.get, KeyError.
  destruct r as [| | | | |l|d]; cbn [res_bind]; try discriminate.
  destruct (Json.lookup d "title") as [title|] eqn:Ht; cbn [res_bind]; [|discriminate].
  destruct (Json.lookup d "content") as [content|] eqn:Hc; cbn [res_bind]; [|discriminate].
  destruct (Json.lookup d "url") as [url|] eqn:Hu; cbn [res_bind]; [|discriminate].
  intros Heq. inversion Heq; subst x. exists d.
  cbn [WebSearchAgent.sr_title WebSearchAgent.sr_content WebSearchAgent.sr_url
       WebSearchAgent.sr_score].
  repeat split; assumption || reflexivity.
Qed.

Lemma result_of_complete (d : list (string * json)) (title content url : json) :
  Json.lookup d "title" = Some title -> Json.lookup d "content" = Some content ->
  Json.lookup d "url" = Some url ->
  WebSearchAgent.result_of (JDict d) =
    Val {| WebSearchAgent.sr_title := title; WebSearchAgent.sr_content := content;
           WebSearchAgent.sr_url := url;
           WebSearchAgent.sr_score := default (JInt 0) (Json.lookup d "score") |}.
Proof.
  intros Ht Hc Hu. unfold WebSearchAgent.result_of, Json.getitem, Json.get.
  rewrite Ht, Hc, Hu. cbn [res_bind]. destruct (Json.lookup d "score"); reflexivity.
Qed.

Lemma results_of_val_inv (rs : list json) :
  forall out,
    WebSearchAgent.results_of rs = Val out ->
    Forall2 (fun r x => WebSearchAgent.result_of r = Val x) rs out.
Proof.
  induction rs as [|r rs IH]; intros out Hrun; cbn [WebSearchAgent.results_of] in Hrun.
  - inversion Hrun. constructor.
  - destruct (WebSearchAgent.result_of r) as [x|e] eqn:Hr; cbn [res_bind] in Hrun;
      [|discriminate].
    destruct (WebSearchAgent.results_of rs) as [xs|e]; cbn [res_bind] in Hrun;
      [|discriminate].
    inversion Hrun. constructor; [exact Hr|]. now apply IH.
Qed.

Lemma results_of_complete (rs : list json) :
  Forall (fun r => exists x, WebSearchAgent.result_of r = Val x) rs ->
  exists out, WebSearchAgent.results_of rs = Val out.
Proof.
  induction 1 as [|r rs [x Hx] _ [out IH]]; cbn [WebSearchAgent.results_of].
  - eauto.
  - rewrite Hx, IH. cbn [res_bind]. eauto.
Qed.

Lemma results_of_incomplete (rs : list json) (r : json) (e : exn) :
  r ∈ rs -> WebSearchAgent.result_of r = Exc e ->
  exists e', WebSearchAgent.results_of rs = Exc e'.
Proof.
  intros Hin Hr. induction rs as [|r0 rs IH]; [inversion Hin|].
  cbn [WebSearchAgent.results_of].
  destruct (WebSearchAgent.result_of r0) as [x|e0] eqn:H0; cbn [res_bind]; [|eauto].
  apply elem_of_cons in Hin as [->|Hin]; [congruence|].
  destruct (IH Hin) as [e' ->]. cbn [res_bind]. eauto.
Qed.

Section SearchProofs.
Variable post : string -> WebSearchAgent.request -> res json.
Variable api_key : string.

(** The search asks the service once, with the key, the query and the
    number of results wanted.  A reply without a [results] key gives the
    empty list.  A list that is returned has one entry for each result of
    the reply, in the order of the reply, holding its [title], [content] and
    [url] and its [score], or 0 where the reply gives none.  When every
    result is a mapping with the three keys the search returns; a single
    result without one of them makes the whole search raise, and so does a
    failure of the request: nothing is returned in part. *)
Theorem search_returns_every_result_or_raises (query : string) (max_results : Z)
  (reply : list (string * json)) :
  post WebSearchAgent.base_url
    {| WebSearchAgent.rq_api_key := api_key; WebSearchAgent.rq_query := query;
       WebSearchAgent.rq_max_results := max_results;
       WebSearchAgent.rq_include_answer := true |} = Val (JDict reply) ->
  (Json.lookup reply "results" = None ->
   WebSearchAgent.search post api_key query max_results = Val []) /\
  (forall rs out,
     Json.lookup reply "results" = Some (JList rs) ->
     WebSearchAgent.search post api_key query max_results = Val out ->
     Forall2 (fun r x => exists d,
                r = JDict d /\
                Json.lookup d "title" = Some (WebSearchAgent.sr_title x) /\
                Json.lookup d "content" = Some (WebSearchAgent.sr_content x) /\
                Json.lookup d "url" = Some (WebSearchAgent.sr_url x) /\
                WebSearchAgent.sr_score x = default (JInt 0) (Json.lookup d "score"))
       rs out) /\
  (forall rs,
     Json.lookup reply "results" = Some (JList rs) ->
     Forall (fun r => exists d title content url,
               r = JDict d /\ Json.lookup d "title" = Some title /\
               Json.lookup d "content" = Some content /\ Json.lookup d "url" = Some url)
       rs ->
     exists out,
       WebSearchAgent.search post api_key query max_results = Val out /\
       length out = length rs) /\
  (forall rs d,
     Json.lookup reply "results" = Some (JList rs) ->
     JDict d ∈ rs ->
     Json.lookup d "title" = None \/ Json.lookup d "content" = None \/
     Json.lookup d "url" = None ->
     exists e, WebSearchAgent.search post api_key query max_results = Exc e).
Proof.
  intros Hpost. unfold WebSearchAgent.search. rewrite Hpost. cbn [res_bind Json.get].
  split; [|split; [|split]].
  - intros ->. reflexivity.
  - intros rs out -> Hrun. cbn [res_bind Json.iterate] in Hrun.
    apply results_of_val_inv in Hrun.
    induction Hrun as [|r x rs out Hr _ IH]; constructor; [|exact IH].
    now apply result_of_val_inv.
  - intros rs -> Hall. cbn [res_bind Json.iterate].
    destruct (results_of_complete rs) as [out Hout].
    { eapply Forall_impl; [exact Hall|].
      intros r (d & title & content & url & -> & Ht & Hc & Hu).
      eexists. apply result_of_complete; eassumption. }
    exists out. split; [exact Hout|].
    apply results_of_val_inv in Hout. symmetry. eapply Forall2_length, Hout.
  - intros rs d -> Hin Hmiss. cbn [res_bind Json.iterate].
    assert (Hr : exists e, WebSearchAgent.result_of (JDict d) = Exc e).
    { destruct (WebSearchAgent.result_of (JDict d)) as [x|e] eqn:Hx; [|eauto].
      apply result_of_val_inv in Hx as (d' & Hd & Ht & Hc & Hu & _).
      inversion Hd; subst d'. destruct Hmiss as [Hm|[Hm|Hm]]; congruence. }
    destruct Hr as [e Hr]. eapply results_of_incomplete; eassumption.
Qed.

End SearchProofs.

(* ===================================================================== *)
(** ** The code execution agent *)

Lemma assoc_supported (language : string) :
  match CodeExecutionAgent.assoc CodeExecutionAgent.supported_languages language with
  | Some _ => language ∈ CodeExecutionAgent.get_supported_languages
  | None => language ∉ CodeExecutionAgent.get_supported_languages
  end.
Proof.
  unfold CodeExecutionAgent.get_supported_languages, CodeExecutionAgent.supported_languages.
  cbn [CodeExecutionAgent.assoc map fst].
  repeat match goal with
         | |- context [String.eqb ?a language] =>
             destruct (String.eqb_spec a language) as [<-|?]
         end;
    rewrite !elem_of_cons, elem_of_nil; intuition congruence.
Qed.

(** The command built for a piece of code: one of five forms, by the
    language; the text of the code is spliced in as it stands.  A language
    outside [get_supported_languages] raises [KeyError]. *)
Theorem build_command_by_language (code language : string) :
  (language ∈ CodeExecutionAgent.get_supported_languages <->
   exists command, CodeExecutionAgent._build_command code language = Val command) /\
  (language ∉ CodeExecutionAgent.get_supported_languages ->
   CodeExecutionAgent._build_command code language = KeyError language) /\
  (forall command,
     CodeExecutionAgent._build_command code language = Val command ->
     (language = "python" /\ command = "echo '" +:+ code +:+ "' | python3") \/
     (language = "javascript" /\ command = "echo '" +:+ code +:+ "' | node") \/
     (language = "typescript" /\ command = "echo '" +:+ code +:+ "' | ts-node") \/
     (language = "bash" /\ command = code) \/
     (language = "rust" /\
      command = "echo '" +:+ code +:+ "' > temp.rs && rustc temp.rs -o temp && ./temp")).
Proof.
  pose proof (assoc_supported language) as Hs.
  unfold CodeExecutionAgent._build_command.
  split; [|split].
  - destruct (CodeExecutionAgent.assoc _ language) as [executor|].
    + split; [intros _|intros _; exact Hs].
      repeat (destruct (String.eqb _ _); [eauto|]). eauto.
    + split; [contradiction|]. intros [command Hc]. discriminate Hc.
  - intros Hno. destruct (CodeExecutionAgent.assoc _ language); [contradiction|reflexivity].
  - intros command.
    unfold CodeExecutionAgent.supported_languages. cbn [CodeExecutionAgent.assoc].
    destruct (String.eqb_spec "python" language) as [<-|H1].
    { cbn. intros Heq. inversion Heq. left. split; reflexivity. }
    destruct (String.eqb_spec "javascript" language) as [<-|H2].
    { cbn. intros Heq. inversion Heq. right; left. split; reflexivity. }
    destruct (String.eqb_spec "typescript" language) as [<-|H3].
    { cbn. intros Heq. inversion Heq. right; right; left. split; reflexivity. }
    destruct (String.eqb_spec "bash" language) as [<-|H4].
    { cbn. intros Heq. inversion Heq. right; right; right; left. split; reflexivity. }
    destruct (String.eqb_spec "rust" language) as [<-|H5].
    { cbn. intros Heq. inversion Heq. right; right; right; right. split; reflexivity. }
    discriminate.
Qed.

Section SandboxProofs.
Variable sb : CodeExecutionAgent.sandbox.


End SandboxProofs.

Section AgentProofs.
Variable sb : CodeExecutionAgent.sandbox.

Lemma execute_returns (code language : string) (timeout : Z)
  (tr : list CodeExecutionAgent.sandbox_event) :
  exists r tr', CodeExecutionAgent.execute sb code language timeout tr = (Val r, tr').
Proof.
  unfold CodeExecutionAgent.execute, CodeExecutionAgent.try_exceptT, CodeExecutionAgent.retT.
  match goal with
  | |- context [let (_, _) := ?m tr in _] => destruct (m tr) as [[r|e] tr']
  end; eauto.
Qed.


(** Only Python and JavaScript are checked.  For every other language,
    supported or not, [validate_code] answers [valid = True] without a
    request to the sandbox service.  For the two it runs one [bash] command
    with a time-out of 10 seconds, and [valid] is the success of that run;
    it never raises. *)
Theorem validate_code_checks_two_languages (code language : string)
  (tr : list CodeExecutionAgent.sandbox_event) :
  (exists v tr', CodeExecutionAgent.validate_code sb code language tr = (Val v, tr')) /\
  (language <> "python" -> language <> "javascript" ->
   CodeExecutionAgent.validate_code sb code language tr =
     (Val {| CodeExecutionAgent.v_valid := true; CodeExecutionAgent.v_error := None |}, tr)) /\
  (language = "python" ->
   CodeExecutionAgent.validate_code sb code language tr =
     let run := CodeExecutionAgent.execute sb
                  ("python3 -m py_compile -c '" +:+ code +:+ "'") "bash" 10 tr in
     (res_bind (fst run) (fun result => Val (CodeExecutionAgent.validation_of result)),
      snd run)) /\
  (language = "javascript" ->
   CodeExecutionAgent.validate_code sb code language tr =
     let run := CodeExecutionAgent.execute sb ("node -c '" +:+ code +:+ "'") "bash" 10 tr in
     (res_bind (fst run) (fun result => Val (CodeExecutionAgent.validation_of result)),
      snd run)) /\
  (forall v tr',
     CodeExecutionAgent.validate_code sb code language tr = (Val v, tr') ->
     CodeExecutionAgent.v_valid v = true ->
     CodeExecutionAgent.v_error v = None).
Proof.
  assert (Hrun : forall cmd,
            CodeExecutionAgent.try_exceptT
              (CodeExecutionAgent.bindT (CodeExecutionAgent.execute sb cmd "bash" 10)
                 (fun result => CodeExecutionAgent.retT (CodeExecutionAgent.validation_of result)))
              (fun e => CodeExecutionAgent.retT
                          {| CodeExecutionAgent.v_valid := false;
                             CodeExecutionAgent.v_error := Some (str_exn e) |}) tr =
            (Val (CodeExecutionAgent.validation_of
                    (match fst (CodeExecutionAgent.execute sb cmd "bash" 10 tr) with
                     | Val r => r
                     | Exc _ => CodeExecutionAgent.unsupported ""
                     end)),
             snd (CodeExecutionAgent.execute sb cmd "bash" 10 tr)) /\
            exists r, fst (CodeExecutionAgent.execute sb cmd "bash" 10 tr) = Val r).
  { intros cmd.
    destruct (execute_returns cmd "bash" 10 tr) as (r & tr' & E).
    unfold CodeExecutionAgent.try_exceptT, CodeExecutionAgent.bindT. rewrite E.
    split; [reflexivity|eauto]. }
  assert (Hv : forall r, CodeExecutionAgent.v_valid (CodeExecutionAgent.validation_of r) = true ->
                         CodeExecutionAgent.v_error (CodeExecutionAgent.validation_of r) = None).
  { intros r. unfold CodeExecutionAgent.validation_of. cbn.
    intros ->. reflexivity. }
  unfold CodeExecutionAgent.validate_code.
  destruct (String.eqb_spec language "python") as [->|Hp].
  - destruct (Hrun ("python3 -m py_compile -c '" +:+ code +:+ "'")) as [E [r Hr]].
    rewrite E, Hr. cbn [res_bind].
    split; [eauto|]. split; [congruence|]. split; [reflexivity|].
    split; [discriminate|]. intros v tr' Heq. inversion Heq. apply Hv.
  - destruct (String.eqb_spec language "javascript") as [->|Hj].
    + destruct (Hrun ("node -c '" +:+ code +:+ "'")) as [E [r Hr]].
      rewrite E, Hr. cbn [res_bind].
      split; [eauto|]. split; [congruence|]. split; [discriminate|].
      split; [reflexivity|]. intros v tr' Heq. inversion Heq. apply Hv.
    + unfold CodeExecutionAgent.try_exceptT, CodeExecutionAgent.retT.
      split; [eauto|]. split; [reflexivity|]. split; [contradiction|].
      split; [contradiction|]. intros v tr' Heq. inversion Heq. reflexivity.
Qed.

End AgentProofs.

(* ===================================================================== *)
(** ** The reports, the agents and the endpoint at the scenarios *)



(** The plan of one search, run to its outcome. *)
Lemma returned_outcome_witness :
  exists o w',
    EnhancedAgentOrchestrator.execute default_settings
      (Scenario.agents_of Scenario.one_search_plan) Scenario.one_search_plan
      (TokenBudgetManager_init default_settings) "what is X?" "query-1" Scenario.healthy =
      (Val o, w') /\
    o_agents_used o = Z.of_nat (length (o_steps o)) /\
    keys (o_intermediate_results o) = seqZ 0 (o_agents_used o) /\
    o_query_id o = "query-1" /\
    o_total_cost o = current_query_cost w'.
Proof.
  assert (E : exists o w',
             EnhancedAgentOrchestrator.execute default_settings
               (Scenario.agents_of Scenario.one_search_plan) Scenario.one_search_plan
               (TokenBudgetManager_init default_settings) "what is X?" "query-1"
               Scenario.healthy = (Val o, w'))
    by (vm_compute; eauto).
  destruct E as (o & w' & E). exists o, w'. split; [exact E|].
  destruct (returned_outcome_accounts_for_the_plan default_settings
              (Scenario.agents_of Scenario.one_search_plan) Scenario.one_search_plan
              (TokenBudgetManager_init default_settings) "what is X?" "query-1"
              Scenario.healthy o w' E)
    as (_ & Hn & _ & _ & Hk & Hid & _ & Hc & _).
  repeat split; assumption.
Defined.

Example one_search_outcome :
  match fst (EnhancedAgentOrchestrator.execute default_settings
               (Scenario.agents_of Scenario.one_search_plan) Scenario.one_search_plan
               (TokenBudgetManager_init default_settings) "what is X?" "query-1"
               Scenario.healthy) with
  | Val o =>
      o_intermediate_results o = [(0, "results for search web for X")] /\
      o_answer o = "answer" /\ o_agents_used o = 1
  | Exc _ => False
  end.
Proof. vm_compute. repeat split. Qed.

(** The same plan with a daily budget of zero. *)
Lemma zero_daily_budget_witness :
  exists m w',
    EnhancedAgentOrchestrator.execute Scenario.zero_daily_settings
      (Scenario.agents_of Scenario.one_search_plan) Scenario.one_search_plan
      (TokenBudgetManager_init Scenario.zero_daily_settings) "what is X?" "query-1"
      Scenario.healthy =
      (Exc (AgentExecutionException ("Query execution failed: " +:+ m)), w') /\
    queries_failed (w_metrics w') = queries_failed (w_metrics Scenario.healthy) + 1.
Proof.
  apply (zero_daily_budget_fails_every_query Scenario.zero_daily_settings
           (Scenario.agents_of Scenario.one_search_plan) Scenario.one_search_plan
           (TokenBudgetManager_init Scenario.zero_daily_settings) "what is X?" "query-1"
           Scenario.healthy).
  vm_compute. reflexivity.
Defined.

(** With a daily budget of zero the search runs, its usage is recorded, and
    the query fails at the gauge. *)
Example zero_daily_budget_fails_after_the_plan :
  fst (EnhancedAgentOrchestrator.execute Scenario.zero_daily_settings
         (Scenario.agents_of Scenario.one_search_plan) Scenario.one_search_plan
         (TokenBudgetManager_init Scenario.zero_daily_settings) "what is X?" "query-1"
         Scenario.healthy) =
    Exc (AgentExecutionException "Query execution failed: float division by zero") /\
  map call_method
    (w_calls (snd (EnhancedAgentOrchestrator.execute Scenario.zero_daily_settings
                     (Scenario.agents_of Scenario.one_search_plan) Scenario.one_search_plan
                     (TokenBudgetManager_init Scenario.zero_daily_settings) "what is X?"
                     "query-1" Scenario.healthy))) = ["plan"; "search"; "synthesize"].
Proof. split; vm_compute; reflexivity. Qed.

(** Two searches by the same agent: the outcome's total is twice the cost
    of one search, and [agent_costs] holds the cost of one. *)
Example two_searches_one_entry :
  match fst (EnhancedAgentOrchestrator.execute default_settings
               (Scenario.agents_of Sample.two_searches) Sample.two_searches
               (TokenBudgetManager_init default_settings) "what is X?" "query-1"
               Scenario.healthy) with
  | Val o =>
      o_agent_costs o !! "web_search" = Some 0.00062999999999999992%float /\
      size (o_agent_costs o) = 1%nat /\
      o_total_cost o = (0 + 0.00062999999999999992 + 0.00062999999999999992)%float
  | Exc _ => False
  end.
Proof. vm_compute. repeat split. Qed.

(** The sample reply of the search service. *)
Lemma search_witness :
  exists out,
    WebSearchAgent.search Sample.post "key" "rocq" 5 = Val out /\
    length out = 2%nat.
Proof.
  destruct (search_returns_every_result_or_raises Sample.post "key" "rocq" 5
              [("answer", JStr "a proof assistant");
               ("results",
                JList [JDict [("title", JStr "Rocq"); ("content", JStr "The Rocq prover");
                              ("url", JStr "https://rocq-prover.org");
                              ("score", JFloat 0.9)];
                       JDict [("title", JStr "Manual");
                              ("url", JStr "https://rocq-prover.org/doc");
                              ("content", JStr "Reference manual")]])] eq_refl)
    as (_ & _ & Hall & _).
  apply (Hall _ eq_refl).
  repeat constructor; eexists _, _, _, _; repeat split; reflexivity.
Defined.

Example search_scores :
  match WebSearchAgent.search Sample.post "key" "rocq" 5 with
  | Val out => map WebSearchAgent.sr_score out = [JFloat 0.9; JInt 0]
  | Exc _ => False
  end.
Proof. vm_compute. reflexivity. Qed.

(** The report and the history of a day on which 99.97 of 100 is spent. *)
Example report_of_a_nearly_spent_day :
  fst (get_daily_usage (TokenBudgetManager_init default_settings) Scenario.nearly_spent) =
    Val (UsageStats {| s_date := "2025-01-01";
                       s_total_cost := 99.97;
                       s_total_tokens := 1000000;
                       s_queries_processed := 40;
                       s_budget_usage_percent := PyFloat 99.97;
                       s_daily_budget := Some 100%float;
                       s_remaining_budget := Some 0.030000000000001137%float |}) /\
  fst (get_daily_usage (TokenBudgetManager_init default_settings) Scenario.outage) =
    Val (UsageReportError "Error connecting to Redis") /\
  fst (get_daily_usage (TokenBudgetManager_init Scenario.zero_daily_settings)
         Scenario.nearly_spent) =
    Val (UsageReportError "float division by zero").
Proof. repeat split; vm_compute; reflexivity. Qed.

Example history_of_three_days :
  map s_date
    (match fst (get_usage_history (TokenBudgetManager_init default_settings) Sample.today 3
                  Scenario.nearly_spent) with
     | Val h => h
     | Exc _ => []
     end) = ["2024-12-30"; "2024-12-31"; "2025-01-01"] /\
  map s_total_tokens
    (match fst (get_usage_history (TokenBudgetManager_init default_settings) Sample.today 3
                  Scenario.nearly_spent) with
     | Val h => h
     | Exc _ => []
     end) = [0; 0; 1000000] /\
  fst (get_usage_history (TokenBudgetManager_init default_settings) Sample.today 3
         Scenario.outage) = Val [] /\
  fst (get_usage_history (TokenBudgetManager_init default_settings) 2 3
         Scenario.nearly_spent) = Val [] /\
  Date.isoformat (Date.ord2ymd Sample.today) = "2025-01-01".
Proof. repeat split; vm_compute; reflexivity. Qed.

(** A reset of today, then a read. *)
Example reset_of_a_nearly_spent_day :
  usage_seen Scenario.nearly_spent = 99.97%float /\
  usage_seen (snd (reset_daily_usage None Scenario.nearly_spent)) = 0%float /\
  usage_seen (snd (reset_daily_usage (Some "") Scenario.nearly_spent)) = 0%float /\
  usage_seen (snd (reset_daily_usage (Some "2024-12-31") Scenario.nearly_spent)) =
    99.97%float.
Proof. repeat split; vm_compute; reflexivity. Qed.

(** The planner on a fenced reply. *)
Example plan_of_a_fenced_reply :
  PlannerAgent.json_str Sample.fenced_reply = Val (newline +:+ "[]" +:+ newline) /\
  PlannerAgent.plan (fun _ => Val Sample.fenced_reply)
    (fun s => if String.eqb s (newline +:+ "[]" +:+ newline) then Val []
              else Exc (PyError "JSONDecodeError" "Expecting value")) "what is X?" = Val [].
Proof. split; vm_compute; reflexivity. Qed.

(** The code execution agent on the two sample sandboxes. *)
Example run_in_a_clean_sandbox :
  CodeExecutionAgent.execute Sample.clean_sandbox "print(1)" "python" 30 [] =
    (Val {| CodeExecutionAgent.er_success := true;
            CodeExecutionAgent.er_stdout := "1";
            CodeExecutionAgent.er_stderr := "";
            CodeExecutionAgent.er_exit_code := 0;
            CodeExecutionAgent.er_execution_time := PyFloat 0.25;
            CodeExecutionAgent.er_error := None;
            CodeExecutionAgent.er_language := Some "python" |},
     [CodeExecutionAgent.SandboxCreate;
      CodeExecutionAgent.ProcessStart "echo 'print(1)' | python3" 30;
      CodeExecutionAgent.ProcessWait;
      CodeExecutionAgent.SandboxClose]) /\
  CodeExecutionAgent.execute Sample.slow_sandbox "while True: pass" "python" 30 [] =
    (Val {| CodeExecutionAgent.er_success := false;
            CodeExecutionAgent.er_stdout := "";
            CodeExecutionAgent.er_stderr := "Timeout error";
            CodeExecutionAgent.er_exit_code := -1;
            CodeExecutionAgent.er_execution_time := PyInt 30;
            CodeExecutionAgent.er_error := Some "Execution timed out after 30 seconds";
            CodeExecutionAgent.er_language := None |},
     [CodeExecutionAgent.SandboxCreate;
      CodeExecutionAgent.ProcessStart "echo 'while True: pass' | python3" 30;
      CodeExecutionAgent.ProcessWait;
      CodeExecutionAgent.SandboxClose]) /\
  CodeExecutionAgent.execute Sample.clean_sandbox "PRINT 1" "cobol" 30 [] =
    (Val (CodeExecutionAgent.unsupported "cobol"), []) /\
  CodeExecutionAgent.validate_code Sample.clean_sandbox "PRINT 1" "cobol" [] =
    (Val {| CodeExecutionAgent.v_valid := true; CodeExecutionAgent.v_error := None |}, []) /\
  snd (CodeExecutionAgent.validate_code Sample.clean_sandbox "print(1)" "python" []) =
    [CodeExecutionAgent.SandboxCreate;
     CodeExecutionAgent.ProcessStart "python3 -m py_compile -c 'print(1)'" 10;
     CodeExecutionAgent.ProcessWait;
     CodeExecutionAgent.SandboxClose].
Proof. repeat split; vm_compute; reflexivity. Qed.

(** The endpoint on the plan the prompt gives as its example: the first
    task is a web search. *)
Example endpoint_on_the_example_plan :
  match fst (Main.execute_query (fun _ => Val "[]")
               (fun _ => Val [Scenario.search_task; Scenario.forward_task])
               Sample.post "key" (fun _ => Exc (PyError "ValidationError" "")) "what is X?"
               {| w_redis := {| faults := []; hashes := ∅; lists := ∅ |};
                  w_today := "2025-01-01"; w_log := []; w_calls := [];
                  current_query_id := ""; current_query_cost := 0; agent_costs := ∅;
                  w_metrics := Scenario.no_metrics |}) with
  | Val response =>
      String.prefix "Error executing query: " (Main.qr_answer response) = true /\
      Main.qr_steps response = [] /\ Main.qr_intermediate_results response = []
  | Exc _ => False
  end.
Proof. vm_compute. repeat split. Qed.

(* ===================================================================== *)
(** ** The order of the invocations *)

Section InvocationOrder.
Context {R : Type} `{PyObject R}.
Variable settings : Settings.
Variable agents : gmap string (agent R).
Variable planner : agent R.
Variable token_budget : TokenBudgetManager.

(** A dispatch that returns has awaited one method of the agent. *)
Lemma dispatch_val_invocation (a : agent R) (name txt : string) (ctx : dict R) (w : world R)
  (r : R) :
  fst (EnhancedAgentOrchestrator.dispatch a name txt ctx w) = Val r ->
  exists c, invocation_of a name txt ctx = [c] /\ call_agent c = name /\ call_task c = txt.
Proof.
  unfold EnhancedAgentOrchestrator.dispatch, invocation_of.
  destruct (a_execute a), (a_search a), (a_synthesize a); cbn;
    try discriminate; intros _; eexists; repeat split.
Qed.

(** A task that returns has added one invocation to the trace: of the
    agent it names, with its description. *)
Lemma run_task_val_trace (i : Z) (t : task) (results : dict R) (total : float) (w : world R)
  (st : dict R * float) (w' : world R) :
  EnhancedAgentOrchestrator.run_task agents token_budget i t results total w = (Val st, w') ->
  exists c,
    w_calls w' = (w_calls w ++ [c])%list /\
    Some (call_agent c) = t_agent t /\ Some (call_task c) = t_task t.
Proof.
  intros Hrun.
  destruct (run_task_val_inv agents token_budget i t results total w st w' Hrun)
    as ((name & a & txt & Hn & Ha & Ht) & _).
  destruct (run_task_runs_agent token_budget agents i t results total name a txt w Hn Ha Ht)
    as (bc & w1 & _ & Hc1 & w2 & Hc2 & E).
  rewrite Hrun in E.
  destruct (fst (EnhancedAgentOrchestrator.dispatch a name txt
                   (dep_results results (task_get_depends_on t)) w1)) as [r|e] eqn:Hd;
    [|discriminate].
  inversion E; subst w2.
  destruct (dispatch_val_invocation a name txt _ w1 r Hd) as (c & Hinv & Hca & Hct).
  exists c. rewrite Hc2, dispatch_trace, Hc1, Hinv, Hn, Ht, Hca, Hct. repeat split.
Qed.

Lemma run_tasks_val_trace (tasks : list task) :
  forall (i : Z) (results : dict R) (total : float) (w : world R) (st : dict R * float)
    (w' : world R),
    EnhancedAgentOrchestrator.run_tasks agents token_budget tasks i results total w =
      (Val st, w') ->
    exists cs,
      w_calls w' = (w_calls w ++ cs)%list /\
      map (fun c => Some (call_agent c)) cs = map t_agent tasks /\
      map (fun c => Some (call_task c)) cs = map t_task tasks.
Proof.
  induction tasks as [|t rest IH]; intros i results total w st w' Hrun;
    cbn [EnhancedAgentOrchestrator.run_tasks] in Hrun.
  - inversion Hrun; subst. exists []. rewrite app_nil_r. repeat split.
  - apply bind_val_inv in Hrun as (st1 & w1 & Htask & Hrun).
    apply run_task_val_trace in Htask as (c & Hc & Hca & Hct).
    apply IH in Hrun as (cs & Hcs & Hcas & Hcts).
    exists (c :: cs). rewrite Hcs, Hc, <- app_assoc. cbn [map app].
    rewrite Hca, Hct, Hcas, Hcts. repeat split.
Qed.

(** When [execute] returns an outcome, the planner was invoked first and
    once, then one capability for each step of the plan, in the order of the
    plan, each with the description of its step, and the synthesis last;
    nothing else was invoked. *)
Theorem agents_are_invoked_once_in_plan_order (query uuid : string) (w : world R)
  (o : query_outcome R) (w' : world R) :
  EnhancedAgentOrchestrator.execute settings agents planner token_budget query uuid w =
    (Val o, w') ->
  exists cs,
    w_calls w' =
      (w_calls w ++
       [{| call_agent := "planner"; call_method := "plan"; call_task := query;
           call_context := None |}] ++
       cs ++
       [{| call_agent := "synthesis"; call_method := "synthesize"; call_task := query;
           call_context := Some (o_intermediate_results o) |}])%list /\
    length cs = length (o_steps o) /\
    map (fun c => Some (call_agent c)) cs = map t_agent (o_steps o) /\
    map (fun c => Some (call_task c)) cs = map t_task (o_steps o).
Proof.
  unfold EnhancedAgentOrchestrator.execute. intros Hrun.
  apply bind_val_inv in Hrun as (_u & w0 & Hset & Hrun).
  apply try_except_val_inv in Hrun as [Hrun|(e & wf & _ & Hrun)].
  - apply bind_val_inv in Hrun as (_u1 & wl & Hl & Hrun).
    apply bind_val_inv in Hrun as (tasks & w1 & Hplan & Hrun).
    apply bind_val_inv in Hrun as (_u2 & w1' & Hmax & Hrun).
    apply bind_val_inv in Hrun as ([results total] & w2 & Htasks & Hrun).
    apply bind_val_inv in Hrun as (answer & w3 & Hsyn & Hrun).
    apply bind_val_inv in Hrun as (cost & w3' & Hcost & Hrun).
    apply bind_val_inv in Hrun as (_u3 & w4 & Hrec & Hrun).
    apply bind_val_inv in Hrun as (_u4 & w5 & Hend & Hrun).
    apply bind_val_inv in Hrun as (_u5 & w6 & Hlog & Hrun).
    unfold call_plan in Hplan. destruct (a_plan planner) as [f|] eqn:Hf; [|discriminate].
    inversion Hplan as [[Hq Hw1]].
    destruct (Z.of_nat (length tasks) >? MAX_AGENTS_PER_QUERY settings) eqn:Hn;
      [discriminate|].
    inversion Hmax; subst w1'.
    inversion Hcost; subst cost w3'.
    unfold EnhancedAgentOrchestrator.record_cost in Hrec.
    destruct (Py.truediv _ _); [|discriminate].
    inversion Hrec; subst w4. inversion Hend; subst w5. inversion Hlog; subst w6.
    inversion Hrun; subst w' o. inversion Hl; subst wl. inversion Hset; subst w0.
    cbn [o_steps o_intermediate_results w_calls with_metrics with_log with_calls with_query
         fst snd] in *.
    apply run_tasks_val_trace in Htasks as (cs & Hcs & Hcas & Hcts).
    unfold call_synthesis in Hsyn.
    apply bind_val_inv in Hsyn as (ag & w2' & Hag & Hsyn).
    unfold lift in Hag. inversion Hag as [[Hag' Hw2]]. subst w2'.
    destruct (a_synthesize ag) as [g|]; [|discriminate].
    unfold invoke in Hsyn. inversion Hsyn as [[Hans Hw3]].
    exists cs. cbn [w_calls with_calls]. rewrite Hcs, <- Hw1.
    cbn [w_calls with_calls with_log with_query]. rewrite <- !app_assoc.
    split; [reflexivity|]. split; [|split; assumption].
    apply (f_equal length) in Hcas. now rewrite !length_map in Hcas.
  - apply bind_val_inv in Hrun as (_u1 & w1 & _ & Hrun).
    apply bind_val_inv in Hrun as (_u2 & w2 & _ & Hrun).
    discriminate Hrun.
Qed.

End InvocationOrder.

(** The plan of one search: the planner, the search, the synthesis. *)
Lemma invocation_order_witness :
  exists o w' cs,
    EnhancedAgentOrchestrator.execute default_settings
      (Scenario.agents_of Scenario.one_search_plan) Scenario.one_search_plan
      (TokenBudgetManager_init default_settings) "what is X?" "query-1" Scenario.healthy =
      (Val o, w') /\
    w_calls w' =
      (w_calls Scenario.healthy ++
       [{| call_agent := "planner"; call_method := "plan"; call_task := "what is X?";
           call_context := None |}] ++
       cs ++
       [{| call_agent := "synthesis"; call_method := "synthesize";
           call_task := "what is X?";
           call_context := Some (o_intermediate_results o) |}])%list /\
    length cs = length (o_steps o).
Proof.
  assert (E : exists o w',
             EnhancedAgentOrchestrator.execute default_settings
               (Scenario.agents_of Scenario.one_search_plan) Scenario.one_search_plan
               (TokenBudgetManager_init default_settings) "what is X?" "query-1"
               Scenario.healthy = (Val o, w'))
    by (vm_compute; eauto).
  destruct E as (o & w' & E).
  destruct (agents_are_invoked_once_in_plan_order default_settings
              (Scenario.agents_of Scenario.one_search_plan) Scenario.one_search_plan
              (TokenBudgetManager_init default_settings) "what is X?" "query-1"
              Scenario.healthy o w' E) as (cs & Hc & Hl & _).
  exists o, w', cs. split; [exact E|]. split; [exact Hc|exact Hl].
Defined.

Section DailyCheck.
Context {R : Type}.
Variable self : TokenBudgetManager.

(** The daily check never takes its fail-open handler: the read it makes
    cannot raise.  It always answers by comparing the estimate with the
    daily budget less the usage it read, which is 0.0 when the round trip
    failed, and the only event it can log is the rejection. *)
Theorem daily_check_always_compares (estimated_cost : float) (w : world R) :
  exists w',
    check_daily_budget self estimated_cost w =
      (Val (negb (Py.gt estimated_cost (daily_budget self - usage_seen w))), w') /\
    w_log w' =
      (if Py.gt estimated_cost (daily_budget self - usage_seen w)
       then w_log w ++ ["daily_budget_exceeded"] else w_log w)%list /\
    (ledger_down w = true ->
     fst (check_daily_budget self estimated_cost w) =
       Val (negb (Py.gt estimated_cost (daily_budget self - 0)))).
Proof.
  unfold check_daily_budget, try_except, bind. rewrite get_daily_usage_run.
  destruct (Py.gt estimated_cost (daily_budget self - usage_seen w)) eqn:Hgt;
    (eexists; split; [reflexivity|]); (split; [reflexivity|]);
    intros Hd; unfold usage_seen in Hgt; rewrite Hd in Hgt; rewrite Hgt; reflexivity.
Qed.

End DailyCheck.

(** During an outage an estimate above the whole daily budget is still
    rejected, and one within it is approved. *)
Example daily_check_during_an_outage :
  fst (check_daily_budget (TokenBudgetManager_init Scenario.small_daily_settings) 0.037605
         Scenario.outage) = Val false /\
  fst (check_daily_budget (TokenBudgetManager_init default_settings) 0.037605
         Scenario.outage) = Val true.
Proof. split; vm_compute; reflexivity. Qed.

(* ===================================================================== *)
(** ** The two orchestrators *)

Section Refinement.
Context {R : Type} `{PyObject R}.
Variable settings : Settings.
Variable agents : gmap string (agent R).
Variable planner : agent R.
Variable token_budget : TokenBudgetManager.





End Refinement.

